(** * QUANTICS front-end: a shallow embedding of the calculation lifecycle

    The development follows the Python sources of the repository:
    - [src/runners/local_runner.py]  (calculation record, local runner),
    - [src/runners/aiida_integration.py] (output parser, analysis map),
    - [src/gui/main_window.py] (analysis map of the local path),
    - [src/utils/config.py] (configuration store).

    Python text is modelled by [string]: a sequence of characters with code
    points below 256.  Dictionaries are insertion-ordered association
    lists, objects that are shared and mutated live in a heap ([gmap]), the
    file system is a finite map from path strings to nodes. *)

From Stdlib Require Import ZArith Ascii String List Bool Lia QArith DecimalString.
From stdpp Require Import base option list gmap strings fin_maps.

Local Open Scope Z_scope.
Local Open Scope stdpp_scope.
Set Warnings "-register-all".

(** ** Python [str] *)

Module PyStr.

(** [str.isspace] on the code points below 256. *)
Definition is_space (c : ascii) : bool :=
  match c with
  | "009" | "010" | "011" | "012" | "013"
  | "028" | "029" | "030" | "031" | " "
  | "133" | "160" => true
  | _ => false
  end%char.

Definition is_empty (s : string) : bool :=
  match s with EmptyString => true | String _ _ => false end.

(** Truth value of a string: [if s:]. *)
Definition truthy (s : string) : bool := negb (is_empty s).

Fixpoint lstrip (s : string) : string :=
  match s with
  | EmptyString => EmptyString
  | String c s' => if is_space c then lstrip s' else s
  end.

Fixpoint rstrip (s : string) : string :=
  match s with
  | EmptyString => EmptyString
  | String c s' =>
      let r := rstrip s' in
      if is_space c && is_empty r then EmptyString else String c r
  end.

(** [s.strip()] *)
Definition strip (s : string) : string := rstrip (lstrip s).

(** [s.startswith(p)] *)
Fixpoint startswith (p s : string) : bool :=
  match p, s with
  | EmptyString, _ => true
  | String a p', String b s' => Ascii.eqb a b && startswith p' s'
  | String _ _, EmptyString => false
  end.

(** [sub in s] *)
Fixpoint contains (sub s : string) : bool :=
  startswith sub s ||
  match s with
  | EmptyString => false
  | String _ s' => contains sub s'
  end.

(** Pieces of [s] between the characters selected by [sep]; never empty
    as a list: [split_by sep ""] is [[""]]. *)
Fixpoint split_by (sep : ascii -> bool) (s : string) : list string :=
  match s with
  | EmptyString => [EmptyString]
  | String c s' =>
      if sep c then EmptyString :: split_by sep s'
      else match split_by sep s' with
           | h :: t => String c h :: t
           | [] => [String c EmptyString]
           end
  end.

(** [s.split(c)] for a separator of one character. *)
Definition split_on (c : ascii) (s : string) : list string :=
  split_by (Ascii.eqb c) s.

(** [s.split()] : the maximal runs of non-space characters. *)
Definition split_ws (s : string) : list string :=
  List.filter truthy (split_by is_space s).

(** [s.replace(a, b)] for single characters. *)
Fixpoint replace_char (a b : ascii) (s : string) : string :=
  match s with
  | EmptyString => EmptyString
  | String c s' =>
      String (if Ascii.eqb c a then b else c) (replace_char a b s')
  end.

(** [sep.join(l)] *)
Fixpoint join (sep : string) (l : list string) : string :=
  match l with
  | [] => EmptyString
  | [x] => x
  | x :: l' => x +:+ sep +:+ join sep l'
  end.

Definition nl : ascii := "010"%char.
Definition cr : ascii := "013"%char.

(** Iterating over a file opened in text mode: universal newlines, each
    line keeps its terminator (translated to a line feed). *)
Fixpoint file_lines (s : string) : list string :=
  match s with
  | EmptyString => []
  | String c s' =>
      if Ascii.eqb c nl then String nl EmptyString :: file_lines s'
      else if Ascii.eqb c cr then
        match s' with
        | String c' s'' =>
            if Ascii.eqb c' nl then String nl EmptyString :: file_lines s''
            else String nl EmptyString :: file_lines s'
        | EmptyString => [String nl EmptyString]
        end
      else match file_lines s' with
           | h :: t => String c h :: t
           | [] => [String c EmptyString]
           end
  end.

(** [l[i]] on a list of strings, [None] for [IndexError]. *)
Definition last_item (l : list string) : option string := List.last (map Some l) None.

(** [c * n] for a character [c]. *)
Definition repeat_char (c : ascii) (n : nat) : string :=
  string_of_list_ascii (repeat c n).

(** [f"{s:<width}"]: [s] followed by blanks up to [width] characters,
    never cut. *)
Definition ljust (width : nat) (s : string) : string :=
  s +:+ repeat_char " " (width - String.length s).

End PyStr.

Example strip_ex : PyStr.strip "  name = ho  " = "name = ho".
Proof. reflexivity. Qed.
Example split_ex : PyStr.split_on "=" "a=b=c" = ["a"; "b"; "c"].
Proof. reflexivity. Qed.
Example split_ws_ex : PyStr.split_ws " Total  energy -1.234 " = ["Total"; "energy"; "-1.234"].
Proof. reflexivity. Qed.
Example file_lines_ex :
  PyStr.file_lines ("a" +:+ String PyStr.cr (String PyStr.nl "b")) = [String "a" (String PyStr.nl ""); "b"].
Proof. reflexivity. Qed.

(** ** [pathlib] paths (POSIX flavour) *)

Module PyPath.
Import PyStr.

(** The root of a path: none, one slash, or exactly two slashes (which
    POSIX keeps apart from one). *)
Inductive anchor := Rel | Root | Root2.

Record Path := mkPath { anchor_of : anchor; parts : list string }.

Global Instance anchor_eq_dec : EqDecision anchor.
Proof. solve_decision. Defined.
Global Instance Path_eq_dec : EqDecision Path.
Proof. solve_decision. Defined.

Definition slash : ascii := "/"%char.

Definition anchor_str (a : anchor) : string :=
  match a with Rel => "" | Root => "/" | Root2 => "//" end.

Definition parse_anchor (s : string) : anchor :=
  match s with
  | String "/" (String "/" (String "/" _)) => Root
  | String "/" (String "/" _) => Root2
  | String "/" _ => Root
  | _ => Rel
  end.

(** A component that survives normalisation. *)
Definition keep_part (x : string) : bool :=
  truthy x && negb (String.eqb x ".").

(** [Path(s)] *)
Definition Path_of_str (s : string) : Path :=
  mkPath (parse_anchor s) (List.filter keep_part (split_on slash s)).

(** [str(p)] *)
Definition str (p : Path) : string :=
  match anchor_of p, parts p with
  | Rel, [] => "."
  | a, ps => anchor_str a +:+ join "/" ps
  end.

(** [p / s] : an absolute right operand replaces the left one. *)
Definition joinpath (p : Path) (s : string) : Path :=
  let q := Path_of_str s in
  match anchor_of q with
  | Rel => mkPath (anchor_of p) (parts p ++ parts q)
  | _ => q
  end.

(** [p.parent] *)
Definition parent (p : Path) : Path :=
  mkPath (anchor_of p) (List.removelast (parts p)).

(** [p.name] *)
Definition name (p : Path) : string := List.last (parts p) "".

(** The values [Path(...)] can produce: no component is empty, is a
    single dot, or holds a slash. *)
Definition part_ok (x : string) : bool :=
  keep_part x && negb (contains "/" x).
Definition path_ok (p : Path) : bool := forallb part_ok (parts p).

(** Lexical removal of [..] components, as [resolve()] does on a file
    system without symbolic links. *)
Fixpoint collapse (acc : list string) (ps : list string) : list string :=
  match ps with
  | [] => rev acc
  | x :: ps' =>
      if String.eqb x ".." then collapse (List.tl acc) ps'
      else collapse (x :: acc) ps'
  end.

(** [p.resolve()] with current directory [cwd]. *)
Definition resolve (cwd : Path) (p : Path) : Path :=
  match anchor_of p with
  | Rel => mkPath (anchor_of cwd) (collapse [] (parts cwd ++ parts p))
  | a => mkPath a (collapse [] (parts p))
  end.

End PyPath.

Notation "p // s" := (PyPath.joinpath p s) (at level 40, left associativity).

Example path_ex1 : PyPath.str (PyPath.Path_of_str "/tmp//runs/./ho/") = "/tmp/runs/ho".
Proof. reflexivity. Qed.
Example path_ex2 : PyPath.str (PyPath.Path_of_str "") = ".".
Proof. reflexivity. Qed.
Example path_ex3 : PyPath.str (PyPath.Path_of_str "/w" // "sub/x.op") = "/w/sub/x.op".
Proof. reflexivity. Qed.
Example path_ex4 : PyPath.str (PyPath.Path_of_str "/w" // "/etc") = "/etc".
Proof. reflexivity. Qed.
Example path_ex5 : PyPath.str (PyPath.resolve (PyPath.Path_of_str "/home/u") (PyPath.Path_of_str "../v/a.inp")) = "/home/v/a.inp".
Proof. reflexivity. Qed.

(** ** [datetime] (naive date-times, as [datetime.now()] returns them) *)

Module PyDatetime.

Record datetime := mkDT {
  year : Z; month : Z; day : Z;
  hour : Z; minute : Z; second : Z; microsecond : Z }.

Global Instance datetime_eq_dec : EqDecision datetime.
Proof. solve_decision. Defined.

Definition is_leap (y : Z) : bool :=
  (y mod 4 =? 0) && (negb (y mod 100 =? 0) || (y mod 400 =? 0)).

Definition days_in_month (y m : Z) : Z :=
  if m =? 2 then (if is_leap y then 29 else 28)
  else if (m =? 4) || (m =? 6) || (m =? 9) || (m =? 11) then 30
  else 31.

Definition in_range (lo hi x : Z) : bool := (lo <=? x) && (x <=? hi).

(** The checks of the [datetime] constructor. *)
Definition dt_valid (d : datetime) : bool :=
  in_range 1 9999 (year d) && in_range 1 12 (month d) &&
  in_range 1 (days_in_month (year d) (month d)) (day d) &&
  in_range 0 23 (hour d) && in_range 0 59 (minute d) &&
  in_range 0 59 (second d) && in_range 0 999999 (microsecond d).

Definition digit_char (d : Z) : ascii :=
  match d with
  | 0 => "0" | 1 => "1" | 2 => "2" | 3 => "3" | 4 => "4"
  | 5 => "5" | 6 => "6" | 7 => "7" | 8 => "8" | _ => "9"
  end%char.

(** The value of a decimal digit. *)
Definition digit_val (c : ascii) : option Z :=
  option_map Z.of_nat (Ascii.is_nat c).

(** [digits w n rest]: the [w] low decimal digits of [n], zero padded
    (the format [%0wd] on a number of at most [w] digits), then [rest]. *)
Fixpoint digits (w : nat) (n : Z) (rest : string) : string :=
  match w with
  | O => rest
  | S w' => digits w' (n / 10) (String (digit_char (n mod 10)) rest)
  end.

(** Reads exactly [w] decimal digits. *)
Fixpoint read_digits (w : nat) (s : string) (acc : Z) : option (Z * string) :=
  match w with
  | O => Some (acc, s)
  | S w' =>
      match s with
      | String c s' =>
          match digit_val c with
          | Some d => read_digits w' s' (acc * 10 + d)
          | None => None
          end
      | EmptyString => None
      end
  end.

Definition expect (c : ascii) (s : string) : option string :=
  match s with
  | String c' s' => if Ascii.eqb c c' then Some s' else None
  | EmptyString => None
  end.

(** [d.isoformat()] *)
Definition isoformat (d : datetime) : string :=
  digits 4 (year d) (String "-" (digits 2 (month d) (String "-" (digits 2 (day d)
    (String "T" (digits 2 (hour d) (String ":" (digits 2 (minute d) (String ":"
      (digits 2 (second d)
         (if microsecond d =? 0 then EmptyString
          else String "." (digits 6 (microsecond d) EmptyString)))))))))))).

(** The time part [HH[:MM[:SS[.fff[fff]]]]] of an ISO text. *)
Definition parse_time (s : string) : option (Z * Z * Z * Z) :=
  '(h, s) ← read_digits 2 s 0;
  match s with
  | EmptyString => Some (h, 0, 0, 0)
  | String ":" s =>
      '(m, s) ← read_digits 2 s 0;
      match s with
      | EmptyString => Some (h, m, 0, 0)
      | String ":" s =>
          '(sec, s) ← read_digits 2 s 0;
          match s with
          | EmptyString => Some (h, m, sec, 0)
          | String "." s =>
              match read_digits 6 s 0 with
              | Some (us, EmptyString) => Some (h, m, sec, us)
              | _ =>
                  match read_digits 3 s 0 with
                  | Some (ms, EmptyString) => Some (h, m, sec, ms * 1000)
                  | _ => None
                  end
              end
          | _ => None
          end
      | _ => None
      end
  | _ => None
  end.

(** [datetime.fromisoformat(s)], [None] for [ValueError].  The model
    covers the texts without a time zone; a text with one is refused. *)
Definition fromisoformat (s : string) : option datetime :=
  '(y, s) ← read_digits 4 s 0;
  s ← expect "-" s;
  '(mo, s) ← read_digits 2 s 0;
  s ← expect "-" s;
  '(d, s) ← read_digits 2 s 0;
  '(h, mi, sec, us) ←
    match s with
    | EmptyString => Some (0, 0, 0, 0)
    | String _ s' => parse_time s'
    end;
  let r := mkDT y mo d h mi sec us in
  if dt_valid r then Some r else None.

(** [d.strftime("%Y%m%d_%H%M%S")] *)
Definition strftime_stamp (d : datetime) : string :=
  digits 4 (year d) (digits 2 (month d) (digits 2 (day d)
    (String "_" (digits 2 (hour d) (digits 2 (minute d)
      (digits 2 (second d) EmptyString)))))).

(** [d.strftime("%Y-%m-%d %H:%M:%S")], the year with four digits. *)
Definition strftime_seconds (d : datetime) : string :=
  digits 4 (year d) (String "-" (digits 2 (month d) (String "-" (digits 2 (day d)
    (String " " (digits 2 (hour d) (String ":" (digits 2 (minute d) (String ":"
      (digits 2 (second d) EmptyString)))))))))).




End PyDatetime.

Example iso_ex1 :
  PyDatetime.isoformat (PyDatetime.mkDT 2024 3 7 9 5 0 0) = "2024-03-07T09:05:00".
Proof. reflexivity. Qed.
Example iso_ex2 :
  PyDatetime.isoformat (PyDatetime.mkDT 2024 3 7 9 5 0 1500) = "2024-03-07T09:05:00.001500".
Proof. reflexivity. Qed.
Example iso_ex3 :
  PyDatetime.fromisoformat "2024-03-07T09:05:00.001500" = Some (PyDatetime.mkDT 2024 3 7 9 5 0 1500).
Proof. reflexivity. Qed.
Example iso_ex4 : PyDatetime.fromisoformat "2023-02-29T00:00:00" = None.
Proof. reflexivity. Qed.
Example stamp_ex :
  PyDatetime.strftime_stamp (PyDatetime.mkDT 2024 3 7 9 5 0 0) = "20240307_090500".
Proof. reflexivity. Qed.

(** ** Python values, dictionaries, exceptions *)

Module Py.
Import PyStr PyPath PyDatetime.

(** The values a configuration or a [results] mapping holds.  A [dict]
    is an association list in insertion order, with string keys. *)
Inductive pyval :=
| PNone
| PBool (b : bool)
| PInt (z : Z)
| PStr (s : string)
| PPath (p : Path)
| PList (l : list pyval)
| PDict (d : list (string * pyval)).

(** [bool(v)] *)
Definition py_truthy (v : pyval) : bool :=
  match v with
  | PNone => false
  | PBool b => b
  | PInt z => negb (z =? 0)
  | PStr s => truthy s
  | PPath _ => true
  | PList l => match l with [] => false | _ => true end
  | PDict d => match d with [] => false | _ => true end
  end.

Section Dict.
Context {V : Type}.

(** [d.get(k)] *)
Fixpoint dict_get (k : string) (d : list (string * V)) : option V :=
  match d with
  | [] => None
  | (k', v) :: d' => if String.eqb k k' then Some v else dict_get k d'
  end.

(** [k in d] *)
Definition dict_mem (k : string) (d : list (string * V)) : bool :=
  match dict_get k d with Some _ => true | None => false end.

(** [d[k] = v]: an existing key keeps its place, a new one goes last. *)
Fixpoint dict_set (k : string) (v : V) (d : list (string * V)) : list (string * V) :=
  match d with
  | [] => [(k, v)]
  | (k', v') :: d' =>
      if String.eqb k k' then (k', v) :: d'
      else (k', v') :: dict_set k v d'
  end.

Definition dict_keys (d : list (string * V)) : list string := map fst d.
End Dict.

(** What [json.dump] accepts: everything but a path object. *)
Fixpoint jsonable (v : pyval) : bool :=
  match v with
  | PPath _ => false
  | PList l => forallb jsonable l
  | PDict d => forallb (fun kv => jsonable (snd kv)) d
  | _ => true
  end.

Inductive exn_kind :=
| ValueError | TypeError | KeyError | OSError
| FileNotFoundError | FileExistsError | SameFileError.

Record exn := mkExn { kind : exn_kind; message : string }.

Inductive result (A : Type) :=
| Ok (a : A)
| Raise (e : exn).
Global Arguments Ok {A} a.
Global Arguments Raise {A} e.

(** Computations over a state [S] that return or raise; the state
    reached when an exception is raised is kept, as in Python. *)
Definition ST (S A : Type) : Type := S -> result A * S.

Definition ret {S A} (a : A) : ST S A := fun s => (Ok a, s).
Definition raise {S A} (e : exn) : ST S A := fun s => (Raise e, s).
Definition bind {S A B} (m : ST S A) (k : A -> ST S B) : ST S B :=
  fun s => match m s with
           | (Ok a, s') => k a s'
           | (Raise e, s') => (Raise e, s')
           end.
(** [try: m  except Exception as e: h e] *)
Definition try_except {S A} (m : ST S A) (h : exn -> ST S A) : ST S A :=
  fun s => match m s with
           | (Ok a, s') => (Ok a, s')
           | (Raise e, s') => h e s'
           end.
Definition get {S} : ST S S := fun s => (Ok s, s).
Definition gets {S A} (f : S -> A) : ST S A := fun s => (Ok (f s), s).
Definition modify {S} (f : S -> S) : ST S unit := fun s => (Ok tt, f s).

(** [for x in l: body x] *)
Fixpoint for_each {S A} (l : list A) (body : A -> ST S unit) : ST S unit :=
  match l with
  | [] => ret tt
  | x :: l' => bind (body x) (fun _ => for_each l' body)
  end.

End Py.

Notation "x <- c1 ;; c2" := (Py.bind c1 (fun x => c2))
  (at level 62, c1 at next level, right associativity).
Notation "c1 ;;; c2" := (Py.bind c1 (fun _ => c2))
  (at level 62, right associativity).

(** ** The machine: file system, clock, external programs *)

Module OS.
Import PyStr PyPath PyDatetime Py.

(** What a file holds.  A file written by [json.dump] is kept as the
    document itself; [Partial] is a file whose [json.dump] raised after
    the file was opened for writing. *)
Inductive content :=
| Text (s : string)
| Json (v : pyval)
| Partial.

Inductive node :=
| File (c : content)
| Dir.

(** What the program does that the outside can observe. *)
Inductive event :=
| EvPrint (s : string)
| EvMkdir (p : Path)
| EvWrite (p : Path)
| EvCopy2 (src dst : Path)
| EvCopytree (src dst : Path)
| EvSpawn (cmd : list string) (cwd : Path) (stdin : option string)
| EvExit (rc : Z).

(** The outcome of an external process: exit code, captured output, and
    the file system, clock and free space it leaves behind. *)
Record proc_result := mkProc {
  rc : Z; out : string; err : string;
  fs_after : gmap string node;
  clock_after : datetime;
  full_after : bool }.

(** The installed programs: command line, working directory (resolved),
    standard input, file system and clock at the start.  [None] when the
    executable cannot be started. *)
Definition Machine : Type :=
  list string -> string -> option string ->
  gmap string node -> datetime -> option proc_result.

Record World := mkWorld {
  fs : gmap string node;
  cwd : Path;
  clock : datetime;
  disk_full : bool;
  machine : Machine;
  trace : list event }.

Definition with_fs (f : gmap string node) (w : World) : World :=
  mkWorld f (cwd w) (clock w) (disk_full w) (machine w) (trace w).
Definition emit_w (e : event) (w : World) : World :=
  mkWorld (fs w) (cwd w) (clock w) (disk_full w) (machine w) (trace w ++ [e]).

(** The key of a path in the file system. *)
Definition key (w : World) (p : Path) : string := str (resolve (cwd w) p).

Definition lookup_node (w : World) (p : Path) : option node := fs w !! key w p.

(** [p.exists()] *)
Definition path_exists (w : World) (p : Path) : bool :=
  match lookup_node w p with Some _ => true | None => false end.

Definition is_dir (w : World) (p : Path) : bool :=
  match lookup_node w p with Some Dir => true | _ => false end.

Definition read_content (w : World) (p : Path) : option content :=
  match lookup_node w p with Some (File c) => Some c | _ => None end.

Definition os_error (k : exn_kind) (what : string) (p : Path) : exn :=
  mkExn k (what +:+ ": '" +:+ str p +:+ "'").

Definition emit (e : event) : ST World unit := modify (emit_w e).

(** [print(s)] *)
Definition print (s : string) : ST World unit := emit (EvPrint s).

(** [datetime.now()] *)
Definition now : ST World datetime := gets clock.

(** [open(p, "r")] and reading the text. *)
Definition read_text (p : Path) : ST World string :=
  fun w => match read_content w p with
           | Some (Text s) => (Ok s, w)
           | Some _ => (Raise (os_error ValueError "not a text file" p), w)
           | None => (Raise (os_error FileNotFoundError "No such file or directory" p), w)
           end.

(** Creating or replacing the file [p]: the directory must exist, [p]
    must not be a directory, there must be room. *)
Definition put_file (p : Path) (c : content) : ST World unit :=
  fun w =>
    let r := resolve (cwd w) p in
    if negb (is_dir w (parent r)) then
      (Raise (os_error FileNotFoundError "No such file or directory" p), w)
    else if is_dir w r then
      (Raise (os_error OSError "Is a directory" p), w)
    else if disk_full w then
      (Raise (os_error OSError "No space left on device" p), w)
    else (Ok tt, with_fs (<[str r := File c]> (fs w)) w).

(** [open(p, "w")] followed by writing [c]. *)
Definition write_file (p : Path) (c : content) : ST World unit :=
  emit (EvWrite p) ;;; put_file p c.

(** One level of [mkdir] with [exist_ok=True], on a resolved path. *)
Definition mkdir_resolved (orig r : Path) : ST World unit :=
  fun w =>
    match fs w !! str r with
    | Some Dir => (Ok tt, w)
    | Some (File _) => (Raise (os_error FileExistsError "File exists" orig), w)
    | None =>
        if negb (is_dir w (parent r)) then
          (Raise (os_error FileNotFoundError "No such file or directory" orig), w)
        else if disk_full w then
          (Raise (os_error OSError "No space left on device" orig), w)
        else (Ok tt, with_fs (<[str r := Dir]> (fs w)) w)
    end.

(** [p.mkdir(exist_ok=True)] *)
Definition mkdir (p : Path) : ST World unit :=
  emit (EvMkdir p) ;;;
  w <- get ;; mkdir_resolved p (resolve (cwd w) p).

(** The ancestors of a resolved path, outermost first, the path last. *)
Definition prefixes (r : Path) : list Path :=
  map (fun n => mkPath (anchor_of r) (firstn n (parts r)))
      (seq 1 (length (parts r))).

(** [p.mkdir(parents=True, exist_ok=True)] *)
Definition makedirs (p : Path) : ST World unit :=
  emit (EvMkdir p) ;;;
  w <- get ;;
  for_each (prefixes (resolve (cwd w) p)) (mkdir_resolved p).

(** [shutil.copy2(src, dst)]: into [dst] when it is a directory. *)
Definition copy2 (src dst : Path) : ST World unit :=
  emit (EvCopy2 src dst) ;;;
  w <- get ;;
  match read_content w src with
  | None => raise (os_error FileNotFoundError "No such file or directory" src)
  | Some c =>
      let target := if is_dir w dst then dst // name (resolve (cwd w) src) else dst in
      if String.eqb (key w target) (key w src)
      then raise (os_error SameFileError "are the same file" src)
      else put_file target c
  end.

(** The keys below a directory start with this. *)
Definition child_prefix (k : string) : string :=
  if String.eqb k "/" || String.eqb k "//" then k else k +:+ "/".

Fixpoint drop_prefix (p s : string) : option string :=
  match p, s with
  | EmptyString, _ => Some s
  | String a p', String b s' => if Ascii.eqb a b then drop_prefix p' s' else None
  | String _ _, EmptyString => None
  end.

(** The entries below [ksrc], moved below [kdst]. *)
Definition moved_entries (ksrc kdst : string) (f : gmap string node) : list (string * node) :=
  omap (fun kn => match drop_prefix (child_prefix ksrc) (fst kn) with
                  | Some rest => Some (child_prefix kdst +:+ rest, snd kn)
                  | None => None
                  end)
       (map_to_list f).

(** [shutil.copytree(src, dst)]: [dst] must not exist. *)
Definition copytree (src dst : Path) : ST World unit :=
  emit (EvCopytree src dst) ;;;
  w <- get ;;
  if negb (is_dir w src) then
    raise (os_error FileNotFoundError "No such file or directory" src)
  else if path_exists w dst then
    raise (os_error FileExistsError "File exists" dst)
  else
    for_each (prefixes (resolve (cwd w) dst)) (mkdir_resolved dst) ;;;
    modify (fun w => with_fs (list_to_map (moved_entries (key w src) (key w dst) (fs w)) ∪ fs w) w).

(** [subprocess.run(cmd, cwd=dir, ...)]: the process runs to its end. *)
Definition spawn (cmd : list string) (dir : Path) (stdin : option string)
  : ST World proc_result :=
  emit (EvSpawn cmd dir stdin) ;;;
  w <- get ;;
  if negb (is_dir w dir) then
    raise (os_error FileNotFoundError "No such file or directory" dir)
  else
    match machine w cmd (key w dir) stdin (fs w) (clock w) with
    | None =>
        raise (mkExn FileNotFoundError
                 ("No such file or directory: '" +:+ List.hd "" cmd +:+ "'"))
    | Some r =>
        modify (fun w => mkWorld (fs_after r) (cwd w) (clock_after r)
                                 (full_after r) (machine w) (trace w)) ;;;
        emit (EvExit (rc r)) ;;;
        ret r
    end.

(** [with open(p, "w") as f: json.dump(v, f)] *)
Definition json_dump_file (p : Path) (v : pyval) : ST World unit :=
  if jsonable v then write_file p (Json v)
  else write_file p Partial ;;;
       raise (mkExn TypeError "Object of type PosixPath is not JSON serializable").

(** [with open(p, "r") as f: json.load(f)] *)
Definition json_load_file (p : Path) : ST World pyval :=
  fun w => match read_content w p with
           | Some (Json v) => (Ok v, w)
           | Some _ => (Raise (mkExn ValueError "Expecting value"), w)
           | None => (Raise (os_error FileNotFoundError "No such file or directory" p), w)
           end.

End OS.

(** ** Configuration store ([src/utils/config.py]) *)

Module Config.
Import PyStr PyPath PyDatetime Py OS.

Definition path_keys : list string :=
  ["inp_file"; "op_file"; "db_folder"; "working_directory";
   "quantics_executable"; "base_directory"].

Definition is_path_key (k : string) : bool :=
  existsb (String.eqb k) path_keys.

(** [str(item) if isinstance(item, Path) else item] *)
Definition serialize_item (item : pyval) : pyval :=
  match item with PPath p => PStr (str p) | _ => item end.

(** One turn of the loop of [_serialize_config], and the loop itself on
    a nested dictionary. *)
Fixpoint serialize_value (value : pyval) : pyval :=
  match value with
  | PPath p => PStr (str p)
  | PDict d =>
      PDict (fold_left (fun json_config kv =>
                          dict_set (fst kv) (serialize_value (snd kv)) json_config)
                       d [])
  | PList l => PList (map serialize_item l)
  | _ => value
  end.

Definition _serialize_config (config : list (string * pyval)) : list (string * pyval) :=
  fold_left (fun json_config kv =>
               dict_set (fst kv) (serialize_value (snd kv)) json_config)
            config [].

(** [Path(value)] *)
Definition Path_of_val (value : pyval) : result pyval :=
  match value with
  | PStr s => Ok (PPath (Path_of_str s))
  | PPath p => Ok (PPath p)
  | _ => Raise (mkExn TypeError "expected str, bytes or os.PathLike object")
  end.

Fixpoint deserialize_value (key : string) (value : pyval) : result pyval :=
  if is_path_key key && py_truthy value then Path_of_val value
  else match value with
       | PDict d =>
           match fold_left (fun acc kv =>
                              match acc with
                              | Ok result_config =>
                                  match deserialize_value (fst kv) (snd kv) with
                                  | Ok v => Ok (dict_set (fst kv) v result_config)
                                  | Raise e => Raise e
                                  end
                              | Raise e => Raise e
                              end) d (Ok [])
           with
           | Ok r => Ok (PDict r)
           | Raise e => Raise e
           end
       | _ => Ok value
       end.

Definition _deserialize_config (config : list (string * pyval))
  : result (list (string * pyval)) :=
  fold_left (fun acc kv =>
               match acc with
               | Ok result_config =>
                   match deserialize_value (fst kv) (snd kv) with
                   | Ok v => Ok (dict_set (fst kv) v result_config)
                   | Raise e => Raise e
                   end
               | Raise e => Raise e
               end) config (Ok []).

Definition save_config (config : list (string * pyval)) (file_path : option Path)
  : ST World bool :=
  file_path <- match file_path with
               | Some p => ret p
               | None =>
                   t <- now ;;
                   ret (Path_of_str ("quantics_config_" +:+ strftime_stamp t +:+ ".json"))
               end ;;
  try_except
    (makedirs (parent file_path) ;;;
     let json_config := _serialize_config config in
     json_dump_file file_path (PDict json_config) ;;;
     ret true)
    (fun e =>
       print ("Error saving configuration: " +:+ message e) ;;;
       ret false).

Definition load_config (file_path : Path) : ST World (option (list (string * pyval))) :=
  try_except
    (w <- get ;;
     if negb (path_exists w file_path) then
       print ("Configuration file not found: " +:+ str file_path) ;;;
       ret None
     else
       config <- json_load_file file_path ;;
       match config with
       | PDict d =>
           match _deserialize_config d with
           | Ok r => ret (Some r)
           | Raise e => raise e
           end
       | _ => raise (mkExn TypeError "object has no attribute 'items'")
       end)
    (fun e =>
       print ("Error loading configuration: " +:+ message e) ;;;
       ret None).

(** [get_default_config()] *)
Definition get_default_config : list (string * pyval) :=
  [("calculation_name", PStr "my_quantics_run");
   ("workflow_type", PStr "MCTDH");
   ("quantics_executable", PStr "quantics");
   ("working_directory", PNone);
   ("inp_file", PNone);
   ("op_file", PNone);
   ("db_folder", PNone);
   ("save_inputs", PBool true);
   ("cleanup_on_success", PBool false);
   ("analysis_tools", PList []);
   ("rdgpop_nz", PStr "2");
   ("rdgpop_dof", PStr "1");
   ("show_cmdline", PBool true);
   ("execution_mode", PStr "local");
   ("aiida_resources", PInt 1);
   ("aiida_walltime", PInt 3600);
   ("aiida_queue", PNone)].

(** The file [save_config] writes: the one given, or one named after
    the time. *)
Definition config_target (file_path : option Path) (w : World) : Path :=
  match file_path with
  | Some p => p
  | None => Path_of_str ("quantics_config_" +:+ strftime_stamp (clock w) +:+ ".json")
  end.

End Config.

(** ** Output parser of the workflow-platform path
    ([QuanticsAiidaParser._parse_quantics_output]) *)

Module Parser.
Import PyStr.

Section WithFloat.
(** Floating-point numbers and [float(s)] ([None] for [ValueError])
    are those of the Python run time. *)
Context {F : Type} (float_of_str : string -> option F).

(** The [results] dictionary: its three possible keys. *)
Record parsed := mkParsed {
  total_energy : option F;
  final_time : option F;
  converged : option bool }.

Definition empty_results : parsed := mkParsed None None None.

(** [float(line.split()[-1])], [None] when [ValueError] or
    [IndexError] is raised. *)
Definition last_float (line : string) : option F :=
  match last_item (split_ws line) with
  | Some tok => float_of_str tok
  | None => None
  end.

(** The body of the loop over the lines. *)
Definition parse_line (results : parsed) (line : string) : parsed :=
  let results :=
    if contains "Total energy" line then
      match last_float line with
      | Some energy => mkParsed (Some energy) (final_time results) (converged results)
      | None => results
      end
    else results in
  let results :=
    if contains "Final time" line then
      match last_float line with
      | Some t => mkParsed (total_energy results) (Some t) (converged results)
      | None => results
      end
    else results in
  if contains "Convergence" line && contains "achieved" line then
    mkParsed (total_energy results) (final_time results) (Some true)
  else if contains "Convergence" line && contains "failed" line then
    mkParsed (total_energy results) (final_time results) (Some false)
  else results.

Definition _parse_quantics_output (stdout_content : string) : parsed :=
  fold_left parse_line (split_on nl stdout_content) empty_results.
End WithFloat.

(** A reading of [float] on plain decimal literals, [-1.234] or [100.0]:
    the exact decimal value, in lowest terms. *)
Fixpoint read_nat (s : string) (acc : Z) (n : nat) : option (Z * nat * string) :=
  match s with
  | EmptyString => Some (acc, n, EmptyString)
  | String c s' =>
      match PyDatetime.digit_val c with
      | Some d => read_nat s' (acc * 10 + d) (S n)
      | None => Some (acc, n, s)
      end
  end.

Definition decimal_unsigned (s : string) : option Q :=
  match read_nat s 0 O with
  | Some (i, ni, EmptyString) =>
      if Nat.eqb ni 0 then None else Some (inject_Z i)
  | Some (i, ni, String "." s') =>
      match read_nat s' 0 O with
      | Some (f, nf, EmptyString) =>
          if Nat.eqb (ni + nf) 0 then None
          else Some (Qred (Qmake (i * 10 ^ Z.of_nat nf + f) (Z.to_pos (10 ^ Z.of_nat nf))))
      | _ => None
      end
  | _ => None
  end.

Definition decimal_float (s : string) : option Q :=
  match s with
  | String "-" s' => option_map (fun q => Qred (Qopp q)) (decimal_unsigned s')
  | String "+" s' => decimal_unsigned s'
  | _ => decimal_unsigned s
  end.

End Parser.

Example decimal_ex1 : Parser.decimal_float "-1.234" = Some (-617 # 500)%Q.
Proof. reflexivity. Qed.
Example decimal_ex2 : Parser.decimal_float "100.0" = Some (100 # 1)%Q.
Proof. reflexivity. Qed.
Example decimal_ex3 : Parser.decimal_float "energy" = None.
Proof. reflexivity. Qed.

(** ** Workflow type to analysis tools: the two fixed tables *)

Module Workflow.
Import PyStr Py.

(** [QuanticsMainWindow.workflow_analysis_map]: tool and description. *)
Definition workflow_analysis_map : list (string * list (string * string)) :=
  [("MCTDH",
    [("rdcheck etot", "Total energy check");
     ("rdcheck spop", "Single particle population");
     ("rdcheck natpop 0 0", "Natural potential analysis");
     ("rdgpop", "Grid population analysis")]);
   ("vMCG",
    [("rdcheck etot", "Total energy check");
     ("rdcheck spop", "Single particle population")]);
   ("DD-vMCG",
    [("rdcheck etot", "Total energy check");
     ("rdcheck spop", "Single particle population");
     ("ddtraj", "DD trajectory analysis")])].

(** The entries [update_analysis_tools] puts in the list widget. *)
Definition analysis_items (workflow_type : string) : list string :=
  match dict_get workflow_type workflow_analysis_map with
  | Some tools => map (fun td => fst td +:+ " - " +:+ snd td) tools
  | None => []
  end.

(** [text.split(" - ")[0]]: the text before the first [" - "]. *)
Fixpoint before_sep (sep s : string) : string :=
  if startswith sep s then EmptyString
  else match s with
       | EmptyString => EmptyString
       | String c s' => String c (before_sep sep s')
       end.

(** The tools [collect_config] hands to the local runner when every
    entry is selected. *)
Definition local_tools (workflow_type : string) : list string :=
  map (before_sep " - ") (analysis_items workflow_type).

(** [QuanticsWorkChain._get_analysis_tools] *)
Definition analysis_map : list (string * list string) :=
  [("MCTDH", ["rdcheck etot"; "rdcheck spop"; "rdcheck natpop 0 0"; "rdgpop"]);
   ("vMCG", ["rdcheck etot"; "rdcheck spop"]);
   ("DD-vMCG", ["rdcheck etot"; "rdcheck spop"; "ddtraj"])].

Definition _get_analysis_tools (workflow_type : string) : list string :=
  match dict_get workflow_type analysis_map with
  | Some tools => tools
  | None => []
  end.

End Workflow.

(** ** Calculation record and local runner ([src/runners/local_runner.py]) *)

Module Runner.
Import PyStr PyPath PyDatetime Py OS.

Record QuanticsCalculation := mkCalc {
  name : string;
  inp_file : option Path;
  op_file : option Path;
  db_folder : option Path;
  workflow_type : string;
  working_directory : option Path;
  status : string;
  start_time : option datetime;
  end_time : option datetime;
  results : list (string * pyval) }.

(** [QuanticsCalculation(name)] *)
Definition new_calc (name : string) : QuanticsCalculation :=
  mkCalc name None None None "MCTDH" None "created" None None [].

Definition opt_val {A} (f : A -> string) (o : option A) : pyval :=
  match o with Some a => PStr (f a) | None => PNone end.

Definition to_dict (c : QuanticsCalculation) : list (string * pyval) :=
  [("name", PStr (name c));
   ("inp_file", opt_val str (inp_file c));
   ("op_file", opt_val str (op_file c));
   ("db_folder", opt_val str (db_folder c));
   ("workflow_type", PStr (workflow_type c));
   ("working_directory", opt_val str (working_directory c));
   ("status", PStr (status c));
   ("start_time", opt_val isoformat (start_time c));
   ("end_time", opt_val isoformat (end_time c));
   ("results", PDict (results c))].

(** [data[k]] *)
Definition item (data : list (string * pyval)) (k : string) : result pyval :=
  match dict_get k data with
  | Some v => Ok v
  | None => Raise (mkExn KeyError k)
  end.

(** The record is typed as its constructor and annotations say; a value
    of another type under a typed key is outside the model and reported
    as [TypeError]. *)
Definition as_str (v : pyval) : result string :=
  match v with
  | PStr s => Ok s
  | _ => Raise (mkExn TypeError "expected str")
  end.

Definition as_dict (v : pyval) : result (list (string * pyval)) :=
  match v with
  | PDict d => Ok d
  | _ => Raise (mkExn TypeError "expected dict")
  end.

(** [Path(v) if v else None] *)
Definition opt_path (v : pyval) : result (option Path) :=
  if py_truthy v then
    match v with
    | PStr s => Ok (Some (Path_of_str s))
    | PPath p => Ok (Some p)
    | _ => Raise (mkExn TypeError "expected str, bytes or os.PathLike object")
    end
  else Ok None.

(** [datetime.fromisoformat(v) if v else None] *)
Definition opt_datetime (v : pyval) : result (option datetime) :=
  if py_truthy v then
    match v with
    | PStr s =>
        match fromisoformat s with
        | Some d => Ok (Some d)
        | None => Raise (mkExn ValueError ("Invalid isoformat string: '" +:+ s +:+ "'"))
        end
    | _ => Raise (mkExn TypeError "fromisoformat: argument must be str")
    end
  else Ok None.

Definition rbind {A B} (r : result A) (k : A -> result B) : result B :=
  match r with Ok a => k a | Raise e => Raise e end.

Definition from_dict (data : list (string * pyval)) : result QuanticsCalculation :=
  rbind (rbind (item data "name") as_str) (fun name =>
  rbind (rbind (item data "inp_file") opt_path) (fun inp_file =>
  rbind (rbind (item data "op_file") opt_path) (fun op_file =>
  rbind (rbind (item data "db_folder") opt_path) (fun db_folder =>
  rbind (rbind (item data "workflow_type") as_str) (fun workflow_type =>
  rbind (rbind (item data "working_directory") opt_path) (fun working_directory =>
  rbind (rbind (item data "status") as_str) (fun status =>
  rbind (rbind (item data "start_time") opt_datetime) (fun start_time =>
  rbind (rbind (item data "end_time") opt_datetime) (fun end_time =>
  rbind (rbind (item data "results") as_dict) (fun results =>
  Ok (mkCalc name inp_file op_file db_folder workflow_type
             working_directory status start_time end_time results))))))))))).

(** *** The runner object, the heap of calculation objects *)

Definition loc := nat.

Record LocalQuanticsRunner := mkRunner {
  base_directory : Path;
  runs_directory : Path;
  config_file : Path;
  calculations : list (string * loc) }.

Record State := mkState {
  self : LocalQuanticsRunner;
  heap : gmap loc QuanticsCalculation;
  next_loc : loc;
  world : World }.

(** Running a computation on the machine from a runner state. *)
Definition liftW {A} (m : ST World A) : ST State A :=
  fun s => match m (world s) with
           | (r, w') => (r, mkState (self s) (heap s) (next_loc s) w')
           end.

(** The object a reference points to. *)
Definition deref (s : State) (l : loc) : QuanticsCalculation :=
  default (new_calc "") (heap s !! l).

Definition load (l : loc) : ST State QuanticsCalculation :=
  gets (fun s => deref s l).

(** An attribute assignment [calc.f = v]. *)
Definition update (l : loc) (f : QuanticsCalculation -> QuanticsCalculation)
  : ST State unit :=
  modify (fun s => mkState (self s) (<[l := f (deref s l)]> (heap s)) (next_loc s) (world s)).

Definition alloc (c : QuanticsCalculation) : ST State loc :=
  fun s => (Ok (next_loc s),
            mkState (self s) (<[next_loc s := c]> (heap s)) (S (next_loc s)) (world s)).

Definition set_inp_file v c := mkCalc (name c) v (op_file c) (db_folder c) (workflow_type c) (working_directory c) (status c) (start_time c) (end_time c) (results c).
Definition set_op_file v c := mkCalc (name c) (inp_file c) v (db_folder c) (workflow_type c) (working_directory c) (status c) (start_time c) (end_time c) (results c).
Definition set_db_folder v c := mkCalc (name c) (inp_file c) (op_file c) v (workflow_type c) (working_directory c) (status c) (start_time c) (end_time c) (results c).
Definition set_workflow_type v c := mkCalc (name c) (inp_file c) (op_file c) (db_folder c) v (working_directory c) (status c) (start_time c) (end_time c) (results c).
Definition set_working_directory v c := mkCalc (name c) (inp_file c) (op_file c) (db_folder c) (workflow_type c) v (status c) (start_time c) (end_time c) (results c).
Definition set_status v c := mkCalc (name c) (inp_file c) (op_file c) (db_folder c) (workflow_type c) (working_directory c) v (start_time c) (end_time c) (results c).
Definition set_start_time v c := mkCalc (name c) (inp_file c) (op_file c) (db_folder c) (workflow_type c) (working_directory c) (status c) v (end_time c) (results c).
Definition set_end_time v c := mkCalc (name c) (inp_file c) (op_file c) (db_folder c) (workflow_type c) (working_directory c) (status c) (start_time c) v (results c).
Definition set_result (k : string) (v : pyval) c := mkCalc (name c) (inp_file c) (op_file c) (db_folder c) (workflow_type c) (working_directory c) (status c) (start_time c) (end_time c) (dict_set k v (results c)).

(** Using an attribute that may be [None] as a path. *)
Definition need_path (o : option Path) : ST State Path :=
  match o with
  | Some p => ret p
  | None => raise (mkExn TypeError "expected str, bytes or os.PathLike object, not NoneType")
  end.

(** [self._save_calculations()] *)
Definition _save_calculations : ST State unit :=
  s <- get ;;
  let data := fold_left (fun data nc =>
                           dict_set (fst nc) (PDict (to_dict (deref s (snd nc)))) data)
                        (calculations (self s)) [] in
  liftW (json_dump_file (config_file (self s)) (PDict data)).

Definition register (name : string) (l : loc) : ST State unit :=
  modify (fun s =>
    mkState (mkRunner (base_directory (self s)) (runs_directory (self s))
                      (config_file (self s))
                      (dict_set name l (calculations (self s))))
            (heap s) (next_loc s) (world s)).

Definition create_calculation (name : string) (inp_file op_file : Path)
           (workflow_type : string) (db_folder : option Path) : ST State loc :=
  s <- get ;;
  if dict_mem name (calculations (self s)) then
    raise (mkExn ValueError ("Calculation name '" +:+ name +:+ "' already exists"))
  else
    calc <- alloc (new_calc name) ;;
    update calc (set_inp_file (Some (resolve (cwd (world s)) inp_file))) ;;;
    update calc (set_op_file (Some (resolve (cwd (world s)) op_file))) ;;;
    update calc (set_workflow_type workflow_type) ;;;
    (match db_folder with
     | Some d =>
         if String.eqb workflow_type "DD-vMCG"
         then update calc (set_db_folder (Some (resolve (cwd (world s)) d)))
         else ret tt
     | None => ret tt
     end) ;;;
    t <- liftW now ;;
    let timestamp := strftime_stamp t in
    let wd := runs_directory (self s) // (name +:+ "_" +:+ timestamp) in
    update calc (set_working_directory (Some wd)) ;;;
    liftW (mkdir wd) ;;;
    register name calc ;;;
    _save_calculations ;;;
    ret calc.

(** The scan shared by [_get_output_name_from_inp] and
    [_get_opname_from_inp]: the first line that, stripped, starts with
    the key and holds an equals sign gives what stands between its first
    and its second equals sign, stripped. *)
Fixpoint scan_directive (key : string) (lines : list string) : option string :=
  match lines with
  | [] => None
  | line :: rest =>
      let line := strip line in
      if startswith key line && contains "=" line
      then Some (strip (nth 1 (split_on "=" line) ""))
      else scan_directive key rest
  end.

Definition _get_output_name_from_inp (inp_file_path : Path) : ST World (option string) :=
  try_except
    (text <- read_text inp_file_path ;;
     ret (scan_directive "name" (file_lines text)))
    (fun e =>
       print ("Warning: Cannot read name from inp file: " +:+ message e) ;;;
       ret None).

Definition _get_opname_from_inp (inp_file_path : Path) : ST World (option string) :=
  try_except
    (text <- read_text inp_file_path ;;
     ret (scan_directive "opname" (file_lines text)))
    (fun e =>
       print ("Warning: Cannot read opname from inp file: " +:+ message e) ;;;
       ret None).

(** [if x:] on a string that may be [None]. *)
Definition opt_truthy (o : option string) : bool :=
  match o with Some s => truthy s | None => false end.

(** The name the operator file gets in the working directory. *)
Definition op_filename_of (opname : option string) : string :=
  match opname with
  | Some n => if truthy n then n +:+ ".op" else "operator.op"
  | None => "operator.op"
  end.

Definition prepare_calculation (calc : loc) : ST State bool :=
  try_except
    (c <- load calc ;;
     inp <- need_path (inp_file c) ;;
     wd <- need_path (working_directory c) ;;
     liftW (copy2 inp (wd // "input.inp")) ;;;
     opname <- liftW (_get_opname_from_inp inp) ;;
     let op_filename := op_filename_of opname in
     op <- need_path (op_file c) ;;
     liftW (copy2 op (wd // op_filename)) ;;;
     (match db_folder c with
      | Some db =>
          if String.eqb (workflow_type c) "DD-vMCG"
          then liftW (copytree db (wd // "db_data"))
          else ret tt
      | None => ret tt
      end) ;;;
     liftW (print ("Input files prepared for calculation '" +:+ name c +:+ "'")) ;;;
     liftW (print ("Operator file copied as: " +:+ op_filename)) ;;;
     ret true)
    (fun e =>
       liftW (print ("Failed to prepare calculation: " +:+ message e)) ;;;
       ret false).

Definition opt_path_str (o : option Path) : string :=
  match o with Some p => str p | None => "None" end.

Definition expected_files : list string := ["log"; "output"; "auto"; "psi"].

Definition _check_output_files (calc : loc) : ST State unit :=
  c <- load calc ;;
  wd <- need_path (working_directory c) ;;
  parsed <- liftW (_get_output_name_from_inp (wd // "input.inp")) ;;
  let output_name :=
    match parsed with
    | Some n => if truthy n then n else name c
    | None => name c
    end in
  let output_dir := wd // output_name in
  w <- gets world ;;
  if path_exists w output_dir then
    update calc (set_result "output_directory" (PStr (str output_dir))) ;;;
    update calc (set_result "output_name" (PStr output_name)) ;;;
    let found_files := List.filter (fun file_name => path_exists w (output_dir // file_name))
                                   expected_files in
    update calc (set_result "output_files" (PList (map PStr found_files))) ;;;
    liftW (print ("Found output files: " +:+ join ", " found_files))
  else
    liftW (print ("Warning: Output directory not found " +:+ str output_dir)).

(** [run_calculation], the statements after the subprocess has returned:
    the end time, the status from the exit code, output discovery, the
    registry, the result. *)
Definition run_finish (calc : loc) (c : QuanticsCalculation) (wd : Path)
           (process : proc_result) : ST State bool :=
  t <- liftW now ;;
  update calc (set_end_time (Some t)) ;;;
  (if rc process =? 0 then
     update calc (set_status "completed") ;;;
     liftW (print ("Calculation '" +:+ name c +:+ "' completed successfully")) ;;;
     _check_output_files calc
   else
     update calc (set_status "failed") ;;;
     liftW (print ("Calculation '" +:+ name c +:+ "' failed")) ;;;
     liftW (print ("See log file: " +:+ str (wd // "quantics.log")))) ;;;
  _save_calculations ;;;
  c <- load calc ;;
  ret (String.eqb (status c) "completed").

(** [run_calculation], the body of the [try] block. *)
Definition run_body (calc : loc) (c : QuanticsCalculation)
           (quantics_executable : string) : ST State bool :=
  update calc (set_status "running") ;;;
  t <- liftW now ;;
  update calc (set_start_time (Some t)) ;;;
  _save_calculations ;;;
  let cmd := [quantics_executable; "-mnd"; "input.inp"] in
  liftW (print ("Starting calculation '" +:+ name c +:+ "'...")) ;;;
  liftW (print ("Working directory: " +:+ opt_path_str (working_directory c))) ;;;
  liftW (print ("Command: " +:+ join " " cmd)) ;;;
  wd <- need_path (working_directory c) ;;
  liftW (write_file (wd // "quantics.log") (Text "")) ;;;
  process <- liftW (spawn cmd wd None) ;;
  run_finish calc c wd process.

(** [run_calculation], the [except Exception as e] clause. *)
Definition run_handler (calc : loc) (e : exn) : ST State bool :=
  update calc (set_status "failed") ;;;
  t <- liftW now ;;
  update calc (set_end_time (Some t)) ;;;
  _save_calculations ;;;
  liftW (print ("Error occurred while running calculation: " +:+ message e)) ;;;
  ret false.

Definition run_calculation (calc : loc) (quantics_executable : string) : ST State bool :=
  c <- load calc ;;
  if String.eqb (status c) "running" then
    liftW (print ("Calculation '" +:+ name c +:+ "' is already running")) ;;;
    ret false
  else
    prepared <- prepare_calculation calc ;;
    if negb prepared then ret false
    else try_except (run_body calc c quantics_executable) (run_handler calc).

(** *** Analysis tools *)

(** The command line of a tool, [None] for an unknown tool. *)
Definition command_of (tool : string) : option (list string) :=
  if startswith "rdcheck" tool then Some (split_ws tool)
  else if String.eqb tool "rdgpop" then Some ["rdgpop"; "-w"]
  else if String.eqb tool "ddtraj" then Some ["ddtraj"]
  else None.

(** The loop of [run_analysis] runs with its local dictionary [results]
    next to the runner state. *)
Definition Frame : Type := list (string * string) * State.

Definition liftS {A} (m : ST State A) : ST Frame A :=
  fun f => match m (snd f) with (r, s') => (r, (fst f, s')) end.

Definition set_tool_result (tool text : string) : ST Frame unit :=
  modify (fun f : Frame => (dict_set tool text (fst f), snd f)).

(** An iteration of the loop, for a tool with command line [cmd]: the
    subprocess, then the entry in [results] and the output file. *)
Definition tool_process (output_dir : Path) (tool : string) (cmd : list string)
  : ST Frame unit :=
  result <- liftS (liftW
    (if String.eqb tool "rdgpop"
     then spawn cmd output_dir (Some ("2" +:+ String nl ("1" +:+ String nl "")))
     else spawn cmd output_dir None)) ;;
  if rc result =? 0 then
    set_tool_result tool (out result) ;;;
    liftS (liftW (print (tool +:+ " completed"))) ;;;
    let output_file := output_dir // (replace_char " " "_" tool +:+ "_output.txt") in
    liftS (liftW (write_file output_file (Text (out result))))
  else
    set_tool_result tool ("Error: " +:+ err result) ;;;
    liftS (liftW (print (tool +:+ " failed: " +:+ err result))).

(** The [except Exception as e] clause of the loop body. *)
Definition tool_handler (tool : string) (e : exn) : ST Frame unit :=
  set_tool_result tool ("Exception: " +:+ message e) ;;;
  liftS (liftW (print ("Exception while running " +:+ tool +:+ ": " +:+ message e))).

(** An iteration of the loop over the tools; leaving the first branch
    with [ret tt] is the [continue] of the source. *)
Definition analysis_step (output_dir : Path) (tool : string) : ST Frame unit :=
  try_except
    (liftS (liftW (print ("Running analysis tool: " +:+ tool))) ;;;
     match command_of tool with
     | None => liftS (liftW (print ("Unknown analysis tool: " +:+ tool)))
     | Some cmd => tool_process output_dir tool cmd
     end)
    (tool_handler tool).

(** [for tool in analysis_tools: ...] starting from [results = {}]. *)
Definition analysis_loop (output_dir : Path) (analysis_tools : list string)
  : ST State (list (string * string)) :=
  fun s => match for_each analysis_tools (analysis_step output_dir) ([], s) with
           | (Ok _, (results, s')) => (Ok results, s')
           | (Raise e, (_, s')) => (Raise e, s')
           end.

(** The output directory the analysis runs in, from the saved output
    name, or the one read again from the input file, or the calculation's
    name. *)
Definition analysis_output_dir (c : QuanticsCalculation) : ST State Path :=
  saved <- match dict_get "output_name" (results c) with
           | Some v =>
               if py_truthy v then
                 match v with
                 | PStr n => ret (Some n)
                 | _ => raise (mkExn TypeError "unsupported operand type(s) for /")
                 end
               else ret None
           | None => ret None
           end ;;
  output_name <- match saved with
                 | Some n => ret (Some n)
                 | None =>
                     wd <- need_path (working_directory c) ;;
                     liftW (_get_output_name_from_inp (wd // "input.inp"))
                 end ;;
  let output_name :=
    match output_name with
    | Some n => if truthy n then n else name c
    | None => name c
    end in
  wd <- need_path (working_directory c) ;;
  ret (wd // output_name).

Definition run_analysis (calc : loc) (analysis_tools : list string)
  : ST State (list (string * string)) :=
  c <- load calc ;;
  if negb (String.eqb (status c) "completed") then
    liftW (print ("Calculation '" +:+ name c +:+ "' not completed, cannot run analysis")) ;;;
    ret []
  else
    output_dir <- analysis_output_dir c ;;
    w <- gets world ;;
    if negb (path_exists w output_dir) then
      liftW (print ("Output directory does not exist: " +:+ str output_dir)) ;;;
      ret []
    else
      results <- analysis_loop output_dir analysis_tools ;;
      update calc (set_result "analysis"
                     (PDict (map (fun kv => (fst kv, PStr (snd kv))) results))) ;;;
      _save_calculations ;;;
      ret results.

(** *** Loading the registry, the constructor of the runner *)

(** [type(v).__name__] *)
Definition type_name (v : pyval) : string :=
  match v with
  | PNone => "NoneType"
  | PBool _ => "bool"
  | PInt _ => "int"
  | PStr _ => "str"
  | PPath _ => "PosixPath"
  | PList _ => "list"
  | PDict _ => "dict"
  end.

(** [str(e)]: a [KeyError] shows its key quoted. *)
Definition exn_str (e : exn) : string :=
  match kind e with
  | KeyError => "'" +:+ message e +:+ "'"
  | _ => message e
  end.

(** The dictionary comprehension of [_load_calculations],
    [{name: QuanticsCalculation.from_dict(calc_data) for name, calc_data
    in data.items()}]: a new object for every record, in the order of the
    file.  A record that is not a dictionary makes [data["name"]] raise
    [TypeError]. *)
Fixpoint load_records (items : list (string * pyval)) (acc : list (string * loc))
  : ST State (list (string * loc)) :=
  match items with
  | [] => ret acc
  | (name, calc_data) :: rest =>
      match rbind (as_dict calc_data) from_dict with
      | Ok c => l <- alloc c ;; load_records rest (dict_set name l acc)
      | Raise e => raise e
      end
  end.

(** [self._load_calculations()].  The file holds what [json.dump] wrote,
    a document whose objects have distinct keys. *)
Definition _load_calculations : ST State (list (string * loc)) :=
  s <- get ;;
  if negb (path_exists (world s) (config_file (self s))) then ret []
  else
    try_except
      (data <- liftW (json_load_file (config_file (self s))) ;;
       match data with
       | PDict items => load_records items []
       | _ => raise (mkExn TypeError
                       ("'" +:+ type_name data +:+ "' object has no attribute 'items'"))
       end)
      (fun e =>
         liftW (print ("Warning: Failed to load calculation records: " +:+ exn_str e)) ;;;
         ret []).

(** The assignment of the runner object under construction. *)
Definition set_self (r : LocalQuanticsRunner) : ST State unit :=
  modify (fun s => mkState r (heap s) (next_loc s) (world s)).

(** [LocalQuanticsRunner(base_directory)]; [home] is [Path.home()].  The
    state holds the runner under construction: when the constructor
    raises, no runner results and the registry of the state is empty. *)
Definition __init__ (home : Path) (base_directory : option Path) : ST State unit :=
  let base := match base_directory with
              | Some p => p
              | None => home // ".quantics_local"
              end in
  set_self (mkRunner base (base // "runs") (base // "calculations.json") []) ;;;
  liftW (mkdir base) ;;;
  liftW (mkdir (base // "runs")) ;;;
  calcs <- _load_calculations ;;
  set_self (mkRunner base (base // "runs") (base // "calculations.json") calcs).

(** *** Analysis tools with parameters *)

(** [f"{v}"] for a parameter: the text of a string, of [None], of a
    truth value, of an integer, of a path.  The parameters are typed as
    strings; the display of a list or a dictionary is outside the model
    and reported as [TypeError]. *)
Definition format_value (v : pyval) : result string :=
  match v with
  | PStr s => Ok s
  | PNone => Ok "None"
  | PBool true => Ok "True"
  | PBool false => Ok "False"
  | PInt z => Ok (NilZero.string_of_int (Z.to_int z))
  | PPath p => Ok (str p)
  | _ => Raise (mkExn TypeError "display of a container")
  end.

(** [f"{params.get(k, default)}"] *)
Definition param_text (params : list (string * pyval)) (k default : string) : result string :=
  match dict_get k params with
  | Some v => format_value v
  | None => Ok default
  end.

Definition lift_result {S A} (r : result A) : ST S A :=
  match r with Ok a => ret a | Raise e => raise e end.

(** ["=" * 50] *)
Definition rule50 : string :=
  "==================================================".

(** [print] of the three lines that show a text, under
    [if show_cmdline and text:]. *)
Definition show_text (show : bool) (title text : string) : ST Frame unit :=
  if show && truthy text then
    liftS (liftW (print title)) ;;;
    liftS (liftW (print text)) ;;;
    liftS (liftW (print rule50))
  else ret tt.

(** The subprocess of a tool in [run_analysis_with_params]. *)
Definition tool_run_params (output_dir : Path) (params : list (string * pyval))
           (show_cmdline : bool) (tool : string) (cmd : list string)
  : ST Frame proc_result :=
  if String.eqb tool "rdgpop" then
    nz <- lift_result (param_text params "rdgpop_nz" "2") ;;
    dof <- lift_result (param_text params "rdgpop_dof" "1") ;;
    let input_text := nz +:+ String nl (dof +:+ String nl "") in
    (if show_cmdline then
       liftS (liftW (print ("Executing command: " +:+ join " " cmd))) ;;;
       liftS (liftW (print ("Input parameters: nz=" +:+ nz +:+ ", dof=" +:+ dof))) ;;;
       liftS (liftW (print rule50))
     else ret tt) ;;;
    result <- liftS (liftW (spawn cmd output_dir (Some input_text))) ;;
    show_text show_cmdline "Command line output:" (out result) ;;;
    ret result
  else
    (if show_cmdline then
       liftS (liftW (print ("Executing command: " +:+ join " " cmd))) ;;;
       liftS (liftW (print rule50))
     else ret tt) ;;;
    result <- liftS (liftW (spawn cmd output_dir None)) ;;
    show_text show_cmdline "Command line output:" (out result) ;;;
    ret result.

(** An iteration of the loop of [run_analysis_with_params], for a tool
    with command line [cmd]. *)
Definition tool_process_params (output_dir : Path) (params : list (string * pyval))
           (show_cmdline : bool) (tool : string) (cmd : list string) : ST Frame unit :=
  result <- tool_run_params output_dir params show_cmdline tool cmd ;;
  if rc result =? 0 then
    set_tool_result tool (out result) ;;;
    liftS (liftW (print (tool +:+ " completed"))) ;;;
    let output_file := output_dir // (replace_char " " "_" tool +:+ "_output.txt") in
    liftS (liftW (write_file output_file (Text (out result))))
  else
    set_tool_result tool ("Error: " +:+ err result) ;;;
    liftS (liftW (print (tool +:+ " failed: " +:+ err result))) ;;;
    show_text show_cmdline "Error output:" (err result).

Definition analysis_step_params (output_dir : Path) (params : list (string * pyval))
           (show_cmdline : bool) (tool : string) : ST Frame unit :=
  try_except
    (liftS (liftW (print ("Running analysis tool: " +:+ tool))) ;;;
     match command_of tool with
     | None => liftS (liftW (print ("Unknown analysis tool: " +:+ tool)))
     | Some cmd => tool_process_params output_dir params show_cmdline tool cmd
     end)
    (tool_handler tool).

Definition analysis_loop_params (output_dir : Path) (params : list (string * pyval))
           (show_cmdline : bool) (analysis_tools : list string)
  : ST State (list (string * string)) :=
  fun s => match for_each analysis_tools
                   (analysis_step_params output_dir params show_cmdline) ([], s) with
           | (Ok _, (results, s')) => (Ok results, s')
           | (Raise e, (_, s')) => (Raise e, s')
           end.

Definition run_analysis_with_params (calc : loc) (analysis_tools : list string)
           (params : list (string * pyval)) : ST State (list (string * string)) :=
  c <- load calc ;;
  if negb (String.eqb (status c) "completed") then
    liftW (print ("Calculation '" +:+ name c +:+ "' not completed, cannot run analysis")) ;;;
    ret []
  else
    output_dir <- analysis_output_dir c ;;
    w <- gets world ;;
    if negb (path_exists w output_dir) then
      liftW (print ("Output directory does not exist: " +:+ str output_dir)) ;;;
      ret []
    else
      let show_cmdline :=
        match dict_get "show_cmdline" params with
        | Some v => py_truthy v
        | None => true
        end in
      results <- analysis_loop_params output_dir params show_cmdline analysis_tools ;;
      update calc (set_result "analysis_with_params"
                     (PDict (map (fun kv => (fst kv, PStr (snd kv))) results))) ;;;
      _save_calculations ;;;
      ret results.

(** *** The status table *)

(** The line of [print_status] for a calculation. *)
Definition status_row (c : QuanticsCalculation) : string :=
  let start_time :=
    match start_time c with
    | Some t => strftime_seconds t
    | None => "Not started"
    end in
  ljust 20 (name c) +:+ " " +:+ ljust 10 (status c) +:+ " " +:+
  ljust 10 (workflow_type c) +:+ " " +:+ ljust 20 start_time.

Definition status_header : string :=
  ljust 20 "Name" +:+ " " +:+ ljust 10 "Status" +:+ " " +:+
  ljust 10 "Type" +:+ " " +:+ ljust 20 "Start Time".

(** [self.print_status()] *)
Definition print_status : ST State unit :=
  s <- get ;;
  match calculations (self s) with
  | [] => liftW (print "No calculation records found")
  | _ =>
      liftW (print (String nl "=== QUANTICS Calculation Status ===")) ;;;
      liftW (print status_header) ;;;
      liftW (print (repeat_char "-" 70)) ;;;
      for_each (map snd (calculations (self s)))
               (fun l => c <- load l ;; liftW (print (status_row c)))
  end.

(** [self.calculations.get(name)] *)
Definition get_calculation (name : string) : ST State (option loc) :=
  gets (fun s => dict_get name (calculations (self s))).

(** [list(self.calculations.values())] *)
Definition list_calculations : ST State (list loc) :=
  gets (fun s => map snd (calculations (self s))).

End Runner.

(** ** Relations between the states before and after a computation *)

Module Rel.
Import PyStr PyPath PyDatetime Py OS Runner.

(** Every run of [m] relates the state it starts in to the one it ends in,
    whether it returns or raises. *)
Definition preserves {S A} (R : S -> S -> Prop) (m : ST S A) : Prop :=
  forall s r s', m s = (r, s') -> R s s'.

(** An event that is not the start or the end of an external process. *)
Definition silent (e : event) : Prop :=
  match e with
  | EvSpawn _ _ _ | EvExit _ => False
  | _ => True
  end.

(** The trace grew by events that satisfy [Q]; when no external process
    ran in between, the clock and the free space are what they were. *)
Definition grows (Q : event -> Prop) (w w' : World) : Prop :=
  exists evs,
    trace w' = trace w ++ evs /\ Forall Q evs /\
    (Forall silent evs -> clock w' = clock w /\ disk_full w' = disk_full w).

(** The same objects with the same attributes, the same registry. *)
Definition same_objects (s s' : State) : Prop :=
  heap s' = heap s /\ self s' = self s /\ next_loc s' = next_loc s.

(** A relation on the machine, as a relation on runner states. *)
Definition on_world (R : World -> World -> Prop) (s s' : State) : Prop :=
  R (world s) (world s').

(** The same current directory, machine and registry of the runner. *)
Definition same_setup (s s' : State) : Prop :=
  self s' = self s /\ cwd (world s') = cwd (world s) /\
  machine (world s') = machine (world s).

(** What [_save_calculations] writes. *)
Definition registry_data (s : State) : list (string * pyval) :=
  fold_left (fun data nc => dict_set (fst nc) (PDict (to_dict (deref s (snd nc)))) data)
            (calculations (self s)) [].

(** A file can be created or replaced at [p]. *)
Definition put_ok (w : World) (p : Path) : bool :=
  is_dir w (parent (resolve (cwd w) p)) && negb (is_dir w (resolve (cwd w) p)) &&
  negb (disk_full w).

(** Whether the registry can be persisted: its data are JSON values and
    the file can be written. *)
Definition save_ok (s : State) : bool :=
  jsonable (PDict (registry_data s)) &&
  put_ok (world s) (config_file (self s)).

(** Two entries with the same key that are, or are not, JSON values alike. *)
Definition same_json (a b : string * pyval) : Prop :=
  fst a = fst b /\ jsonable (snd a) = jsonable (snd b).

(** An event that is not the end of an external process. *)
Definition no_exit (e : event) : Prop :=
  match e with EvExit _ => False | _ => True end.

(** The state after the attribute assignment [update l f]. *)
Definition upd (l : loc) (f : QuanticsCalculation -> QuanticsCalculation) (s : State) : State :=
  mkState (self s) (<[l := f (deref s l)]> (heap s)) (next_loc s) (world s).

(** The state in which a run was started: status and start time set. *)
Definition started (calc : loc) (s : State) : State :=
  upd calc (set_start_time (Some (clock (world s)))) (upd calc (set_status "running") s).

(** The state in which the handler of a run persists the registry: status
    [failed], end time set. *)
Definition marked_failed (calc : loc) (s : State) : State :=
  upd calc (set_end_time (Some (clock (world s)))) (upd calc (set_status "failed") s).

(** The runner state on another machine state. *)
Definition set_world (w : World) (s : State) : State :=
  mkState (self s) (heap s) (next_loc s) w.

(** The state output discovery leaves when the directory is there. *)
Definition discovered (calc : loc) (output_dir : Path) (output_name : string)
           (s : State) : State :=
  let found :=
    List.filter (fun file_name => path_exists (world s) (output_dir // file_name))
                expected_files in
  set_world
    (emit_w (EvPrint ("Found output files: " +:+ join ", " found)) (world s))
    (upd calc (set_result "output_files" (PList (map PStr found)))
       (upd calc (set_result "output_name" (PStr output_name))
          (upd calc (set_result "output_directory" (PStr (str output_dir))) s))).

(** The same current directory and machine. *)
Definition same_env (w w' : World) : Prop :=
  cwd w' = cwd w /\ machine w' = machine w.

(** What every operation of the program does to the machine: the trace
    grows by events that satisfy [Q], the current directory and the
    installed programs stay. *)
Definition steps (Q : event -> Prop) (w w' : World) : Prop :=
  grows Q w w' /\ same_env w w'.

(** The same on runner states, the runner object unchanged. *)
Definition runs (Q : event -> Prop) (s s' : State) : Prop :=
  steps Q (world s) (world s') /\ self s' = self s.

(** The status that the exit code of the subprocess asks for. *)
Definition exit_status (rc : Z) : string :=
  if rc =? 0 then "completed" else "failed".



(** The executable is not installed: no command line that starts with
    it can be started. *)
Definition missing_executable (exe : string) (m : Machine) : Prop :=
  forall args dir stdin f t, m (exe :: args) dir stdin f t = None.

(** The command lines started, in order. *)
Definition spawned (evs : list event) : list (list string) :=
  omap (fun e => match e with EvSpawn cmd _ _ => Some cmd | _ => None end) evs.

(** Between two states, the command lines [cmds] were started. *)
Definition launched (cmds : list (list string)) (s s' : State) : Prop :=
  exists evs, trace (world s') = trace (world s) ++ evs /\ spawned evs = cmds.

(** The command lines started with their standard input, in order. *)
Definition spawned_with (evs : list event) : list (list string * option string) :=
  omap (fun e => match e with EvSpawn cmd _ stdin => Some (cmd, stdin) | _ => None end) evs.

(** Between two states, these command lines were started with these
    inputs. *)
Definition launched_with (runs : list (list string * option string)) (s s' : State) : Prop :=
  exists evs, trace (world s') = trace (world s) ++ evs /\ spawned_with evs = runs.

(** Between two states text was printed and files were written: no
    process was started, no object assigned to. *)
Definition quiet (s s' : State) : Prop :=
  runs silent s s' /\ same_objects s s'.

(** Every calculation object holds JSON values in its [results]. *)
Definition results_json (s : State) : Prop :=
  forall l c, heap s !! l = Some c ->
              forallb (fun kv => jsonable (snd kv)) (results c) = true.

(** A step that keeps the results JSON values. *)
Definition keeps_json (s s' : State) : Prop := results_json s -> results_json s'.

(** Between two states, [msg] was printed. *)
Definition printed (msg : string) (s s' : State) : Prop :=
  exists evs, trace (world s') = trace (world s) ++ evs /\ In (EvPrint msg) evs.

(** The current directory is an absolute path, as that of a process is. *)
Definition cwd_absolute (w : World) : Prop := anchor_of (cwd w) <> Rel.

(** The record [create_calculation] builds in the state [s]. *)
Definition created_record (name : string) (inp_file op_file : Path) (workflow_type : string)
           (db_folder : option Path) (s : State) : QuanticsCalculation :=
  let here := cwd (world s) in
  mkCalc name (Some (resolve here inp_file)) (Some (resolve here op_file))
         (match db_folder with
          | Some d => if String.eqb workflow_type "DD-vMCG" then Some (resolve here d) else None
          | None => None
          end)
         workflow_type
         (Some (runs_directory (self s) // (name +:+ "_" +:+ strftime_stamp (clock (world s)))))
         "created" None None [].

(** The entries [cs'] of a registry in the state [s'] are those of [cs]
    in [s]: the same names in the same order, under each name a record
    with the same attributes. *)
Definition same_records (s : State) (cs : list (string * loc))
           (s' : State) (cs' : list (string * loc)) : Prop :=
  Forall2 (fun nc nc' => fst nc' = fst nc /\ deref s' (snd nc') = deref s (snd nc)) cs cs'.


(** The entry that [_save_calculations] writes for a registered name. *)
Definition entry_of (s : State) (nc : string * loc) : string * pyval :=
  (fst nc, PDict (to_dict (deref s (snd nc)))).

(** The runner keeps its files where its constructor puts them. *)
Definition standard_layout (r : LocalQuanticsRunner) : Prop :=
  runs_directory r = base_directory r // "runs" /\
  config_file r = base_directory r // "calculations.json".

(** What a calculation is: the attributes set when it is created. *)
Definition identity (c : QuanticsCalculation)
  : string * option Path * option Path * option Path * string * option Path :=
  (name c, inp_file c, op_file c, db_folder c, workflow_type c, working_directory c).

(** Between two states only the object [calc] was assigned to, and none
    of the attributes that say what it is: the registry, the other objects
    and the next free reference are the same. *)
Definition touches_only (calc : loc) (s s' : State) : Prop :=
  self s' = self s /\ next_loc s' = next_loc s /\
  (forall l, l <> calc -> heap s' !! l = heap s !! l) /\
  identity (deref s' calc) = identity (deref s calc).

End Rel.

(** ** Declarative readings used in the statements *)

Module Reading.
Import PyStr.

(** The last element of [l] on which [g] is defined. *)
Definition last_some {A B} (g : A -> option B) (l : list A) : option B :=
  last (omap g l).

(** The number a line gives for a label: the line holds the label and its
    last token parses. *)
Definition labelled_value {F} (float_of_str : string -> option F)
           (label line : string) : option F :=
  if contains label line then Parser.last_float float_of_str line else None.

(** What a line says about convergence. *)
Definition verdict (line : string) : option bool :=
  if contains "Convergence" line && contains "achieved" line then Some true
  else if contains "Convergence" line && contains "failed" line then Some false
  else None.

(** A calculation record whose optional paths are path objects and whose
    optional times are date-times. *)
Definition opt_ok {A} (ok : A -> bool) (o : option A) : bool :=
  match o with Some a => ok a | None => true end.

Definition calc_ok (c : Runner.QuanticsCalculation) : bool :=
  opt_ok PyPath.path_ok (Runner.inp_file c) &&
  opt_ok PyPath.path_ok (Runner.op_file c) &&
  opt_ok PyPath.path_ok (Runner.db_folder c) &&
  opt_ok PyPath.path_ok (Runner.working_directory c) &&
  opt_ok PyDatetime.dt_valid (Runner.start_time c) &&
  opt_ok PyDatetime.dt_valid (Runner.end_time c).

(** A line that sets [key]: stripped, it starts with the key and holds an
    equals sign. *)
Definition is_directive (key line : string) : bool :=
  startswith key (strip line) && contains "=" (strip line).

(** What such a line sets it to: the text between its first and its second
    equals sign, stripped. *)
Definition directive_value (line : string) : string :=
  strip (nth 1 (split_on "=" (strip line)) "").

(** A value as one writes it after [key = ]: not empty, no blank at either
    end, no equals sign. *)
Definition plain_value (v : string) : bool :=
  truthy v && String.eqb (strip v) v && negb (contains "=" v).

(** [parsed or default], on a string that may be [None] or empty. *)
Definition name_or (default : string) (parsed : option string) : string :=
  match parsed with
  | Some n => if truthy n then n else default
  | None => default
  end.

(** A tool that [run_analysis] recognises. *)
Definition known_tool (tool : string) : bool :=
  match Runner.command_of tool with Some _ => true | None => false end.

(** The keys of a dictionary after an assignment to the key [k]: a new
    key goes last. *)
Definition add_key (keys : list string) (k : string) : list string :=
  if existsb (String.eqb k) keys then keys else keys ++ [k].

(** The run of a tool: its command line, and the two numbers that
    [rdgpop] reads from its standard input. *)
Definition tool_run (nz dof tool : string) : option (list string * option string) :=
  match Runner.command_of tool with
  | Some cmd =>
      Some (cmd, if String.eqb tool "rdgpop"
                 then Some (nz +:+ String nl (dof +:+ String nl ""))
                 else None)
  | None => None
  end.

(** The keys that a list of tools leaves in the result of [run_analysis]:
    the recognised ones, each at its first place. *)
Definition tool_keys (tools : list string) : list string :=
  fold_left add_key (List.filter known_tool tools) [].

(** The keys of a dictionary are distinct. *)
Fixpoint nodup_keys {V} (d : list (string * V)) : bool :=
  match d with
  | [] => true
  | kv :: d' => negb (Py.dict_mem (fst kv) d') && nodup_keys d'
  end.

Definition is_nil {A} (l : list A) : bool :=
  match l with [] => true | _ => false end.

(** A value the configuration store gives back unchanged under the key
    [key]: a path object stands under a path key; a path key holds a path
    object or a value that counts as false; a list holds JSON values; a
    nested dictionary stands under another key and is of the same kind. *)
Fixpoint stable (key : string) (v : Py.pyval) : bool :=
  match v with
  | Py.PPath p => Config.is_path_key key && PyPath.path_ok p
  | Py.PDict d =>
      (negb (Config.is_path_key key) || is_nil d) && nodup_keys d &&
      forallb (fun kv => stable (fst kv) (snd kv)) d
  | Py.PList l =>
      (negb (Config.is_path_key key) || is_nil l) && forallb Py.jsonable l
  | _ => negb (Config.is_path_key key && Py.py_truthy v)
  end.

Definition config_stable (config : list (string * Py.pyval)) : bool :=
  nodup_keys config && forallb (fun kv => stable (fst kv) (snd kv)) config.

(** A value that [_serialize_config] turns into a JSON value: a path
    object, a list of path objects and JSON values, a dictionary of such
    values, or a JSON value that is no list or dictionary. *)
Fixpoint serializable (v : Py.pyval) : bool :=
  match v with
  | Py.PList l =>
      forallb (fun i => match i with Py.PPath _ => true | _ => Py.jsonable i end) l
  | Py.PDict d => forallb (fun kv => serializable (snd kv)) d
  | _ => true
  end.

(** The results of every registered calculation are JSON values. *)
Definition registry_json (s : Runner.State) : bool :=
  forallb (fun nc => forallb (fun kv => Py.jsonable (snd kv))
                             (Runner.results (Runner.deref s (snd nc))))
          (Runner.calculations (Runner.self s)).

(** The registry of a state holds distinct names, and calculation
    records whose optional paths and times are path objects and
    date-times. *)
Definition registry_ok (s : Runner.State) : bool :=
  nodup_keys (Runner.calculations (Runner.self s)) &&
  forallb (fun nc => calc_ok (Runner.deref s (snd nc)))
          (Runner.calculations (Runner.self s)).

End Reading.

(** ** Sample machines and inputs, used to run the model *)

Module Demo.
Import PyStr PyPath PyDatetime Py OS Runner.

(** A text file from its lines. *)
Definition text_of (ls : list string) : string :=
  fold_right (fun l acc => l +:+ String nl acc) "" ls.

(** [Total energy] reported twice. *)
Definition two_energies : string :=
  text_of ["Total energy 1.0"; "Total energy 2.0"].

(** The output text of the specification's example. *)
Definition sample_output : string :=
  text_of ["Total energy -1.234"; "Final time 100.0"; "Convergence achieved"].

(** The reading of the specification: the value comes from the first
    line that contains the label. *)
Definition first_labelled {F} (float_of_str : string -> option F)
           (label : string) (text : string) : option F :=
  match List.find (contains label) (split_on nl text) with
  | Some line => Parser.last_float float_of_str line
  | None => None
  end.

(** A finished calculation. *)
Definition sample_calc : QuanticsCalculation :=
  mkCalc "ho"
    (Some (Path_of_str "/data/ho.inp")) (Some (Path_of_str "/data/ho.op")) None
    "MCTDH" (Some (Path_of_str "/home/u/.quantics_local/runs/ho_20240307_090500"))
    "completed"
    (Some (mkDT 2024 3 7 9 5 0 0)) (Some (mkDT 2024 3 7 9 6 12 250000))
    [("output_directory", PStr "/home/u/.quantics_local/runs/ho_20240307_090500/ho");
     ("output_name", PStr "ho");
     ("output_files", PList [PStr "log"; PStr "output"])].

(** A machine with no program installed. *)
Definition no_programs : Machine := fun _ _ _ _ _ => None.

(** The programs of an installation: [quantics] writes its results to the
    directory [ho] of its working directory and takes a minute; [rdcheck]
    prints a table. *)
Definition quantics_installed : Machine :=
  fun cmd dir stdin f t =>
    match cmd with
    | "quantics" :: _ =>
        Some (mkProc 0 "" ""
                (<[dir +:+ "/ho/output" := File (Text "out")]>
                   (<[dir +:+ "/ho/log" := File (Text "log")]>
                      (<[dir +:+ "/ho" := Dir]> f)))
                (mkDT (year t) (month t) (day t) (hour t) (minute t + 1) (second t) 0)
                false)
    | "rdcheck" :: _ => Some (mkProc 0 "table" "" f t false)
    | _ => None
    end.

(** [quantics] ends with exit code 0 and leaves no result directory. *)
Definition quantics_silent : Machine :=
  fun cmd dir stdin f t =>
    match cmd with
    | "quantics" :: _ => Some (mkProc 0 "" "" f t false)
    | _ => None
    end.


Definition ho_inp : string :=
  text_of ["RUN-SECTION"; "name = ho"; "propagation"; "end-run-section";
           "OPERATOR-SECTION"; "opname = ho"; "end-operator-section"].

(** The file system of an installation, with the input file [inp]. *)
Definition runner_fs (inp : string) : gmap string node :=
  list_to_map
    [("/", Dir); ("/home", Dir); ("/home/u", Dir);
     ("/home/u/.quantics_local", Dir); ("/home/u/.quantics_local/runs", Dir);
     ("/data", Dir);
     ("/data/ho.inp", File (Text inp)); ("/data/ho.op", File (Text "operator"))].

Definition runner_world (m : Machine) (inp : string) : World :=
  mkWorld (runner_fs inp) (Path_of_str "/home/u") (mkDT 2024 3 7 9 5 0 0) false m [].

Definition fresh_runner : LocalQuanticsRunner :=
  mkRunner (Path_of_str "/home/u/.quantics_local")
           (Path_of_str "/home/u/.quantics_local/runs")
           (Path_of_str "/home/u/.quantics_local/calculations.json") [].

Definition fresh_state (m : Machine) (inp : string) : State :=
  mkState fresh_runner ∅ 0%nat (runner_world m inp).

(** The state after [create_calculation("ho", ...)]; the calculation is
    object [0]. *)
Definition created_state (m : Machine) (inp : string) : State :=
  snd (create_calculation "ho" (Path_of_str "/data/ho.inp") (Path_of_str "/data/ho.op")
         "MCTDH" None (fresh_state m inp)).

(** Its working directory. *)
Definition ho_wd : Path :=
  Path_of_str "/home/u/.quantics_local/runs/ho_20240307_090500".

(** The state after [run_calculation] on it. *)
Definition finished_state (m : Machine) (inp : string) : State :=
  snd (run_calculation 0%nat "quantics" (created_state m inp)).

(** The state after [create_calculation] with an input file that is not
    there. *)
Definition no_inp_state : State :=
  snd (create_calculation "ho" (Path_of_str "/data/none.inp") (Path_of_str "/data/ho.op")
         "MCTDH" None (fresh_state quantics_installed ho_inp)).

(** The state after [create_calculation] for a DD-vMCG run whose DB folder
    is not there. *)
Definition no_db_state : State :=
  snd (create_calculation "ho" (Path_of_str "/data/ho.inp") (Path_of_str "/data/ho.op")
         "DD-vMCG" (Some (Path_of_str "/data/db")) (fresh_state quantics_installed ho_inp)).

(** An input file with no [opname] line, and a line that starts alike. *)
Definition opnames_inp : string :=
  text_of ["OPERATOR-SECTION"; "opnames = x"; "end-operator-section"].

(** An input file whose first [opname] line gives nothing. *)
Definition empty_opname_inp : string :=
  text_of ["OPERATOR-SECTION"; "opname ="; "opname = ho"; "end-operator-section"].

(** The copies made, source and target. *)
Definition copies (evs : list event) : list (string * string) :=
  omap (fun e => match e with
                 | EvCopy2 a b => Some (str a, str b)
                 | _ => None
                 end) evs.

(** The tool list of the specification's example. *)
Definition three_tools : list string :=
  ["rdcheck etot"; "nonexistent_tool"; "rdcheck spop"].

(** A small file system: a home directory and a data directory. *)
Definition plain_fs : gmap string node :=
  list_to_map [("/", Dir); ("/home", Dir); ("/home/u", Dir); ("/data", Dir)].

Definition plain_world : World :=
  mkWorld plain_fs (Path_of_str "/home/u") (mkDT 2024 3 7 9 5 0 0) false no_programs [].

(** The configuration of the repository's test. *)
Definition test_config : list (string * pyval) :=
  [("calculation_name", PStr "test_calc");
   ("workflow_type", PStr "vMCG");
   ("inp_file", PPath (Path_of_str "/test/path/input.inp"));
   ("analysis_tools", PList [PStr "rdcheck etot"; PStr "rdcheck spop"])].

(** A path under one path key, a list of strings under another one. *)
Definition list_under_path_key : list (string * pyval) :=
  [("inp_file", PPath (Path_of_str "/test/path/input.inp"));
   ("op_file", PList [PStr "rdcheck etot"; PStr "rdcheck spop"])].

Definition config_path : Path := Path_of_str "/home/u/cfg/test_config.json".

(** A runner whose registry file cannot be written: a directory stands
    at its place. *)
Definition blocked_registry_state : State :=
  let s := fresh_state quantics_installed ho_inp in
  mkState (self s) (heap s) (next_loc s)
          (with_fs (<["/home/u/.quantics_local/calculations.json" := Dir]> (fs (world s)))
                   (world s)).

End Demo.

(** * Properties *)

Import PyStr PyPath PyDatetime Py OS.

(** ** Workflow tables *)

(** C8. For each of the three workflow types the tool list of the local
    path (the table of the main window, and the entries it hands over when
    all of them are selected) is the tool list of the adapter's table, in
    the same order, with the values the specification lists. *)
Theorem workflow_tables_agree :
  Forall (fun wf =>
            Workflow.local_tools wf = Workflow._get_analysis_tools wf /\
            option_map (map fst) (dict_get wf Workflow.workflow_analysis_map)
              = Some (Workflow._get_analysis_tools wf))
         ["MCTDH"; "vMCG"; "DD-vMCG"] /\
  Workflow._get_analysis_tools "MCTDH"
    = ["rdcheck etot"; "rdcheck spop"; "rdcheck natpop 0 0"; "rdgpop"] /\
  Workflow._get_analysis_tools "vMCG" = ["rdcheck etot"; "rdcheck spop"] /\
  Workflow._get_analysis_tools "DD-vMCG" = ["rdcheck etot"; "rdcheck spop"; "ddtraj"].
Proof.
  split; [| repeat split; reflexivity].
  repeat constructor; reflexivity.
Qed.

(** ** Output parser *)

Section ParserFacts.
Context {F : Type} (float_of_str : string -> option F).

Local Abbreviation parse_line := (Parser.parse_line float_of_str).

Lemma last_some_cons {A B} (g : A -> option B) (x : A) (l : list A) :
  Reading.last_some g (x :: l) =
  match Reading.last_some g l with
  | Some y => Some y
  | None => g x
  end.
Proof.
  unfold Reading.last_some.
  change (omap g (x :: l))
    with (match g x with Some y => y :: omap g l | None => omap g l end).
  destruct (g x) as [y|]; [| now destruct (last (omap g l))].
  rewrite last_cons. now destruct (last (omap g l)).
Qed.

Lemma parse_line_energy r line :
  Parser.total_energy (parse_line r line) =
  match Reading.labelled_value float_of_str "Total energy" line with
  | Some e => Some e
  | None => Parser.total_energy r
  end.
Proof.
  unfold Parser.parse_line, Reading.labelled_value.
  destruct (contains "Total energy" line), (contains "Final time" line),
    (contains "Convergence" line), (contains "achieved" line),
    (contains "failed" line), (Parser.last_float float_of_str line);
    reflexivity.
Qed.

Lemma parse_line_time r line :
  Parser.final_time (parse_line r line) =
  match Reading.labelled_value float_of_str "Final time" line with
  | Some e => Some e
  | None => Parser.final_time r
  end.
Proof.
  unfold Parser.parse_line, Reading.labelled_value.
  destruct (contains "Total energy" line), (contains "Final time" line),
    (contains "Convergence" line), (contains "achieved" line),
    (contains "failed" line), (Parser.last_float float_of_str line);
    reflexivity.
Qed.

Lemma parse_line_converged r line :
  Parser.converged (parse_line r line) =
  match Reading.verdict line with
  | Some e => Some e
  | None => Parser.converged r
  end.
Proof.
  unfold Parser.parse_line, Reading.verdict.
  destruct (contains "Total energy" line), (contains "Final time" line),
    (contains "Convergence" line), (contains "achieved" line),
    (contains "failed" line), (Parser.last_float float_of_str line);
    reflexivity.
Qed.

(** A field of the result of the loop is decided by the last line that
    sets it. *)
Lemma fold_last_wins {B} (proj : Parser.parsed -> option B) (g : string -> option B) :
  (forall r line, proj (parse_line r line) =
                  match g line with Some e => Some e | None => proj r end) ->
  forall lines r,
    proj (fold_left parse_line lines r) =
    match Reading.last_some g lines with
    | Some e => Some e
    | None => proj r
    end.
Proof.
  intros Hstep lines. induction lines as [|l ls IH]; intros r; [reflexivity|].
  simpl. rewrite IH, last_some_cons, Hstep.
  now destruct (Reading.last_some g ls).
Qed.

(** C7 (as amended).  Each of the three results is taken from the last
    line that gives it, not from the first: [total_energy] from the last
    line that holds ["Total energy"] and whose last token parses as a
    number, [final_time] likewise for ["Final time"], [converged] from the
    last line that holds ["Convergence"] with ["achieved"] (true) or
    else with ["failed"] (false); a result no line gives is absent.  On the
    text of the specification's example the three results are the numbers
    read from [-1.234] and [100.0], and [true]. *)
Theorem parse_output_last_line_wins :
  (forall text,
     let lines := split_on nl text in
     let r := Parser._parse_quantics_output float_of_str text in
     Parser.total_energy r
       = Reading.last_some (Reading.labelled_value float_of_str "Total energy") lines /\
     Parser.final_time r
       = Reading.last_some (Reading.labelled_value float_of_str "Final time") lines /\
     Parser.converged r = Reading.last_some Reading.verdict lines) /\
  Parser._parse_quantics_output float_of_str Demo.sample_output
    = Parser.mkParsed (float_of_str "-1.234") (float_of_str "100.0") (Some true).
Proof.
  split.
  - intros text lines r. subst r. unfold Parser._parse_quantics_output. fold lines.
    rewrite (fold_last_wins _ _ parse_line_energy),
            (fold_last_wins _ _ parse_line_time),
            (fold_last_wins _ _ parse_line_converged).
    unfold Parser.empty_results.
    cbn [Parser.total_energy Parser.final_time Parser.converged].
    repeat split;
      match goal with |- match ?o with _ => _ end = _ => now destruct o end.
  - vm_compute.
    destruct (float_of_str _), (float_of_str _); reflexivity.
Qed.

End ParserFacts.

(** C7, the claim as stated fails: with [Total energy] on two lines the
    parser returns the number of the second line, the first line's number
    being what the claim names. *)
Lemma parse_output_not_first_line :
  Parser.total_energy (Parser._parse_quantics_output Parser.decimal_float Demo.two_energies)
    = Some (2 # 1)%Q /\
  Demo.first_labelled Parser.decimal_float "Total energy" Demo.two_energies
    = Some (1 # 1)%Q /\
  Parser.total_energy (Parser._parse_quantics_output Parser.decimal_float Demo.two_energies)
    <> Demo.first_labelled Parser.decimal_float "Total energy" Demo.two_energies.
Proof.
  repeat split; try reflexivity.
  vm_compute. discriminate.
Qed.

(** ** Strings *)

Lemma app_cons (c : ascii) (s t : string) : String c s +:+ t = String c (s +:+ t).
Proof. reflexivity. Qed.

Lemma app_empty (t : string) : "" +:+ t = t.
Proof. reflexivity. Qed.

Lemma truthy_app (s t : string) : truthy s = true -> truthy (s +:+ t) = true.
Proof. destruct s; [discriminate | reflexivity]. Qed.

Lemma contains_char_cons (a c : ascii) (x : string) :
  contains (String a "") (String c x) = Ascii.eqb a c || contains (String a "") x.
Proof. simpl. now rewrite andb_true_r. Qed.

Lemma split_by_no_sep (f : ascii -> bool) (x : string) :
  (forall c, f c = true -> contains (String c "") x = false) ->
  split_by f x = [x].
Proof.
  induction x as [|c x IH]; intros H; [reflexivity|].
  simpl. destruct (f c) eqn:Hc.
  - specialize (H c Hc). rewrite contains_char_cons, Ascii.eqb_refl in H. discriminate.
  - rewrite IH; [reflexivity|].
    intros c' Hc'. specialize (H c' Hc'). rewrite contains_char_cons in H.
    now apply orb_false_elim in H.
Qed.

Lemma split_on_no_sep (a : ascii) (x : string) :
  contains (String a "") x = false -> split_on a x = [x].
Proof.
  intros H. apply split_by_no_sep. intros c Hc.
  apply Ascii.eqb_eq in Hc. now subst.
Qed.

Lemma split_on_app_sep (a : ascii) (x s : string) :
  contains (String a "") x = false ->
  split_on a (x +:+ String a s) = x :: split_on a s.
Proof.
  unfold split_on. induction x as [|c x IH]; intros H.
  - rewrite app_empty. simpl. now rewrite Ascii.eqb_refl.
  - rewrite contains_char_cons in H. apply orb_false_elim in H as [Hc Hx].
    rewrite app_cons. simpl. rewrite Hc, (IH Hx). reflexivity.
Qed.

Lemma split_on_join (a : ascii) (l : list string) :
  l <> [] ->
  Forall (fun x => contains (String a "") x = false) l ->
  split_on a (join (String a "") l) = l.
Proof.
  induction l as [|x l IH]; intros Hne Hall; [congruence|].
  inversion Hall as [|? ? Hx Hl]; subst.
  destruct l as [|y l].
  - simpl. now apply split_on_no_sep.
  - change (join (String a "") (x :: y :: l))
      with (x +:+ String a (join (String a "") (y :: l))).
    rewrite split_on_app_sep by assumption.
    rewrite IH; [reflexivity | discriminate | assumption].
Qed.

(** ** Paths: [Path(str(p))] is [p] *)

Lemma part_ok_spec (x : string) :
  part_ok x = true ->
  keep_part x = true /\ contains "/" x = false /\ truthy x = true.
Proof.
  unfold part_ok, keep_part. intros H.
  apply andb_prop in H as [H1 H2]. apply andb_prop in H1 as [H3 H4].
  repeat split.
  - now rewrite H3, H4.
  - now apply negb_true_iff in H2.
  - assumption.
Qed.

Lemma filter_keep_parts (ps : list string) :
  forallb part_ok ps = true -> List.filter keep_part ps = ps.
Proof.
  induction ps as [|x ps IH]; intros H; [reflexivity|].
  simpl in H. apply andb_prop in H as [Hx Hps].
  destruct (part_ok_spec x Hx) as (Hk & _ & _).
  simpl. rewrite Hk, (IH Hps). reflexivity.
Qed.

Lemma parts_no_slash (ps : list string) :
  forallb part_ok ps = true -> Forall (fun x => contains "/" x = false) ps.
Proof.
  induction ps as [|x ps IH]; intros H; constructor;
    simpl in H; apply andb_prop in H as [Hx Hps].
  - now destruct (part_ok_spec x Hx) as (_ & ? & _).
  - now apply IH.
Qed.

Lemma parse_anchor_rel (c : ascii) (s : string) :
  Ascii.eqb "/" c = false -> parse_anchor (String c s) = Rel.
Proof.
  destruct c as [[] [] [] [] [] [] [] []]; intros H;
    try reflexivity; discriminate.
Qed.

Lemma parse_anchor_root (c : ascii) (s : string) :
  Ascii.eqb "/" c = false -> parse_anchor (String "/" (String c s)) = Root.
Proof.
  destruct c as [[] [] [] [] [] [] [] []]; intros H;
    try reflexivity; discriminate.
Qed.

Lemma parse_anchor_root2 (c : ascii) (s : string) :
  Ascii.eqb "/" c = false ->
  parse_anchor (String "/" (String "/" (String c s))) = Root2.
Proof.
  destruct c as [[] [] [] [] [] [] [] []]; intros H;
    try reflexivity; discriminate.
Qed.

(** The text of a non-empty list of components starts with a character
    that is not a slash. *)
Lemma join_parts_head (x : string) (ps : list string) :
  forallb part_ok (x :: ps) = true ->
  exists c s, join "/" (x :: ps) = String c s /\ Ascii.eqb "/" c = false.
Proof.
  intros H. simpl in H. apply andb_prop in H as [Hx _].
  destruct (part_ok_spec x Hx) as (_ & Hs & Ht).
  destruct x as [|c x]; [discriminate|].
  rewrite contains_char_cons in Hs. apply orb_false_elim in Hs as [Hc _].
  destruct ps as [|y ps].
  - exists c, x. now split.
  - exists c, (x +:+ "/" +:+ join "/" (y :: ps)). now split.
Qed.

Lemma Path_of_str_str (p : Path) :
  path_ok p = true -> Path_of_str (str p) = p.
Proof.
  destruct p as [a ps]. unfold path_ok, str, Path_of_str. cbn [anchor_of parts].
  intros Hok.
  destruct ps as [|x ps].
  - now destruct a.
  - destruct (join_parts_head x ps Hok) as (c & s & Hj & Hc).
    pose proof (split_on_join slash (x :: ps) ltac:(discriminate)
                  (parts_no_slash _ Hok)) as Hsplit.
    change (String slash "") with "/" in Hsplit.
    pose proof (filter_keep_parts _ Hok) as Hf.
    destruct a; unfold anchor_str.
    + rewrite app_empty, Hsplit, Hf. rewrite Hj.
      now rewrite parse_anchor_rel.
    + change ("/" +:+ join "/" (x :: ps)) with (String "/" (join "/" (x :: ps))).
      unfold split_on in *. cbn [split_by]. change (Ascii.eqb slash "/") with true.
      cbn [List.filter keep_part truthy is_empty negb andb].
      rewrite Hsplit, Hf, Hj. now rewrite parse_anchor_root.
    + change ("//" +:+ join "/" (x :: ps))
        with (String "/" (String "/" (join "/" (x :: ps)))).
      unfold split_on in *. cbn [split_by]. change (Ascii.eqb slash "/") with true.
      cbn [List.filter keep_part truthy is_empty negb andb].
      rewrite Hsplit, Hf, Hj. now rewrite parse_anchor_root2.
Qed.

Lemma str_truthy (p : Path) : path_ok p = true -> truthy (str p) = true.
Proof.
  destruct p as [a ps]. unfold path_ok, str. cbn [anchor_of parts]. intros Hok.
  destruct ps as [|x ps]; [now destruct a|].
  destruct (join_parts_head x ps Hok) as (c & s & Hj & _).
  rewrite Hj. now destruct a.
Qed.

(** ** Date-times: [fromisoformat(isoformat(d))] is [d] *)

Lemma digit_val_char (d : Z) :
  0 <= d < 10 -> digit_val (digit_char d) = Some d.
Proof.
  intros H.
  assert (d = 0 \/ d = 1 \/ d = 2 \/ d = 3 \/ d = 4 \/
          d = 5 \/ d = 6 \/ d = 7 \/ d = 8 \/ d = 9) as Hd by lia.
  repeat (destruct Hd as [-> | Hd]; [reflexivity|]). now subst.
Qed.

Lemma read_digits_S (w : nat) (c : ascii) (s : string) (acc : Z) :
  read_digits (S w) (String c s) acc =
  match digit_val c with
  | Some d => read_digits w s (acc * 10 + d)
  | None => None
  end.
Proof. reflexivity. Qed.

(** Reading one digit more is reading one digit last. *)
Lemma read_digits_last (w : nat) : forall (s : string) (acc : Z),
  read_digits (S w) s acc =
  match read_digits w s acc with
  | Some (a, String c s') =>
      match digit_val c with
      | Some d => Some (a * 10 + d, s')
      | None => None
      end
  | _ => None
  end.
Proof.
  induction w as [|w IH]; intros s acc.
  - simpl. destruct s as [|c s]; [reflexivity|]. now destruct (digit_val c).
  - destruct s as [|c s]; [reflexivity|].
    rewrite !read_digits_S.
    destruct (digit_val c) as [d|]; [|reflexivity].
    apply IH.
Qed.

Lemma read_digits_digits (w : nat) : forall (n : Z) (rest : string) (acc : Z),
  0 <= n < 10 ^ Z.of_nat w ->
  read_digits w (digits w n rest) acc = Some (acc * 10 ^ Z.of_nat w + n, rest).
Proof.
  induction w as [|w IH]; intros n rest acc Hn.
  - simpl in *. f_equal. f_equal. lia.
  - rewrite read_digits_last.
    change (digits (S w) n rest)
      with (digits w (n / 10) (String (digit_char (n mod 10)) rest)).
    rewrite Nat2Z.inj_succ, Z.pow_succ_r in Hn by lia.
    rewrite IH by (split; [apply Z.div_pos; lia | apply Z.div_lt_upper_bound; lia]).
    rewrite digit_val_char by (apply Z.mod_pos_bound; lia).
    f_equal. f_equal.
    rewrite Nat2Z.inj_succ, Z.pow_succ_r by lia.
    pose proof (Z.div_mod n 10 ltac:(lia)). lia.
Qed.

Lemma digits_truthy (w : nat) : forall (n : Z) (rest : string),
  truthy rest = true -> truthy (digits w n rest) = true.
Proof.
  induction w as [|w IH]; intros n rest H; [assumption|].
  simpl. now apply IH.
Qed.

Lemma in_range_spec (lo hi x : Z) : in_range lo hi x = true -> lo <= x <= hi.
Proof. unfold in_range. lia. Qed.

Lemma days_in_month_le (y m : Z) : days_in_month y m <= 31.
Proof.
  unfold days_in_month.
  repeat match goal with |- context [if ?b then _ else _] => destruct b end; lia.
Qed.

Lemma isoformat_truthy (d : datetime) : truthy (isoformat d) = true.
Proof. unfold isoformat. now apply digits_truthy. Qed.

Lemma expect_cons (c : ascii) (s : string) : expect c (String c s) = Some s.
Proof. unfold expect. now rewrite Ascii.eqb_refl. Qed.

Lemma fromisoformat_isoformat (d : datetime) :
  dt_valid d = true -> fromisoformat (isoformat d) = Some d.
Proof.
  intros Hv. pose proof Hv as Hv'.
  unfold dt_valid in Hv'.
  repeat match type of Hv' with
         | _ && _ = true => apply andb_prop in Hv' as [Hv' ?]
         end.
  repeat match goal with
         | H : in_range _ _ _ = true |- _ => apply in_range_spec in H
         end.
  pose proof (days_in_month_le (year d) (month d)).
  destruct d as [y mo dd h mi sec us]. simpl in *.
  unfold fromisoformat, isoformat. cbn [year month day hour minute second microsecond].
  rewrite (read_digits_digits 4) by (simpl; lia).
  cbn [mbind option_bind]. rewrite expect_cons. cbn [mbind option_bind].
  rewrite (read_digits_digits 2) by (simpl; lia).
  cbn [mbind option_bind]. rewrite expect_cons. cbn [mbind option_bind].
  rewrite (read_digits_digits 2) by (simpl; lia).
  cbn [mbind option_bind]. unfold parse_time.
  rewrite (read_digits_digits 2) by (simpl; lia).
  cbn [mbind option_bind].
  rewrite (read_digits_digits 2) by (simpl; lia).
  cbn [mbind option_bind].
  rewrite (read_digits_digits 2) by (simpl; lia).
  cbn [mbind option_bind].
  replace (0 * 10 ^ Z.of_nat 4 + y) with y by lia.
  replace (0 * 10 ^ Z.of_nat 2 + mo) with mo by lia.
  replace (0 * 10 ^ Z.of_nat 2 + dd) with dd by lia.
  replace (0 * 10 ^ Z.of_nat 2 + h) with h by lia.
  replace (0 * 10 ^ Z.of_nat 2 + mi) with mi by lia.
  replace (0 * 10 ^ Z.of_nat 2 + sec) with sec by lia.
  destruct (us =? 0) eqn:Hus.
  - apply Z.eqb_eq in Hus. subst us. cbn [mbind option_bind]. now rewrite Hv.
  - rewrite (read_digits_digits 6) by (simpl; lia).
    replace (0 * 10 ^ Z.of_nat 6 + us) with us by lia.
    cbn [mbind option_bind]. now rewrite Hv.
Qed.

(** ** The calculation record: [from_dict(to_dict(c))] is [c] *)

Lemma opt_path_opt_val (o : option Path) :
  Reading.opt_ok path_ok o = true ->
  Runner.opt_path (Runner.opt_val str o) = Ok o.
Proof.
  destruct o as [p|]; [|reflexivity]. simpl. intros Hp.
  unfold Runner.opt_path. cbn [py_truthy].
  now rewrite (str_truthy p Hp), (Path_of_str_str p Hp).
Qed.

Lemma opt_datetime_opt_val (o : option datetime) :
  Reading.opt_ok dt_valid o = true ->
  Runner.opt_datetime (Runner.opt_val isoformat o) = Ok o.
Proof.
  destruct o as [d|]; [|reflexivity]. simpl. intros Hd.
  unfold Runner.opt_datetime. cbn [py_truthy].
  now rewrite (isoformat_truthy d), (fromisoformat_isoformat d Hd).
Qed.

(** C10. For a calculation record whose path fields are [None] or path
    objects and whose times are [None] or date-times, whatever its
    [results], rebuilding the record from its dictionary gives the record
    back: all ten fields are the original's. *)
Theorem from_dict_to_dict (c : Runner.QuanticsCalculation) :
  Reading.calc_ok c = true ->
  Runner.from_dict (Runner.to_dict c) = Ok c.
Proof.
  unfold Reading.calc_ok. intros H.
  repeat match type of H with
         | _ && _ = true => apply andb_prop in H as [H ?]
         end.
  destruct c as [nm inp op db wf wd st t0 t1 res]. cbn [Runner.inp_file Runner.op_file
    Runner.db_folder Runner.working_directory Runner.start_time Runner.end_time] in *.
  unfold Runner.from_dict, Runner.to_dict.
  cbn [Runner.name Runner.inp_file Runner.op_file Runner.db_folder
       Runner.workflow_type Runner.working_directory Runner.status
       Runner.start_time Runner.end_time Runner.results].
  unfold Runner.item.
  repeat match goal with
         | |- context [dict_get ?k ?d] =>
             let v := eval cbv [dict_get String.eqb Ascii.eqb Bool.eqb] in (dict_get k d) in
             change (dict_get k d) with v
         end.
  cbn [Runner.rbind Runner.as_str Runner.as_dict].
  rewrite !opt_path_opt_val, !opt_datetime_opt_val by assumption.
  reflexivity.
Qed.

Lemma from_dict_to_dict_witness :
  Reading.calc_ok Demo.sample_calc = true /\
  Runner.from_dict (Runner.to_dict Demo.sample_calc) = Ok Demo.sample_calc.
Proof.
  split; [reflexivity | apply (from_dict_to_dict Demo.sample_calc); reflexivity].
Defined.

(** ** Dictionaries *)

Section DictFacts.
Context {V : Type}.
Implicit Types (d acc : list (string * V)) (k : string) (v : V).

Lemma dict_mem_app k d1 d2 :
  dict_mem k (d1 ++ d2) = dict_mem k d1 || dict_mem k d2.
Proof.
  unfold dict_mem. induction d1 as [|[k' v'] d1 IH]; [reflexivity|].
  simpl. destruct (String.eqb k k'); [reflexivity | apply IH].
Qed.

Lemma dict_mem_cons k k' v d :
  dict_mem k ((k', v) :: d) = String.eqb k k' || dict_mem k d.
Proof. unfold dict_mem. simpl. now destruct (String.eqb k k'). Qed.

Lemma dict_set_fresh k v d :
  dict_mem k d = false -> dict_set k v d = d ++ [(k, v)].
Proof.
  induction d as [|[k' v'] d IH]; intros H; [reflexivity|].
  rewrite dict_mem_cons in H. apply orb_false_elim in H as [Hk Hd].
  simpl. rewrite Hk, (IH Hd). reflexivity.
Qed.

Lemma dict_get_set_eq k v d : dict_get k (dict_set k v d) = Some v.
Proof.
  induction d as [|[k' v'] d IH]; simpl.
  - now rewrite String.eqb_refl.
  - destruct (String.eqb k k') eqn:E; simpl; rewrite E; [reflexivity | apply IH].
Qed.

Lemma dict_get_set_ne k k' v d :
  k <> k' -> dict_get k (dict_set k' v d) = dict_get k d.
Proof.
  intros Hne. induction d as [|[k2 v2] d IH]; simpl.
  - apply String.eqb_neq in Hne. now rewrite Hne.
  - destruct (String.eqb k' k2) eqn:E; simpl.
    + apply String.eqb_eq in E. subst k2.
      apply String.eqb_neq in Hne. now rewrite Hne.
    + destruct (String.eqb k k2); [reflexivity | apply IH].
Qed.

Lemma dict_keys_set k v d :
  dict_mem k d = true -> dict_keys (dict_set k v d) = dict_keys d.
Proof.
  unfold dict_keys. induction d as [|[k' v'] d IH]; intros H; [discriminate|].
  rewrite dict_mem_cons in H. simpl.
  destruct (String.eqb k k') eqn:E; simpl; [reflexivity|].
  simpl in H. now rewrite IH.
Qed.

End DictFacts.

(** A loop that stores one value per entry of a dictionary rebuilds the
    dictionary entry by entry. *)
Lemma fold_dict_set_fresh {V W} (g : string * V -> W) (d : list (string * V)) :
  forall acc : list (string * W),
    Reading.nodup_keys d = true ->
    (forall kv, In kv d -> dict_mem (fst kv) acc = false) ->
    fold_left (fun acc kv => dict_set (fst kv) (g kv) acc) d acc
    = acc ++ map (fun kv => (fst kv, g kv)) d.
Proof.
  induction d as [|[k v] d IH]; intros acc Hnd Hfresh.
  - simpl. now rewrite app_nil_r.
  - simpl in Hnd. apply andb_prop in Hnd as [Hk Hnd].
    apply negb_true_iff in Hk.
    cbn [fold_left fst map].
    rewrite dict_set_fresh by (apply (Hfresh (k, v)); now left).
    rewrite IH; [now rewrite <- app_assoc | assumption |].
    intros [k' v'] Hin. cbn [fst].
    pose proof (Hfresh (k', v') (or_intror Hin)) as Hf. cbn [fst] in Hf.
    rewrite dict_mem_app, Hf.
    rewrite dict_mem_cons. cbn [orb].
    replace (dict_mem k' (@nil (string * W))) with false by reflexivity.
    rewrite orb_false_r.
    destruct (String.eqb k' k) eqn:E; [|reflexivity].
    apply String.eqb_eq in E. subst k'.
    exfalso. clear -Hk Hin.
    induction d as [|[k2 v2] d IHd]; [contradiction|].
    rewrite dict_mem_cons in Hk. apply orb_false_elim in Hk as [Hk1 Hk2].
    destruct Hin as [Heq | Hin].
    + inversion Heq; subst. now rewrite String.eqb_refl in Hk1.
    + now apply IHd.
Qed.

Lemma nodup_keys_map {V W} (f : string * V -> W) (d : list (string * V)) :
  Reading.nodup_keys (map (fun kv => (fst kv, f kv)) d) = Reading.nodup_keys d.
Proof.
  induction d as [|[k v] d IH]; [reflexivity|].
  cbn [map Reading.nodup_keys fst]. rewrite IH. f_equal. f_equal.
  clear. unfold dict_mem.
  induction d as [|[k' v'] d IH]; [reflexivity|].
  cbn [map dict_get fst]. destruct (String.eqb k k'); [reflexivity | apply IH].
Qed.

(** ** Configuration store: what is saved is loaded back *)

(** Induction over values, through lists and dictionaries. *)
Lemma pyval_rect' (P : pyval -> Prop) :
  P PNone -> (forall b, P (PBool b)) -> (forall z, P (PInt z)) ->
  (forall s, P (PStr s)) -> (forall p, P (PPath p)) ->
  (forall l, Forall P l -> P (PList l)) ->
  (forall d, Forall (fun kv => P (snd kv)) d -> P (PDict d)) ->
  forall v, P v.
Proof.
  intros HN HB HI HS HP HL HD.
  fix IH 1. intros [| b | z | s | p | l | d].
  - exact HN.
  - apply HB.
  - apply HI.
  - apply HS.
  - apply HP.
  - apply HL. induction l as [|x l IHl]; constructor; [apply IH | exact IHl].
  - apply HD. induction d as [|[k x] d IHd]; constructor; [apply IH | exact IHd].
Qed.

Lemma serialize_item_jsonable (v : pyval) :
  jsonable v = true -> Config.serialize_item v = v.
Proof. now destruct v. Qed.

Lemma map_serialize_item (l : list pyval) :
  forallb jsonable l = true -> map Config.serialize_item l = l.
Proof.
  induction l as [|x l IH]; intros H; [reflexivity|].
  simpl in H. apply andb_prop in H as [Hx Hl].
  simpl. now rewrite serialize_item_jsonable, IH.
Qed.

(** The loop of [_deserialize_config], when every entry converts. *)
Lemma fold_deserialize (ser orig : list (string * pyval)) :
  Forall2 (fun a b => fst a = fst b /\
                      Config.deserialize_value (fst a) (snd a) = Ok (snd b)) ser orig ->
  forall acc,
    fold_left (fun acc kv =>
                 match acc with
                 | Ok result_config =>
                     match Config.deserialize_value (fst kv) (snd kv) with
                     | Ok v => Ok (dict_set (fst kv) v result_config)
                     | Raise e => Raise e
                     end
                 | Raise e => Raise e
                 end) ser (Ok acc)
    = Ok (fold_left (fun r kv => dict_set (fst kv) (snd kv) r) orig acc).
Proof.
  induction 1 as [|a b ser orig [Hk Hv] _ IH]; intros acc; [reflexivity|].
  cbn [fold_left]. rewrite Hv, Hk. apply IH.
Qed.

Lemma fold_dict_set_id (d : list (string * pyval)) :
  Reading.nodup_keys d = true ->
  fold_left (fun r kv => dict_set (fst kv) (snd kv) r) d [] = d.
Proof.
  intros H. rewrite (fold_dict_set_fresh snd d []) by (assumption || reflexivity).
  cbn [app]. induction d as [|[k v] d IH]; [reflexivity|].
  simpl in H. apply andb_prop in H as [_ H]. simpl. now rewrite IH.
Qed.

Lemma serialize_dict_map (d : list (string * pyval)) :
  Reading.nodup_keys d = true ->
  fold_left (fun json_config kv =>
               dict_set (fst kv) (Config.serialize_value (snd kv)) json_config) d []
  = map (fun kv => (fst kv, Config.serialize_value (snd kv))) d.
Proof.
  intros H.
  now rewrite (fold_dict_set_fresh (fun kv => Config.serialize_value (snd kv)) d [])
    by (assumption || reflexivity).
Qed.

Lemma stable_dict_entries (d : list (string * pyval)) :
  Forall (fun kv => forall key, Reading.stable key (snd kv) = true ->
            Config.deserialize_value key (Config.serialize_value (snd kv)) = Ok (snd kv) /\
            jsonable (Config.serialize_value (snd kv)) = true) d ->
  forallb (fun kv => Reading.stable (fst kv) (snd kv)) d = true ->
  Forall2 (fun a b => fst a = fst b /\
                      Config.deserialize_value (fst a) (snd a) = Ok (snd b))
          (map (fun kv => (fst kv, Config.serialize_value (snd kv))) d) d /\
  forallb (fun kv => jsonable (snd kv))
          (map (fun kv => (fst kv, Config.serialize_value (snd kv))) d) = true.
Proof.
  induction 1 as [|[k v] d Hkv _ IH]; intros Hst; [now split; constructor|].
  simpl in Hst. apply andb_prop in Hst as [Hv Hd].
  destruct (Hkv k Hv) as [H1 H2]. destruct (IH Hd) as [H3 H4].
  cbn [fst snd] in *.
  split.
  - constructor; [now split | assumption].
  - cbn [map forallb snd]. now rewrite H2, H4.
Qed.

(** A stable value is serialised to a JSON value from which
    deserialisation under the same key gives the value back. *)
Lemma deserialize_serialize_value (v : pyval) :
  forall key, Reading.stable key v = true ->
    Config.deserialize_value key (Config.serialize_value v) = Ok v /\
    jsonable (Config.serialize_value v) = true.
Proof.
  induction v as [| b | z | s | p | l IHl | d IHd] using pyval_rect'; intros key Hst.
  - simpl in *. split; [|reflexivity]. now destruct (Config.is_path_key key).
  - simpl in *. split; [|reflexivity].
    destruct (Config.is_path_key key), b; try reflexivity; discriminate.
  - simpl in *. split; [|reflexivity].
    destruct (Config.is_path_key key), (z =? 0); try reflexivity; discriminate.
  - simpl in *. split; [|reflexivity].
    destruct (Config.is_path_key key), (truthy s); try reflexivity; discriminate.
  - simpl in Hst. apply andb_prop in Hst as [Hk Hp].
    cbn [Config.serialize_value]. split; [|reflexivity].
    unfold Config.deserialize_value. cbn [py_truthy].
    rewrite Hk, (str_truthy p Hp). cbn [andb Config.Path_of_val].
    now rewrite (Path_of_str_str p Hp).
  - simpl in Hst. apply andb_prop in Hst as [Hk Hj].
    cbn [Config.serialize_value]. rewrite (map_serialize_item l Hj).
    split; [| exact Hj].
    unfold Config.deserialize_value. cbn [py_truthy].
    destruct (Config.is_path_key key); [|reflexivity].
    destruct l; [reflexivity | discriminate].
  - cbn [Reading.stable] in Hst.
    apply andb_prop in Hst as [Hst Hall]. apply andb_prop in Hst as [Hk Hnd].
    destruct (stable_dict_entries d IHd Hall) as [HF2 Hjs].
    cbn [Config.serialize_value]. rewrite (serialize_dict_map d Hnd).
    split; [| exact Hjs].
    cbn [Config.deserialize_value py_truthy].
    assert (Config.is_path_key key &&
            match map (fun kv => (fst kv, Config.serialize_value (snd kv))) d with
            | [] => false | _ :: _ => true end = false) as ->.
    { destruct (Config.is_path_key key); [|reflexivity].
      destruct d; [reflexivity | discriminate]. }
    rewrite (fold_deserialize _ d HF2 []), (fold_dict_set_id d Hnd). reflexivity.
Qed.

Lemma deserialize_serialize_config (config : list (string * pyval)) :
  Reading.config_stable config = true ->
  Config._deserialize_config (Config._serialize_config config) = Ok config /\
  jsonable (PDict (Config._serialize_config config)) = true.
Proof.
  unfold Reading.config_stable. intros H. apply andb_prop in H as [Hnd Hall].
  unfold Config._serialize_config, Config._deserialize_config.
  rewrite (serialize_dict_map config Hnd).
  assert (Forall (fun kv => forall key, Reading.stable key (snd kv) = true ->
            Config.deserialize_value key (Config.serialize_value (snd kv)) = Ok (snd kv) /\
            jsonable (Config.serialize_value (snd kv)) = true) config) as HF.
  { apply Forall_forall. intros kv _ key. apply deserialize_serialize_value. }
  destruct (stable_dict_entries config HF Hall) as [HF2 Hjs].
  split; [| exact Hjs].
  now rewrite (fold_deserialize _ config HF2 []), (fold_dict_set_id config Hnd).
Qed.

(** ** Files *)

Lemma bind_eq {S A B} (m : ST S A) (k : A -> ST S B) (s : S) :
  bind m k s = match m s with
               | (Ok a, s') => k a s'
               | (Raise e, s') => (Raise e, s')
               end.
Proof. reflexivity. Qed.

Lemma put_file_ok (p : Path) (c : content) (w w' : World) :
  put_file p c w = (Ok tt, w') ->
  w' = with_fs (<[key w p := File c]> (fs w)) w.
Proof.
  unfold put_file, key. intros H.
  destruct (negb (is_dir w (parent (resolve (cwd w) p)))); [discriminate|].
  destruct (is_dir w (resolve (cwd w) p)); [discriminate|].
  destruct (disk_full w); [discriminate|].
  now inversion H.
Qed.

Lemma read_content_put (p : Path) (c : content) (w : World) :
  read_content (with_fs (<[key w p := File c]> (fs w)) w) p = Some c.
Proof.
  unfold read_content, lookup_node, with_fs, key. cbn [fs cwd].
  now rewrite lookup_insert_eq.
Qed.

Lemma write_file_ok (p : Path) (c : content) (w w' : World) :
  write_file p c w = (Ok tt, w') -> read_content w' p = Some c.
Proof.
  unfold write_file, emit, modify. rewrite bind_eq. intros H.
  apply put_file_ok in H. subst w'. apply read_content_put.
Qed.

Lemma save_config_written (config : list (string * pyval)) (file : Path) (w w1 : World) :
  Config.save_config config (Some file) w = (Ok true, w1) ->
  jsonable (PDict (Config._serialize_config config)) = true ->
  read_content w1 file = Some (Json (PDict (Config._serialize_config config))).
Proof.
  unfold Config.save_config. rewrite bind_eq. unfold ret at 1.
  unfold try_except. rewrite bind_eq.
  destruct (makedirs (parent file) w) as [[[]|e] wa].
  2:{ rewrite bind_eq. unfold print, emit, modify, ret. discriminate. }
  rewrite bind_eq. unfold json_dump_file. intros H Hj. rewrite Hj in H.
  destruct (write_file file _ wa) as [[[]|e] wb] eqn:Hw.
  2:{ rewrite bind_eq in H. unfold print, emit, modify, ret in H. discriminate. }
  unfold ret in H. inversion H; subst wb.
  now apply write_file_ok in Hw.
Qed.

Lemma load_config_stored (file : Path) (w : World) (ser config : list (string * pyval)) :
  read_content w file = Some (Json (PDict ser)) ->
  Config._deserialize_config ser = Ok config ->
  Config.load_config file w = (Ok (Some config), w).
Proof.
  intros Hr Hd. unfold Config.load_config, try_except. rewrite bind_eq.
  unfold get. cbv iota beta.
  assert (path_exists w file = true) as ->.
  { unfold path_exists. unfold read_content in Hr.
    destruct (lookup_node w file); [reflexivity | discriminate]. }
  cbn [negb]. rewrite bind_eq. unfold json_load_file. rewrite Hr, Hd. reflexivity.
Qed.

(** C9 (as amended).  Take a configuration whose path keys hold path
    objects (or values that count as false) and whose other keys hold JSON
    values, a path object under a path key and a list of plain strings
    under a key that is not a path key among them.  If [save_config]
    reports success, [load_config] on the written file returns a dictionary
    equal to the original: the path is a path object again, the list of
    strings is unchanged. *)
Theorem config_round_trip (config : list (string * pyval)) (file : Path)
        (kp kl : string) (p : Path) (l : list string) (w w1 : World) :
  Reading.config_stable config = true ->
  dict_get kp config = Some (PPath p) ->
  dict_get kl config = Some (PList (map PStr l)) ->
  Config.save_config config (Some file) w = (Ok true, w1) ->
  exists loaded,
    fst (Config.load_config file w1) = Ok (Some loaded) /\
    loaded = config /\
    dict_get kp loaded = Some (PPath p) /\
    dict_get kl loaded = Some (PList (map PStr l)).
Proof.
  intros Hst Hp Hl Hsave.
  destruct (deserialize_serialize_config config Hst) as [Hd Hj].
  pose proof (save_config_written config file w w1 Hsave Hj) as Hr.
  exists config. rewrite (load_config_stored file w1 _ config Hr Hd).
  now repeat split.
Qed.

Lemma config_round_trip_witness :
  exists loaded,
    fst (Config.load_config Demo.config_path
           (snd (Config.save_config Demo.test_config (Some Demo.config_path)
                   Demo.plain_world)))
      = Ok (Some loaded) /\
    loaded = Demo.test_config /\
    dict_get "inp_file" loaded = Some (PPath (Path_of_str "/test/path/input.inp")) /\
    dict_get "analysis_tools" loaded
      = Some (PList (map PStr ["rdcheck etot"; "rdcheck spop"])).
Proof.
  apply (config_round_trip Demo.test_config Demo.config_path
           "inp_file" "analysis_tools" (Path_of_str "/test/path/input.inp")
           ["rdcheck etot"; "rdcheck spop"] Demo.plain_world);
    [reflexivity | reflexivity | reflexivity | vm_compute; reflexivity].
Defined.

(** A configuration made of a path under a path key and a list of strings
    under a key that is not a path key is of that kind. *)
Lemma path_and_list_stable (kp kl : string) (p : Path) (l : list string) :
  Config.is_path_key kp = true -> path_ok p = true ->
  Config.is_path_key kl = false ->
  Reading.config_stable [(kp, PPath p); (kl, PList (map PStr l))] = true.
Proof.
  intros Hkp Hp Hkl. unfold Reading.config_stable.
  cbn [Reading.nodup_keys forallb Reading.stable fst snd].
  rewrite Hkp, Hp, Hkl. cbn [negb andb orb].
  assert (forallb jsonable (map PStr l) = true) as ->
      by (induction l; [reflexivity | assumption]).
  rewrite dict_mem_cons. replace (dict_mem kp (@nil (string * pyval))) with false by reflexivity.
  destruct (String.eqb kp kl) eqn:E; [|reflexivity].
  apply String.eqb_eq in E. subst. congruence.
Qed.

(** C9, the claim as stated fails: with the list of strings under another
    recognised path key, [save_config] succeeds and [load_config] on the
    written file returns [None]. *)
Lemma config_list_under_path_key_lost :
  Config.is_path_key "inp_file" = true /\
  "op_file" <> "inp_file" /\
  Demo.list_under_path_key
    = [("inp_file", PPath (Path_of_str "/test/path/input.inp"));
       ("op_file", PList (map PStr ["rdcheck etot"; "rdcheck spop"]))] /\
  fst (Config.save_config Demo.list_under_path_key (Some Demo.config_path)
         Demo.plain_world) = Ok true /\
  fst (Config.load_config Demo.config_path
         (snd (Config.save_config Demo.list_under_path_key (Some Demo.config_path)
                 Demo.plain_world))) = Ok None.
Proof.
  repeat split; try reflexivity; try discriminate; vm_compute; reflexivity.
Qed.

(** ** The registry *)

(** C2. [create_calculation] with a name the registry already holds raises
    the duplicate-name error and leaves the whole state as it was: the
    registry, every calculation record, the file system (no directory is
    made, nothing is written). *)
Theorem create_duplicate_rejected
        (name : string) (inp op : Path) (wf : string) (db : option Path)
        (s : Runner.State) :
  dict_mem name (Runner.calculations (Runner.self s)) = true ->
  Runner.create_calculation name inp op wf db s
  = (Raise (mkExn ValueError ("Calculation name '" +:+ name +:+ "' already exists")), s).
Proof.
  intros H. unfold Runner.create_calculation. rewrite bind_eq.
  unfold get. cbv iota beta. now rewrite H.
Qed.

Lemma create_duplicate_rejected_witness :
  let s := Demo.created_state Demo.quantics_installed Demo.ho_inp in
  dict_mem "ho" (Runner.calculations (Runner.self s)) = true /\
  Runner.create_calculation "ho" (Path_of_str "/data/other.inp")
    (Path_of_str "/data/other.op") "vMCG" None s
  = (Raise (mkExn ValueError "Calculation name 'ho' already exists"), s).
Proof.
  split; [vm_compute; reflexivity |].
  apply (create_duplicate_rejected "ho" (Path_of_str "/data/other.inp")
           (Path_of_str "/data/other.op") "vMCG" None
           (Demo.created_state Demo.quantics_installed Demo.ho_inp)).
  vm_compute; reflexivity.
Defined.

(** ** Computations and what they preserve *)

Import Rel.

Section Preserves.
Context {S : Type} (R : S -> S -> Prop).
Context (R_refl : forall s, R s s) (R_trans : forall a b c, R a b -> R b c -> R a c).

Lemma preserves_ret {A} (a : A) : preserves R (ret a).
Proof. intros s r s' H. inversion H; subst. apply R_refl. Qed.

Lemma preserves_raise {A} (e : exn) : preserves R (@raise S A e).
Proof. intros s r s' H. inversion H; subst. apply R_refl. Qed.

Lemma preserves_get : preserves R (@get S).
Proof. intros s r s' H. inversion H; subst. apply R_refl. Qed.

Lemma preserves_gets {A} (f : S -> A) : preserves R (gets f).
Proof. intros s r s' H. inversion H; subst. apply R_refl. Qed.

Lemma preserves_modify (f : S -> S) :
  (forall s, R s (f s)) -> preserves R (modify f).
Proof. intros Hf s r s' H. inversion H; subst. apply Hf. Qed.

Lemma preserves_bind {A B} (m : ST S A) (k : A -> ST S B) :
  preserves R m -> (forall a, preserves R (k a)) -> preserves R (bind m k).
Proof.
  intros Hm Hk s r s' H. rewrite bind_eq in H.
  destruct (m s) as [[a|e] s1] eqn:E.
  - eapply R_trans; [eapply Hm, E | eapply Hk, H].
  - inversion H; subst. eapply Hm, E.
Qed.

Lemma preserves_try {A} (m : ST S A) (h : exn -> ST S A) :
  preserves R m -> (forall e, preserves R (h e)) -> preserves R (try_except m h).
Proof.
  intros Hm Hh s r s' H. unfold try_except in H.
  destruct (m s) as [[a|e] s1] eqn:E.
  - inversion H; subst. eapply Hm, E.
  - eapply R_trans; [eapply Hm, E | eapply Hh, H].
Qed.

Lemma preserves_for_each {A} (l : list A) (body : A -> ST S unit) :
  (forall x, preserves R (body x)) -> preserves R (for_each l body).
Proof.
  intros Hb. induction l as [|x l IH]; cbn [for_each].
  - apply preserves_ret.
  - apply preserves_bind; [apply Hb | intros _; apply IH].
Qed.

End Preserves.

Lemma preserves_and {S A} (R1 R2 : S -> S -> Prop) (m : ST S A) :
  preserves R1 m -> preserves R2 m -> preserves (fun s s' => R1 s s' /\ R2 s s') m.
Proof. intros H1 H2 s r s' H. split; [eapply H1, H | eapply H2, H]. Qed.

Lemma preserves_weaken {S A} (R1 R2 : S -> S -> Prop) (m : ST S A) :
  (forall s s', R1 s s' -> R2 s s') -> preserves R1 m -> preserves R2 m.
Proof. intros Hw H1 s r s' H. eapply Hw, H1, H. Qed.

Lemma grows_same_trace Q w w' :
  trace w' = trace w -> clock w' = clock w -> disk_full w' = disk_full w ->
  grows Q w w'.
Proof.
  intros H H1 H2. exists []. rewrite app_nil_r. repeat split; auto.
Qed.

Lemma grows_refl Q w : grows Q w w.
Proof. now apply grows_same_trace. Qed.

Lemma grows_trans Q a b c : grows Q a b -> grows Q b c -> grows Q a c.
Proof.
  intros (e1 & H1 & F1 & C1) (e2 & H2 & F2 & C2). exists (e1 ++ e2).
  rewrite H2, H1, <- app_assoc. split; [reflexivity|].
  split; [now apply Forall_app|].
  intros Hs. apply Forall_app in Hs as [Hs1 Hs2].
  destruct (C1 Hs1) as [E1 E2]. destruct (C2 Hs2) as [E3 E4]. split; congruence.
Qed.

Lemma grows_weaken (Q Q' : event -> Prop) w w' :
  (forall e, Q e -> Q' e) -> grows Q w w' -> grows Q' w w'.
Proof.
  intros HQ (evs & H & F & C). exists evs. split; [assumption|].
  split; [eapply Forall_impl; eassumption | assumption].
Qed.

Lemma grows_silent_clock w w' :
  grows silent w w' -> clock w' = clock w /\ disk_full w' = disk_full w.
Proof. intros (evs & _ & F & C). now apply C. Qed.

Lemma same_objects_refl s : same_objects s s.
Proof. now repeat split. Qed.

Lemma same_objects_trans a b c : same_objects a b -> same_objects b c -> same_objects a c.
Proof. unfold same_objects. intros (?&?&?) (?&?&?). repeat split; congruence. Qed.

Lemma same_setup_refl s : same_setup s s.
Proof. now repeat split. Qed.

Lemma same_setup_trans a b c : same_setup a b -> same_setup b c -> same_setup a c.
Proof. unfold same_setup. intros (?&?&?) (?&?&?). repeat split; congruence. Qed.

Lemma same_env_refl w : same_env w w.
Proof. now split. Qed.

Lemma same_env_trans a b c : same_env a b -> same_env b c -> same_env a c.
Proof. unfold same_env. intros (?&?) (?&?). split; congruence. Qed.

(** Lifting from the machine to the runner state. *)
Lemma preserves_liftW {A} (RW : World -> World -> Prop) (RS : Runner.State -> Runner.State -> Prop)
      (m : ST World A) :
  (forall s w', RW (Runner.world s) w' ->
                RS s (Runner.mkState (Runner.self s) (Runner.heap s) (Runner.next_loc s) w')) ->
  preserves RW m -> preserves RS (Runner.liftW m).
Proof.
  intros Hl Hm s r s' H. unfold Runner.liftW in H.
  destruct (m (Runner.world s)) as [r0 w'] eqn:E. inversion H; subst.
  apply Hl. eapply Hm, E.
Qed.

Lemma liftW_on_world {A} (RW : World -> World -> Prop) (m : ST World A) :
  preserves RW m -> preserves (on_world RW) (Runner.liftW m).
Proof. apply preserves_liftW. intros s w' H. exact H. Qed.

Lemma liftW_same_objects {A} (m : ST World A) :
  preserves same_objects (Runner.liftW m).
Proof.
  intros s r s' H. unfold Runner.liftW in H.
  destruct (m (Runner.world s)) as [r0 w']. inversion H; subst. now repeat split.
Qed.

(** Proves that a computation built from the primitives preserves a
    relation, by following its structure. *)
Ltac preserves_step Hrefl Htrans :=
  lazymatch goal with
  | |- preserves _ (ret _) => apply (preserves_ret _ Hrefl)
  | |- preserves _ (raise _) => apply (preserves_raise _ Hrefl)
  | |- preserves _ get => apply (preserves_get _ Hrefl)
  | |- preserves _ (gets _) => apply (preserves_gets _ Hrefl)
  | |- preserves _ (bind _ _) => apply (preserves_bind _ Htrans); [| intros ?]
  | |- preserves _ (try_except _ _) => apply (preserves_try _ Htrans); [| intros ?]
  | |- preserves _ (for_each _ _) => apply (preserves_for_each _ Hrefl Htrans); intros ?
  | |- preserves _ (match ?x with _ => _ end) => destruct x
  | |- preserves _ (let _ := _ in _) => cbv zeta
  end.

Lemma steps_refl Q w : steps Q w w.
Proof. split; [apply grows_refl | apply same_env_refl]. Qed.

Lemma steps_trans Q a b c : steps Q a b -> steps Q b c -> steps Q a c.
Proof.
  intros [H1 H2] [H3 H4]. split;
    [eapply grows_trans | eapply same_env_trans]; eassumption.
Qed.

Lemma steps_weaken (Q Q' : event -> Prop) w w' :
  (forall e, Q e -> Q' e) -> steps Q w w' -> steps Q' w w'.
Proof. intros HQ [H1 H2]. split; [eapply grows_weaken; eassumption | assumption]. Qed.

Lemma steps_quiet Q w w' :
  trace w' = trace w -> cwd w' = cwd w -> machine w' = machine w ->
  clock w' = clock w -> disk_full w' = disk_full w -> steps Q w w'.
Proof. intros H1 H2 H3 H4 H5. split; [now apply grows_same_trace | now split]. Qed.

Lemma steps_emitted Q (e : event) w :
  Q e -> steps Q w (emit_w e w).
Proof.
  intros He. split; [| now split].
  exists [e]. split; [reflexivity|]. split; [now constructor | now split].
Qed.

Lemma runs_refl Q s : runs Q s s.
Proof. split; [apply steps_refl | reflexivity]. Qed.

Lemma runs_trans Q a b c : runs Q a b -> runs Q b c -> runs Q a c.
Proof.
  intros [H1 H2] [H3 H4]. split; [eapply steps_trans; eassumption | congruence].
Qed.

Lemma runs_weaken (Q Q' : event -> Prop) s s' :
  (forall e, Q e -> Q' e) -> runs Q s s' -> runs Q' s s'.
Proof. intros HQ [H1 H2]. split; [eapply steps_weaken; eassumption | assumption]. Qed.

Ltac steps_auto Q :=
  repeat preserves_step (steps_refl Q) (steps_trans Q).

Ltac runs_auto Q :=
  repeat preserves_step (runs_refl Q) (runs_trans Q).

Section MachineSteps.
Context (Q : event -> Prop).

Lemma emit_steps (e : event) : Q e -> preserves (steps Q) (emit e).
Proof.
  intros He w r w' H. inversion H; subst. now apply steps_emitted.
Qed.

Lemma print_steps (msg : string) : Q (EvPrint msg) -> preserves (steps Q) (print msg).
Proof. apply emit_steps. Qed.

Lemma now_steps : preserves (steps Q) now.
Proof. apply (preserves_gets _ (steps_refl Q)). Qed.

Lemma put_file_steps p c : preserves (steps Q) (put_file p c).
Proof.
  intros w r w' H. unfold put_file in H.
  repeat match type of H with
         | (if ?b then _ else _) = _ => destruct b
         end; inversion H; subst; now apply steps_quiet.
Qed.

Lemma mkdir_resolved_steps p r0 : preserves (steps Q) (mkdir_resolved p r0).
Proof.
  intros w r w' H. unfold mkdir_resolved in H.
  repeat match type of H with
         | (if ?b then _ else _) = _ => destruct b
         | match ?x with _ => _ end = _ => destruct x
         end; inversion H; subst; now apply steps_quiet.
Qed.

Lemma read_text_steps p : preserves (steps Q) (read_text p).
Proof.
  intros w r w' H. unfold read_text in H.
  repeat match type of H with
         | match ?x with _ => _ end = _ => destruct x
         end; inversion H; subst; now apply steps_quiet.
Qed.

Lemma json_load_file_steps p : preserves (steps Q) (json_load_file p).
Proof.
  intros w r w' H. unfold json_load_file in H.
  repeat match type of H with
         | match ?x with _ => _ end = _ => destruct x
         end; inversion H; subst; now apply steps_quiet.
Qed.

Lemma write_file_steps p c : Q (EvWrite p) -> preserves (steps Q) (write_file p c).
Proof.
  intros HQ. unfold write_file. steps_auto Q.
  - now apply emit_steps.
  - apply put_file_steps.
Qed.

Lemma json_dump_file_steps p v : Q (EvWrite p) -> preserves (steps Q) (json_dump_file p v).
Proof.
  intros HQ. unfold json_dump_file. steps_auto Q; now apply write_file_steps.
Qed.

Lemma mkdir_steps p : Q (EvMkdir p) -> preserves (steps Q) (mkdir p).
Proof.
  intros HQ. unfold mkdir. steps_auto Q.
  - now apply emit_steps.
  - apply mkdir_resolved_steps.
Qed.

Lemma makedirs_steps p : Q (EvMkdir p) -> preserves (steps Q) (makedirs p).
Proof.
  intros HQ. unfold makedirs. steps_auto Q.
  - now apply emit_steps.
  - apply mkdir_resolved_steps.
Qed.

Lemma copy2_steps src dst : Q (EvCopy2 src dst) -> preserves (steps Q) (copy2 src dst).
Proof.
  intros HQ. unfold copy2. steps_auto Q.
  - now apply emit_steps.
  - apply put_file_steps.
Qed.

Lemma copytree_steps src dst :
  Q (EvCopytree src dst) -> preserves (steps Q) (copytree src dst).
Proof.
  intros HQ. unfold copytree. steps_auto Q.
  - now apply emit_steps.
  - apply mkdir_resolved_steps.
  - apply preserves_modify. intros w. now apply steps_quiet.
Qed.

Lemma spawn_steps cmd dir stdin :
  Q (EvSpawn cmd dir stdin) -> (forall rc, Q (EvExit rc)) ->
  preserves (steps Q) (spawn cmd dir stdin).
Proof.
  intros HQ1 HQ2 w r w' H. unfold spawn in H.
  rewrite bind_eq in H. unfold emit, modify in H. cbv iota beta in H.
  rewrite bind_eq in H. unfold get in H. cbv iota beta in H.
  assert (forall w1, trace w1 = trace w ++ [EvSpawn cmd dir stdin] ->
                     cwd w1 = cwd w -> machine w1 = machine w -> steps Q w w1) as Hraise.
  { intros w1 Ht Hc Hm. split; [| now split].
    exists [EvSpawn cmd dir stdin].
    split; [assumption|]. split; [now constructor|].
    intros Hs. inversion Hs as [|? ? Hx]. contradiction. }
  destruct (negb (is_dir _ dir)).
  { inversion H; subst. now apply Hraise. }
  destruct (machine _ cmd _ stdin _ _) as [p|].
  2:{ inversion H; subst. now apply Hraise. }
  inversion H; subst. split; [| now split].
  exists [EvSpawn cmd dir stdin; EvExit (rc p)].
  split; [cbn; now rewrite <- app_assoc|]. split; [repeat constructor; auto|].
  intros Hs. inversion Hs as [|? ? Hx]. contradiction.
Qed.

End MachineSteps.

(** ** Directives of the input file *)

Lemma scan_directive_first (key : string) (pre : list string) (line : string)
      (post : list string) :
  Forall (fun l => Reading.is_directive key l = false) pre ->
  Reading.is_directive key line = true ->
  Runner.scan_directive key (pre ++ line :: post) = Some (Reading.directive_value line).
Proof.
  unfold Reading.is_directive. intros Hpre Hline.
  induction Hpre as [|l pre Hl _ IH]; cbn [app Runner.scan_directive].
  - now rewrite Hline.
  - now rewrite Hl.
Qed.

Lemma scan_directive_none (key : string) (lines : list string) :
  Forall (fun l => Reading.is_directive key l = false) lines ->
  Runner.scan_directive key lines = None.
Proof.
  unfold Reading.is_directive.
  induction 1 as [|l lines Hl _ IH]; cbn [Runner.scan_directive]; [reflexivity|].
  now rewrite Hl.
Qed.

Lemma contains_app_r (sub a b : string) :
  contains sub b = true -> contains sub (a +:+ b) = true.
Proof.
  intros H. induction a as [|c a IH]; [exact H|].
  rewrite app_cons. cbn [contains]. rewrite IH. apply orb_true_r.
Qed.

Lemma startswith_app (p s : string) : startswith p (p +:+ s) = true.
Proof.
  induction p as [|c p IH]; [reflexivity|].
  rewrite app_cons. cbn [startswith]. now rewrite Ascii.eqb_refl, IH.
Qed.

Lemma contains_startswith (sub x : string) :
  startswith sub x = true -> contains sub x = true.
Proof. intros H. destruct x; cbn [contains]; now rewrite H. Qed.

Lemma contains_self_app (sub s : string) : contains sub (sub +:+ s) = true.
Proof. apply contains_startswith, startswith_app. Qed.

Lemma lstrip_space (s : string) : lstrip (String " " s) = lstrip s.
Proof. reflexivity. Qed.

(** A line written [key = value] sets [key] to [value]. *)
Lemma written_directive (key line value : string) :
  contains "=" key = false ->
  strip line = key +:+ " = " +:+ value ->
  Reading.plain_value value = true ->
  Reading.is_directive key line = true /\ Reading.directive_value line = value.
Proof.
  unfold Reading.plain_value, Reading.is_directive, Reading.directive_value.
  intros Hkey Hline Hv.
  apply andb_prop in Hv as [Hv Hne]. apply andb_prop in Hv as [Ht Hs].
  apply String.eqb_eq in Hs. apply negb_true_iff in Hne.
  rewrite Hline. split.
  - rewrite startswith_app.
    change (" = " +:+ value) with (String " " ("=" +:+ " " +:+ value)).
    rewrite contains_app_r; [reflexivity|].
    cbn [contains]. rewrite contains_self_app. apply orb_true_r.
  - assert (contains "=" (key +:+ " ") = false) as Hk.
    { clear -Hkey. induction key as [|c key IH]; [reflexivity|].
      rewrite app_cons.
      change (contains "=" (String c key)) with
        (startswith "=" (String c key) || contains "=" key) in Hkey.
      change (contains "=" (String c (key +:+ " "))) with
        (startswith "=" (String c (key +:+ " ")) || contains "=" (key +:+ " ")).
      apply orb_false_elim in Hkey as [H1 H2]. rewrite (IH H2), orb_false_r.
      cbn [startswith] in *. exact H1. }
    replace (key +:+ " = " +:+ value)
      with ((key +:+ " ") +:+ String "=" (String " " value)).
    2:{ clear. induction key as [|c key IH]; [reflexivity|].
        rewrite !app_cons. now rewrite IH. }
    rewrite (split_on_app_sep "=" _ _ Hk).
    rewrite split_on_no_sep.
    2:{ rewrite contains_char_cons. now rewrite Hne. }
    cbn [nth]. unfold strip. now rewrite lstrip_space.
Qed.

(** ** Running the runner's operations *)

Lemma bind_ok {S A B} (m : ST S A) (k : A -> ST S B) (s s1 : S) (a : A) :
  m s = (Ok a, s1) -> bind m k s = k a s1.
Proof. intros H. now rewrite bind_eq, H. Qed.

Lemma bind_raised {S A B} (m : ST S A) (k : A -> ST S B) (s s1 : S) (e : exn) :
  m s = (Raise e, s1) -> bind m k s = (Raise e, s1).
Proof. intros H. now rewrite bind_eq, H. Qed.

Lemma try_ok {S A} (m : ST S A) (h : exn -> ST S A) (s s1 : S) (a : A) :
  m s = (Ok a, s1) -> try_except m h s = (Ok a, s1).
Proof. intros H. unfold try_except. now rewrite H. Qed.

Lemma try_raised {S A} (m : ST S A) (h : exn -> ST S A) (s s1 : S) (e : exn) :
  m s = (Raise e, s1) -> try_except m h s = h e s1.
Proof. intros H. unfold try_except. now rewrite H. Qed.

Lemma load_eq (l : Runner.loc) (s : Runner.State) :
  Runner.load l s = (Ok (Runner.deref s l), s).
Proof. reflexivity. Qed.

Lemma update_eq (l : Runner.loc) f (s : Runner.State) :
  Runner.update l f s = (Ok tt, upd l f s).
Proof. reflexivity. Qed.

Lemma liftW_eq {A} (m : ST World A) (s : Runner.State) :
  Runner.liftW m s = (fst (m (Runner.world s)), set_world (snd (m (Runner.world s))) s).
Proof. unfold Runner.liftW. now destruct (m (Runner.world s)). Qed.

Lemma liftW_ok {A} (m : ST World A) (s : Runner.State) (a : A) (w' : World) :
  m (Runner.world s) = (Ok a, w') -> Runner.liftW m s = (Ok a, set_world w' s).
Proof. intros H. now rewrite liftW_eq, H. Qed.

Lemma liftW_raised {A} (m : ST World A) (s : Runner.State) (e : exn) (w' : World) :
  m (Runner.world s) = (Raise e, w') -> Runner.liftW m s = (Raise e, set_world w' s).
Proof. intros H. now rewrite liftW_eq, H. Qed.

Lemma print_eq (msg : string) (w : World) :
  print msg w = (Ok tt, emit_w (EvPrint msg) w).
Proof. reflexivity. Qed.

Lemma deref_lookup (s : Runner.State) (l : Runner.loc) (c : Runner.QuanticsCalculation) :
  Runner.heap s !! l = Some c -> Runner.deref s l = c.
Proof. unfold Runner.deref. now intros ->. Qed.

Lemma deref_upd_eq l f s : Runner.deref (upd l f s) l = f (Runner.deref s l).
Proof. unfold Runner.deref at 1, upd. cbn [Runner.heap]. now rewrite lookup_insert_eq. Qed.

Lemma deref_upd_ne l l' f s : l <> l' -> Runner.deref (upd l f s) l' = Runner.deref s l'.
Proof.
  intros H. unfold Runner.deref, upd. cbn [Runner.heap]. now rewrite lookup_insert_ne.
Qed.

Lemma deref_set_world w s l : Runner.deref (set_world w s) l = Runner.deref s l.
Proof. reflexivity. Qed.


Lemma get_opname_text (p : Path) (w : World) (text : string) :
  read_content w p = Some (Text text) ->
  Runner._get_opname_from_inp p w
  = (Ok (Runner.scan_directive "opname" (file_lines text)), w).
Proof.
  intros H. unfold Runner._get_opname_from_inp, try_except.
  rewrite bind_eq. unfold read_text. now rewrite H.
Qed.

(** Whatever the file, reading a directive returns. *)
Lemma get_output_name_returns (p : Path) (w : World) :
  exists o w', Runner._get_output_name_from_inp p w = (Ok o, w') /\ steps silent w w' /\
               fs w' = fs w /\ disk_full w' = disk_full w /\ clock w' = clock w.
Proof.
  unfold Runner._get_output_name_from_inp, try_except. rewrite bind_eq.
  unfold read_text.
  destruct (read_content w p) as [[text| |]|]; cbv beta iota;
    rewrite ?bind_eq, ?print_eq; cbv beta iota;
    (eexists _, _; split; [reflexivity|]);
    (split; [| now repeat split]);
    first [apply steps_refl | now apply steps_emitted].
Qed.

(** ** Output discovery *)

Lemma check_output_files_eq (s : Runner.State) (calc : Runner.loc) (wd : Path)
      (parsed : option string) (w1 : World) :
  Runner.working_directory (Runner.deref s calc) = Some wd ->
  Runner._get_output_name_from_inp (wd // "input.inp") (Runner.world s) = (Ok parsed, w1) ->
  let s1 := set_world w1 s in
  let output_name := Reading.name_or (Runner.name (Runner.deref s calc)) parsed in
  let output_dir := wd // output_name in
  Runner._check_output_files calc s
  = (Ok tt,
     if path_exists w1 output_dir then Rel.discovered calc output_dir output_name s1
     else set_world (emit_w (EvPrint ("Warning: Output directory not found "
                                        +:+ str output_dir)) w1) s1).
Proof.
  intros Hwd Hget s1 output_name output_dir.
  unfold Runner._check_output_files.
  rewrite (bind_ok _ _ _ _ _ (load_eq calc s)). rewrite Hwd.
  rewrite bind_eq. cbn [Runner.need_path]. unfold ret at 1. cbv iota beta.
  rewrite (bind_ok _ _ _ _ _ (liftW_ok _ _ _ _ Hget)).
  fold s1. rewrite bind_eq. unfold gets at 1. cbv iota beta.
  change (Runner.world s1) with w1.
  change (match parsed with
          | Some n => if truthy n then n else Runner.name (Runner.deref s calc)
          | None => Runner.name (Runner.deref s calc)
          end) with output_name.
  fold output_dir.
  destruct (path_exists w1 output_dir).
  - rewrite (bind_ok _ _ _ _ _ (update_eq _ _ _)).
    rewrite (bind_ok _ _ _ _ _ (update_eq _ _ _)).
    rewrite (bind_ok _ _ _ _ _ (update_eq _ _ _)).
    rewrite liftW_eq. reflexivity.
  - rewrite liftW_eq. reflexivity.
Qed.




(** ** Preparation *)

Lemma bind_inv_ok {S A B} (m : ST S A) (k : A -> ST S B) (s s' : S) (b : B) :
  bind m k s = (Ok b, s') ->
  exists a s1, m s = (Ok a, s1) /\ k a s1 = (Ok b, s').
Proof.
  rewrite bind_eq. destruct (m s) as [[a|e] s1]; [|discriminate].
  intros H. now exists a, s1.
Qed.

Lemma liftW_inv_ok {A} (m : ST World A) (s s1 : Runner.State) (a : A) :
  Runner.liftW m s = (Ok a, s1) ->
  exists w1, m (Runner.world s) = (Ok a, w1) /\ s1 = set_world w1 s.
Proof.
  rewrite liftW_eq. destruct (m (Runner.world s)) as [r w1]. cbn [fst snd].
  intros H. inversion H; subst. now exists w1.
Qed.

Lemma read_content_emit (e : event) (w : World) (p : Path) :
  read_content (emit_w e w) p = read_content w p.
Proof. reflexivity. Qed.

(** A copy that succeeds leaves its source as it was. *)
Lemma copy2_ok (src dst : Path) (w w1 : World) :
  copy2 src dst w = (Ok tt, w1) ->
  trace w1 = trace w ++ [EvCopy2 src dst] /\
  cwd w1 = cwd w /\ machine w1 = machine w /\
  disk_full w1 = disk_full w /\ clock w1 = clock w /\
  read_content w1 src = read_content w src.
Proof.
  unfold copy2. rewrite bind_eq. unfold emit, modify. cbv iota beta.
  rewrite bind_eq. unfold get. cbv iota beta.
  rewrite read_content_emit.
  destruct (read_content w src) as [c|] eqn:Hsrc; [|discriminate].
  set (w0 := emit_w (EvCopy2 src dst) w).
  set (target := if is_dir w0 dst then dst // name (resolve (cwd w0) src) else dst).
  destruct (String.eqb (key w0 target) (key w0 src)) eqn:Hk; [discriminate|].
  intros H. apply put_file_ok in H. subst w1.
  repeat split.
  unfold read_content, lookup_node, with_fs, key. cbn [fs cwd].
  apply String.eqb_neq in Hk. unfold key in Hk.
  rewrite lookup_insert_ne by exact Hk.
  unfold read_content, lookup_node, key in Hsrc. subst w0. cbn [fs cwd emit_w] in *.
  now rewrite Hsrc.
Qed.

Lemma copy2_ok_steps (src dst : Path) (w w1 : World) :
  copy2 src dst w = (Ok tt, w1) -> steps silent w w1.
Proof. intros H. eapply (copy2_steps silent); [exact I | exact H]. Qed.

(** The handler of [prepare_calculation] returns [False]. *)
Lemma prepare_handler_false (e : exn) (s : Runner.State) :
  (Runner.liftW (print ("Failed to prepare calculation: " +:+ message e)) ;;; ret false) s
  = (Ok false,
     set_world (emit_w (EvPrint ("Failed to prepare calculation: " +:+ message e))
                       (Runner.world s)) s).
Proof. reflexivity. Qed.

(** What a successful preparation did. *)
Lemma prepare_success (s s' : Runner.State) (calc : Runner.loc)
      (inp wd op : Path) :
  Runner.inp_file (Runner.deref s calc) = Some inp ->
  Runner.working_directory (Runner.deref s calc) = Some wd ->
  Runner.op_file (Runner.deref s calc) = Some op ->
  Runner.prepare_calculation calc s = (Ok true, s') ->
  exists w1 opname w1' w2,
    copy2 inp (wd // "input.inp") (Runner.world s) = (Ok tt, w1) /\
    Runner._get_opname_from_inp inp w1 = (Ok opname, w1') /\
    copy2 op (wd // Runner.op_filename_of opname) w1' = (Ok tt, w2) /\
    (forall db, Runner.db_folder (Runner.deref s calc) = Some db ->
                Runner.workflow_type (Runner.deref s calc) = "DD-vMCG" ->
                exists w3, copytree db (wd // "db_data") w2 = (Ok tt, w3)) /\
    steps silent w2 (Runner.world s') /\
    same_objects s s'.
Proof.
  intros Hinp Hwd Hop H. unfold Runner.prepare_calculation, try_except in H.
  match type of H with
  | match ?b s with _ => _ end = _ => destruct (b s) as [[a|e] s0] eqn:Hb
  end.
  2:{ rewrite prepare_handler_false in H. discriminate. }
  inversion H; subst a s0. clear H.
  rewrite (bind_ok _ _ _ _ _ (load_eq calc s)) in Hb.
  rewrite Hinp, Hwd, Hop in Hb. cbn [Runner.need_path] in Hb.
  rewrite bind_eq in Hb. unfold ret at 1 in Hb. cbv iota beta in Hb.
  rewrite bind_eq in Hb. unfold ret at 1 in Hb. cbv iota beta in Hb.
  apply bind_inv_ok in Hb as ([] & s1 & Hc1 & Hb).
  apply liftW_inv_ok in Hc1 as (w1 & Hc1 & ->).
  apply bind_inv_ok in Hb as (opname & s2 & Hg & Hb).
  apply liftW_inv_ok in Hg as (w1' & Hg & ->).
  cbv zeta in Hb.
  rewrite bind_eq in Hb. unfold ret at 1 in Hb. cbv iota beta in Hb.
  apply bind_inv_ok in Hb as ([] & s3 & Hc2 & Hb).
  apply liftW_inv_ok in Hc2 as (w2 & Hc2 & ->).
  apply bind_inv_ok in Hb as ([] & s4 & Hdb & Hb).
  apply bind_inv_ok in Hb as ([] & s5 & Hp1 & Hb).
  apply bind_inv_ok in Hb as ([] & s6 & Hp2 & Hb).
  inversion Hb; subst s6. clear Hb.
  apply liftW_inv_ok in Hp1 as (w4 & Hp1 & ->).
  apply liftW_inv_ok in Hp2 as (w5 & Hp2 & ->).
  inversion Hp1; subst w4. inversion Hp2; subst w5. clear Hp1 Hp2.
  assert (exists w3, s4 = set_world w3 s /\ steps silent w2 w3) as (w3 & -> & Hs4).
  { destruct (Runner.db_folder (Runner.deref s calc)) as [db|].
    - destruct (String.eqb _ "DD-vMCG").
      + apply liftW_inv_ok in Hdb as (w3 & Hdb & ->). exists w3. split; [reflexivity|].
        eapply (copytree_steps silent); [exact I | exact Hdb].
      + inversion Hdb; subst. exists w2. split; [reflexivity | apply steps_refl].
    - inversion Hdb; subst. exists w2. split; [reflexivity | apply steps_refl]. }
  exists w1, opname, w1', w2.
  split; [exact Hc1|]. split; [exact Hg|]. split; [exact Hc2|].
  split; [| split].
  - intros db Hdbf Hwf. rewrite Hdbf, Hwf in Hdb.
    change (String.eqb "DD-vMCG" "DD-vMCG") with true in Hdb. cbv iota in Hdb.
    apply liftW_inv_ok in Hdb as (w3' & Hdb & _). now exists w3'.
  - eapply steps_trans; [exact Hs4|].
    split; [| now split].
    eexists [_; _]. split.
    + cbn [Runner.world set_world emit_w trace]. now rewrite <- app_assoc.
    + repeat constructor.
  - now repeat split.
Qed.

(** C3 (as amended).  When [prepare_calculation] succeeds on an input
    file with text [text], it has copied the input file to [input.inp]
    and then the operator file to the working directory joined with the
    operator file name.  That name comes from the first line that,
    stripped, starts with [opname] and holds an equals sign: the stripped
    text between its first and second equals sign, followed by [.op] (a
    line written [opname = foo] gives [foo.op]); it is [operator.op] when
    no line is of that kind or when the text that line gives is empty. *)
Theorem prepare_operator_name (s s' : Runner.State) (calc : Runner.loc)
        (c : Runner.QuanticsCalculation) (inp wd op : Path) (text : string) :
  Runner.heap s !! calc = Some c ->
  Runner.inp_file c = Some inp ->
  Runner.working_directory c = Some wd ->
  Runner.op_file c = Some op ->
  read_content (Runner.world s) inp = Some (Text text) ->
  Runner.prepare_calculation calc s = (Ok true, s') ->
  let lines := file_lines text in
  let op_filename := Runner.op_filename_of (Runner.scan_directive "opname" lines) in
  (exists rest,
     trace (Runner.world s')
     = trace (Runner.world s)
       ++ EvCopy2 inp (wd // "input.inp") :: EvCopy2 op (wd // op_filename) :: rest /\
     Forall silent rest) /\
  (forall pre line post,
     lines = pre ++ line :: post ->
     Forall (fun l => Reading.is_directive "opname" l = false) pre ->
     Reading.is_directive "opname" line = true ->
     op_filename = Runner.op_filename_of (Some (Reading.directive_value line))) /\
  (Forall (fun l => Reading.is_directive "opname" l = false) lines ->
   op_filename = "operator.op") /\
  (forall line foo,
     strip line = "opname = " +:+ foo -> Reading.plain_value foo = true ->
     Reading.is_directive "opname" line = true /\ Reading.directive_value line = foo /\
     Runner.op_filename_of (Some foo) = foo +:+ ".op") /\
  Runner.op_filename_of (Some "") = "operator.op".
Proof.
  intros Hc Hinp Hwd Hop Htext Hprep lines op_filename.
  pose proof (deref_lookup s calc c Hc) as Hd.
  split; [| split; [| split; [| split]]].
  - destruct (prepare_success s s' calc inp wd op) as
        (w1 & opname & w1' & w2 & Hc1 & Hg & Hc2 & _ & [(rest & Hrest & Hsil & _) _] & _);
      try (rewrite Hd; assumption); [assumption|].
    apply copy2_ok in Hc1 as (Ht1 & _ & _ & _ & _ & Hr1).
    rewrite Htext in Hr1.
    rewrite (get_opname_text inp w1 text Hr1) in Hg. inversion Hg; subst opname w1'.
    apply copy2_ok in Hc2 as (Ht2 & _).
    exists rest. split; [| exact Hsil].
    rewrite Hrest, Ht2, Ht1, <- !app_assoc. reflexivity.
  - intros pre line post Hl Hpre Hline. subst op_filename.
    now rewrite Hl, (scan_directive_first "opname" pre line post Hpre Hline).
  - intros Hall. subst op_filename.
    now rewrite (scan_directive_none "opname" lines Hall).
  - intros line foo Hline Hfoo.
    destruct (written_directive "opname" line foo eq_refl Hline Hfoo) as [H1 H2].
    repeat split; [assumption | assumption |].
    unfold Reading.plain_value in Hfoo.
    apply andb_prop in Hfoo as [Hfoo _]. apply andb_prop in Hfoo as [Hfoo _].
    unfold Runner.op_filename_of. now rewrite Hfoo.
  - reflexivity.
Qed.

Lemma prepare_operator_name_witness :
  let s := Demo.created_state Demo.quantics_installed Demo.ho_inp in
  exists rest,
    trace (Runner.world (snd (Runner.prepare_calculation 0%nat s)))
    = trace (Runner.world s)
      ++ EvCopy2 (Path_of_str "/data/ho.inp") (Demo.ho_wd // "input.inp")
      :: EvCopy2 (Path_of_str "/data/ho.op") (Demo.ho_wd // "ho.op") :: rest /\
    Forall silent rest.
Proof.
  intros s.
  assert (Runner.heap s !! 0%nat = Some (Runner.deref s 0%nat)) as H1
      by (vm_compute; reflexivity).
  assert (read_content (Runner.world s) (Path_of_str "/data/ho.inp")
          = Some (Text Demo.ho_inp)) as H5 by (vm_compute; reflexivity).
  assert (Runner.prepare_calculation 0%nat s
          = (Ok true, snd (Runner.prepare_calculation 0%nat s))) as H6
      by (vm_compute; reflexivity).
  exact (proj1 (prepare_operator_name s _ 0%nat (Runner.deref s 0%nat)
                  (Path_of_str "/data/ho.inp") Demo.ho_wd (Path_of_str "/data/ho.op")
                  Demo.ho_inp H1 eq_refl eq_refl eq_refl H5 H6)).
Defined.

(** C3, the claim as stated fails.  An input file with no line
    [opname = ...], only a line [opnames = x]: the operator file is copied
    as [x.op], not as [operator.op].  An input file with the lines
    [opname =] and [opname = ho]: the operator file is copied as
    [operator.op], not as [ho.op]. *)
Lemma operator_name_not_as_claimed :
  (let s := Demo.created_state Demo.quantics_installed Demo.opnames_inp in
   Forall (fun l => forall foo, strip l <> "opname = " +:+ foo)
          (file_lines Demo.opnames_inp) /\
   fst (Runner.prepare_calculation 0%nat s) = Ok true /\
   Demo.copies (trace (Runner.world (snd (Runner.prepare_calculation 0%nat s))))
   = [("/data/ho.inp", "/home/u/.quantics_local/runs/ho_20240307_090500/input.inp");
      ("/data/ho.op", "/home/u/.quantics_local/runs/ho_20240307_090500/x.op")]) /\
  (let s := Demo.created_state Demo.quantics_installed Demo.empty_opname_inp in
   (exists l, In l (file_lines Demo.empty_opname_inp) /\ strip l = "opname = " +:+ "ho") /\
   fst (Runner.prepare_calculation 0%nat s) = Ok true /\
   Demo.copies (trace (Runner.world (snd (Runner.prepare_calculation 0%nat s))))
   = [("/data/ho.inp", "/home/u/.quantics_local/runs/ho_20240307_090500/input.inp");
      ("/data/ho.op", "/home/u/.quantics_local/runs/ho_20240307_090500/operator.op")]).
Proof.
  split; cbv zeta.
  - split; [| split; vm_compute; reflexivity].
    vm_compute. repeat constructor; intros foo H; discriminate.
  - split; [| split; vm_compute; reflexivity].
    exists ("opname = ho" +:+ String nl "").
    split; [| vm_compute; reflexivity].
    vm_compute. right. right. left. reflexivity.
Qed.

(** ** Failures of the environment *)

Lemma prepare_same_objects (calc : Runner.loc) :
  preserves same_objects (Runner.prepare_calculation calc).
Proof.
  unfold Runner.prepare_calculation.
  repeat first [ apply liftW_same_objects
               | preserves_step same_objects_refl same_objects_trans
               | match goal with |- preserves _ (Runner.load _) =>
                   apply (preserves_gets _ same_objects_refl) end
               | match goal with |- preserves _ (Runner.need_path ?o) => destruct o; cbn [Runner.need_path] end ].
Qed.

Lemma prepare_runs (calc : Runner.loc) :
  preserves (runs silent) (Runner.prepare_calculation calc).
Proof.
  unfold Runner.prepare_calculation.
  repeat first
    [ preserves_step (runs_refl silent) (runs_trans silent)
    | match goal with
      | |- preserves _ (Runner.load _) => apply (preserves_gets _ (runs_refl silent))
      | |- preserves _ (Runner.need_path ?o) => destruct o; cbn [Runner.need_path]
      | |- preserves (runs _) (Runner.liftW _) =>
          apply (preserves_liftW (steps silent)); [intros ? ? ?; now split |]
      | |- preserves (steps _) (copy2 _ _) => apply copy2_steps; exact I
      | |- preserves (steps _) (copytree _ _) => apply copytree_steps; exact I
      | |- preserves (steps _) (print _) => apply print_steps; exact I
      | |- preserves (steps _) (Runner._get_opname_from_inp _) =>
          unfold Runner._get_opname_from_inp;
          repeat first [ preserves_step (steps_refl silent) (steps_trans silent)
                       | apply read_text_steps
                       | apply print_steps; exact I ]
      end ].
Qed.

(** [prepare_calculation] catches what it raises. *)
Lemma prepare_returns (calc : Runner.loc) (s : Runner.State) :
  exists b s', Runner.prepare_calculation calc s = (Ok b, s').
Proof.
  unfold Runner.prepare_calculation, try_except.
  match goal with
  | |- exists _ _, match ?b s with _ => _ end = _ => destruct (b s) as [[a|e] s0]
  end.
  - now exists a, s0.
  - rewrite prepare_handler_false. eauto.
Qed.

Lemma need_path_some (p : Path) (s : Runner.State) :
  Runner.need_path (Some p) s = (Ok p, s).
Proof. reflexivity. Qed.

(** A preparation that succeeds found the three paths. *)
Lemma prepare_success_fields (s s' : Runner.State) (calc : Runner.loc) :
  Runner.prepare_calculation calc s = (Ok true, s') ->
  exists inp wd op,
    Runner.inp_file (Runner.deref s calc) = Some inp /\
    Runner.working_directory (Runner.deref s calc) = Some wd /\
    Runner.op_file (Runner.deref s calc) = Some op.
Proof.
  intros H. unfold Runner.prepare_calculation, try_except in H.
  match type of H with
  | match ?b s with _ => _ end = _ => destruct (b s) as [[a|e] s0] eqn:Hb
  end.
  2:{ rewrite prepare_handler_false in H. discriminate. }
  rewrite (bind_ok _ _ _ _ _ (load_eq calc s)) in Hb.
  destruct (Runner.inp_file (Runner.deref s calc)) as [inp|]; [|discriminate].
  destruct (Runner.working_directory (Runner.deref s calc)) as [wd|]; [|discriminate].
  rewrite (bind_ok _ _ _ _ _ (need_path_some _ _)) in Hb.
  rewrite (bind_ok _ _ _ _ _ (need_path_some _ _)) in Hb.
  apply bind_inv_ok in Hb as ([] & s1 & _ & Hb).
  apply bind_inv_ok in Hb as (opname & s2 & _ & Hb).
  cbv zeta in Hb.
  destruct (Runner.op_file (Runner.deref s calc)) as [op|]; [|discriminate].
  now exists inp, wd, op.
Qed.

(** A copy that fails makes the preparation return [False]. *)
Lemma prepare_copy_fails (s : Runner.State) (calc : Runner.loc) (inp wd : Path)
      (e : exn) (w1 : World) :
  Runner.inp_file (Runner.deref s calc) = Some inp ->
  Runner.working_directory (Runner.deref s calc) = Some wd ->
  copy2 inp (wd // "input.inp") (Runner.world s) = (Raise e, w1) ->
  fst (Runner.prepare_calculation calc s) = Ok false.
Proof.
  intros Hinp Hwd Hc. unfold Runner.prepare_calculation.
  erewrite try_raised; [rewrite prepare_handler_false; reflexivity|].
  rewrite (bind_ok _ _ _ _ _ (load_eq calc s)). rewrite Hinp, Hwd.
  rewrite (bind_ok _ _ _ _ _ (need_path_some _ _)).
  rewrite (bind_ok _ _ _ _ _ (need_path_some _ _)).
  apply bind_raised. apply liftW_raised. exact Hc.
Qed.

Lemma is_dir_emit (e : event) (w : World) (p : Path) :
  is_dir (emit_w e w) p = is_dir w p.
Proof. reflexivity. Qed.

(** Writing a file makes no directory. *)
Lemma put_file_no_new_dir (p : Path) (c : content) (w w' : World) (r : result unit)
      (q : Path) :
  put_file p c w = (r, w') -> is_dir w' q = true -> is_dir w q = true.
Proof.
  unfold put_file. intros H.
  repeat match type of H with
         | (if ?b then _ else _) = _ => destruct b
         end; inversion H; subst; try easy.
  unfold is_dir, lookup_node, key, with_fs. cbn [fs cwd].
  destruct (decide (str (resolve (cwd w) p) = str (resolve (cwd w) q))) as [Heq|Hne].
  - rewrite Heq, lookup_insert_eq. discriminate.
  - now rewrite lookup_insert_ne.
Qed.

Lemma copy2_no_new_dir (src dst : Path) (w w' : World) (r : result unit) (q : Path) :
  copy2 src dst w = (r, w') -> is_dir w' q = true -> is_dir w q = true.
Proof.
  unfold copy2. rewrite bind_eq. unfold emit, modify. cbv iota beta.
  rewrite bind_eq. unfold get. cbv iota beta.
  destruct (read_content _ src) as [c|]; [| intros H; inversion H; subst; easy].
  match goal with |- context [String.eqb ?a ?b] => destruct (String.eqb a b) end;
    [intros H; inversion H; subst; easy |].
  intros H Hd. apply (put_file_no_new_dir _ _ _ _ _ q H) in Hd.
  now rewrite is_dir_emit in Hd.
Qed.

Lemma get_opname_same_fs (p : Path) (w w' : World) (r : result (option string)) :
  Runner._get_opname_from_inp p w = (r, w') -> fs w' = fs w /\ cwd w' = cwd w.
Proof.
  unfold Runner._get_opname_from_inp, try_except. rewrite bind_eq. unfold read_text.
  destruct (read_content w p) as [[text| |]|]; cbv beta iota;
    rewrite ?bind_eq, ?print_eq; cbv beta iota;
    intros H; inversion H; subst; now split.
Qed.

Lemma copytree_needs_dir (src dst : Path) (w w' : World) :
  copytree src dst w = (Ok tt, w') -> is_dir w src = true.
Proof.
  unfold copytree. rewrite bind_eq. unfold emit, modify. cbv iota beta.
  rewrite bind_eq. unfold get. cbv iota beta. rewrite is_dir_emit.
  destruct (is_dir w src); [reflexivity | discriminate].
Qed.

(** A database folder that is not there makes the preparation return
    [False]. *)
Lemma prepare_db_missing (s : Runner.State) (calc : Runner.loc) (db : Path) :
  Runner.workflow_type (Runner.deref s calc) = "DD-vMCG" ->
  Runner.db_folder (Runner.deref s calc) = Some db ->
  is_dir (Runner.world s) db = false ->
  fst (Runner.prepare_calculation calc s) = Ok false.
Proof.
  intros Hwf Hdb Hnd.
  destruct (prepare_returns calc s) as (b & s' & H). rewrite H. cbn [fst].
  destruct b; [exfalso | reflexivity].
  destruct (prepare_success_fields s s' calc H) as (inp & wd & op & Hi & Hw & Ho).
  destruct (prepare_success s s' calc inp wd op Hi Hw Ho H) as
      (w1 & opname & w1' & w2 & Hc1 & Hg & Hc2 & Htree & _).
  destruct (Htree db Hdb Hwf) as (w3 & Hct).
  apply copytree_needs_dir in Hct.
  apply (copy2_no_new_dir _ _ _ _ _ db Hc2) in Hct.
  apply get_opname_same_fs in Hg as [Hfs Hcwd].
  assert (is_dir w1 db = true) as Hd1.
  { unfold is_dir, lookup_node, key in *. now rewrite <- Hfs, <- Hcwd. }
  apply (copy2_no_new_dir _ _ _ _ _ db Hc1) in Hd1. congruence.
Qed.

(** When the preparation fails, [run_calculation] returns [False] and no
    attribute of any calculation has changed. *)
Lemma run_not_prepared (s s1 : Runner.State) (calc : Runner.loc) (exe : string) :
  Runner.status (Runner.deref s calc) <> "running" ->
  Runner.prepare_calculation calc s = (Ok false, s1) ->
  Runner.run_calculation calc exe s = (Ok false, s1) /\
  Runner.heap s1 = Runner.heap s.
Proof.
  intros Hst Hp. split.
  - unfold Runner.run_calculation.
    rewrite (bind_ok _ _ _ _ _ (load_eq calc s)).
    apply String.eqb_neq in Hst. rewrite Hst.
    now rewrite (bind_ok _ _ _ _ _ Hp).
  - now destruct (prepare_same_objects calc s _ _ Hp).
Qed.

(** ** Persisting the registry *)

Lemma save_eq (s : Runner.State) :
  Runner._save_calculations s
  = Runner.liftW (json_dump_file (Runner.config_file (Runner.self s))
                                 (PDict (registry_data s))) s.
Proof. reflexivity. Qed.

Lemma save_same_objects : preserves same_objects Runner._save_calculations.
Proof. intros s r s' H. rewrite save_eq in H. eapply liftW_same_objects, H. Qed.

Lemma save_runs : preserves (runs silent) Runner._save_calculations.
Proof.
  intros s r s' H. rewrite save_eq in H. revert H.
  apply (preserves_liftW (steps silent)); [intros ? ? ?; now split |].
  apply json_dump_file_steps. exact I.
Qed.

Lemma put_file_spec (p : Path) (c : content) (w : World) :
  (put_ok w p = true ->
   put_file p c w = (Ok tt, with_fs (<[key w p := File c]> (fs w)) w)) /\
  (put_ok w p = false -> exists e, put_file p c w = (Raise e, w)).
Proof.
  unfold put_ok, put_file, key.
  destruct (is_dir w (parent (resolve (cwd w) p))); cbn [negb andb];
    [| split; [discriminate | eauto]].
  destruct (is_dir w (resolve (cwd w) p)); cbn [negb andb];
    [split; [discriminate | eauto] |].
  destruct (disk_full w); cbn [negb]; split; try discriminate; eauto.
Qed.

Lemma put_ok_emit (e : event) (w : World) (p : Path) :
  put_ok (emit_w e w) p = put_ok w p.
Proof. reflexivity. Qed.

Lemma save_succeeds (s : Runner.State) :
  save_ok s = true -> exists s', Runner._save_calculations s = (Ok tt, s').
Proof.
  unfold save_ok. intros H. apply andb_prop in H as [Hj Hp].
  rewrite save_eq, liftW_eq. unfold json_dump_file. rewrite Hj.
  unfold write_file. rewrite bind_eq. unfold emit, modify. cbv iota beta.
  rewrite <- (put_ok_emit (EvWrite (Runner.config_file (Runner.self s)))) in Hp.
  destruct (put_file_spec (Runner.config_file (Runner.self s))
              (Json (PDict (registry_data s)))
              (emit_w (EvWrite (Runner.config_file (Runner.self s))) (Runner.world s)))
    as [Hok _].
  rewrite (Hok Hp). eauto.
Qed.

Lemma save_fails (s : Runner.State) :
  save_ok s = false ->
  exists e s', Runner._save_calculations s = (Raise e, s').
Proof.
  unfold save_ok. intros H.
  rewrite save_eq, liftW_eq. unfold json_dump_file.
  destruct (jsonable (PDict (registry_data s))) eqn:Hj; cbn [andb] in H.
  - unfold write_file. rewrite bind_eq. unfold emit, modify. cbv iota beta.
    rewrite <- (put_ok_emit (EvWrite (Runner.config_file (Runner.self s)))) in H.
    destruct (put_file_spec (Runner.config_file (Runner.self s))
                (Json (PDict (registry_data s)))
                (emit_w (EvWrite (Runner.config_file (Runner.self s))) (Runner.world s)))
      as [_ Hno].
    destruct (Hno H) as (e & He). rewrite He. eauto.
  - rewrite bind_eq.
    destruct (write_file _ Partial (Runner.world s)) as [[[]|e] w']; cbn [fst snd]; eauto.
Qed.

Lemma save_ok_iff (s : Runner.State) (r : result unit) (s' : Runner.State) :
  Runner._save_calculations s = (r, s') ->
  (r = Ok tt <-> save_ok s = true).
Proof.
  intros H. destruct (save_ok s) eqn:E.
  - destruct (save_succeeds s E) as (s2 & H2). rewrite H2 in H. inversion H; subst.
    now split.
  - destruct (save_fails s E) as (e & s2 & H2). rewrite H2 in H. inversion H; subst.
    split; discriminate.
Qed.

(** A write that was refused is refused again as long as the file system
    and the free space are the same. *)
Lemma put_ok_same (w w' : World) (p : Path) :
  fs w' = fs w -> cwd w' = cwd w -> disk_full w' = disk_full w ->
  put_ok w' p = put_ok w p.
Proof.
  intros H1 H2 H3. unfold put_ok, is_dir, lookup_node, key. now rewrite H1, H2, H3.
Qed.

(** *** The data written depend on the [results] only for being JSON *)

Lemma dict_set_same_json (k : string) (v1 v2 : pyval) (d1 d2 : list (string * pyval)) :
  jsonable v1 = jsonable v2 -> Forall2 same_json d1 d2 ->
  Forall2 same_json (dict_set k v1 d1) (dict_set k v2 d2).
Proof.
  intros Hv. induction 1 as [|[k1 x1] [k2 x2] d1 d2 [Hk Hx] Hd IH]; cbn [dict_set].
  - constructor; [now split | constructor].
  - cbn [fst snd] in *. subst k2. destruct (String.eqb k k1).
    + constructor; [now split | exact Hd].
    + constructor; [now split | exact IH].
Qed.

Lemma forallb_same_json (d1 d2 : list (string * pyval)) :
  Forall2 same_json d1 d2 ->
  forallb (fun kv => jsonable (snd kv)) d1 = forallb (fun kv => jsonable (snd kv)) d2.
Proof.
  induction 1 as [|a b d1 d2 [_ Hx] _ IH]; [reflexivity|].
  cbn [forallb]. now rewrite Hx, IH.
Qed.

Lemma jsonable_to_dict (c : Runner.QuanticsCalculation) :
  jsonable (PDict (Runner.to_dict c))
  = forallb (fun kv => jsonable (snd kv)) (Runner.results c).
Proof.
  unfold Runner.to_dict. cbn [jsonable forallb snd].
  destruct (Runner.inp_file c), (Runner.op_file c), (Runner.db_folder c),
    (Runner.working_directory c), (Runner.start_time c), (Runner.end_time c);
    cbn [Runner.opt_val jsonable andb]; now rewrite ?andb_true_r.
Qed.

Lemma fold_same_json {A} (key : A -> string) (g1 g2 : A -> pyval) (l : list A) :
  (forall x, jsonable (g1 x) = jsonable (g2 x)) ->
  forall a1 a2, Forall2 same_json a1 a2 ->
    Forall2 same_json
      (fold_left (fun d x => dict_set (key x) (g1 x) d) l a1)
      (fold_left (fun d x => dict_set (key x) (g2 x) d) l a2).
Proof.
  intros Hg. induction l as [|x l IH]; intros a1 a2 Ha; [exact Ha|].
  cbn [fold_left]. apply IH. now apply dict_set_same_json.
Qed.

Lemma registry_data_same_json (s1 s2 : Runner.State) :
  Runner.self s2 = Runner.self s1 ->
  (forall l, Runner.results (Runner.deref s2 l) = Runner.results (Runner.deref s1 l)) ->
  jsonable (PDict (registry_data s2)) = jsonable (PDict (registry_data s1)).
Proof.
  intros Hself Hres. unfold registry_data. rewrite Hself.
  cbn [jsonable]. apply forallb_same_json.
  apply (fold_same_json fst
           (fun nc => PDict (Runner.to_dict (Runner.deref s2 (snd nc))))
           (fun nc => PDict (Runner.to_dict (Runner.deref s1 (snd nc))))).
  - intros x. now rewrite !jsonable_to_dict, Hres.
  - constructor.
Qed.

(** ** The run of a calculation *)

Lemma liftW_now (s : Runner.State) :
  Runner.liftW now s = (Ok (clock (Runner.world s)), s).
Proof. now destruct s. Qed.

Lemma liftW_print (msg : string) (s : Runner.State) :
  Runner.liftW (print msg) s = (Ok tt, set_world (emit_w (EvPrint msg) (Runner.world s)) s).
Proof. reflexivity. Qed.

Lemma runs_upd Q l f s : runs Q s (upd l f s).
Proof. split; [apply steps_refl | reflexivity]. Qed.

Lemma runs_print Q msg s :
  Q (EvPrint msg) -> runs Q s (set_world (emit_w (EvPrint msg) (Runner.world s)) s).
Proof. intros H. split; [now apply steps_emitted | reflexivity]. Qed.

Lemma runs_silent_no_exit s s' : runs silent s s' -> runs no_exit s s'.
Proof. apply runs_weaken. now intros []. Qed.



Lemma deref_same_heap (s s' : Runner.State) (l : Runner.loc) :
  Runner.heap s' = Runner.heap s -> Runner.deref s' l = Runner.deref s l.
Proof. unfold Runner.deref. now intros ->. Qed.

(** A registry write that raised raises again after the handler has set
    the status and the end time. *)
Lemma save_raises_again (sA sR sB : Runner.State) (e : exn) :
  Runner._save_calculations sA = (Raise e, sR) ->
  Runner.self sB = Runner.self sR ->
  Runner.world sB = Runner.world sR ->
  (forall l, Runner.results (Runner.deref sB l) = Runner.results (Runner.deref sR l)) ->
  save_ok sB = false.
Proof.
  intros Hsave Hself Hworld Hres.
  destruct (save_same_objects sA _ _ Hsave) as (Hheap & HselfA & _).
  assert (jsonable (PDict (registry_data sB)) = jsonable (PDict (registry_data sA))) as Hj.
  { apply registry_data_same_json; [congruence|].
    intros l. rewrite Hres. f_equal. now apply deref_same_heap. }
  unfold save_ok. rewrite Hj.
  destruct (jsonable (PDict (registry_data sA))) eqn:HjA; [|reflexivity].
  cbn [andb]. rewrite save_eq, liftW_eq in Hsave.
  unfold json_dump_file in Hsave. rewrite HjA in Hsave.
  unfold write_file in Hsave. rewrite bind_eq in Hsave.
  unfold emit, modify in Hsave. cbv iota beta in Hsave.
  set (cfg := Runner.config_file (Runner.self sA)) in *.
  set (w0 := emit_w (EvWrite cfg) (Runner.world sA)) in *.
  destruct (put_ok w0 cfg) eqn:Hp.
  - destruct (put_file_spec cfg (Json (PDict (registry_data sA))) w0) as [Hok _].
    rewrite (Hok Hp) in Hsave. discriminate.
  - destruct (put_file_spec cfg (Json (PDict (registry_data sA))) w0) as [_ Hno].
    destruct (Hno Hp) as (e' & He'). rewrite He' in Hsave. cbn [fst snd] in Hsave.
    inversion Hsave; subst sR. rewrite Hworld, Hself. cbn [Runner.self Runner.world set_world].
    exact Hp.
Qed.

(** The handler: what it leaves, what it returns. *)
Lemma run_handler_spec (calc : Runner.loc) (e : exn) (sH : Runner.State)
      (r : result bool) (s' : Runner.State) :
  Runner.run_handler calc e sH = (r, s') ->
  Runner.status (Runner.deref s' calc) = "failed" /\
  Runner.end_time (Runner.deref s' calc) = Some (clock (Runner.world sH)) /\
  Runner.start_time (Runner.deref s' calc) = Runner.start_time (Runner.deref sH calc) /\
  runs silent sH s' /\
  (if save_ok (marked_failed calc sH) then r = Ok false
   else exists e', Runner._save_calculations (marked_failed calc sH) = (Raise e', s') /\
                   r = Raise e').
Proof.
  unfold Runner.run_handler.
  rewrite (bind_ok _ _ _ _ _ (update_eq _ _ _)).
  rewrite (bind_ok _ _ _ _ _ (liftW_now _)).
  rewrite (bind_ok _ _ _ _ _ (update_eq _ _ _)).
  change (upd calc (Runner.set_end_time (Some (clock (Runner.world (upd calc (Runner.set_status "failed") sH)))))
              (upd calc (Runner.set_status "failed") sH))
    with (marked_failed calc sH).
  assert (Runner.status (Runner.deref (marked_failed calc sH) calc) = "failed" /\
          Runner.end_time (Runner.deref (marked_failed calc sH) calc)
            = Some (clock (Runner.world sH)) /\
          Runner.start_time (Runner.deref (marked_failed calc sH) calc)
            = Runner.start_time (Runner.deref sH calc)) as (H1 & H2 & H3).
  { unfold marked_failed. now rewrite !deref_upd_eq. }
  rewrite bind_eq.
  destruct (Runner._save_calculations (marked_failed calc sH)) as [[[]|e'] s3] eqn:Hs.
  - rewrite (bind_ok _ _ _ _ _ (liftW_print _ _)). unfold ret. intros H.
    inversion H; subst r s'. clear H.
    destruct (save_same_objects _ _ _ Hs) as (Hheap & _).
    rewrite deref_set_world, (deref_same_heap _ _ calc Hheap).
    split; [assumption|]. split; [assumption|]. split; [assumption|]. split.
    + eapply runs_trans; [| apply runs_print; exact I].
      eapply runs_trans; [| eapply save_runs, Hs].
      eapply runs_trans; apply runs_upd.
    + now rewrite (proj1 (save_ok_iff _ _ _ Hs) eq_refl).
  - intros H. inversion H; subst r s'. clear H.
    destruct (save_same_objects _ _ _ Hs) as (Hheap & _).
    rewrite (deref_same_heap _ _ calc Hheap).
    split; [assumption|]. split; [assumption|]. split; [assumption|]. split.
    + eapply runs_trans; [| eapply save_runs, Hs].
      eapply runs_trans; apply runs_upd.
    + destruct (save_ok (marked_failed calc sH)) eqn:Hok.
      * apply (save_ok_iff _ _ _ Hs) in Hok. discriminate.
      * eauto.
Qed.

(** Output discovery returns, and touches only [results]. *)
Lemma check_output_files_returns (calc : Runner.loc) (s : Runner.State) (wd : Path) :
  Runner.working_directory (Runner.deref s calc) = Some wd ->
  exists s',
    Runner._check_output_files calc s = (Ok tt, s') /\
    runs silent s s' /\
    Runner.status (Runner.deref s' calc) = Runner.status (Runner.deref s calc) /\
    Runner.start_time (Runner.deref s' calc) = Runner.start_time (Runner.deref s calc) /\
    Runner.end_time (Runner.deref s' calc) = Runner.end_time (Runner.deref s calc).
Proof.
  intros Hwd.
  destruct (get_output_name_returns (wd // "input.inp") (Runner.world s))
    as (o & w1 & Hg & Hst & _).
  rewrite (check_output_files_eq s calc wd o w1 Hwd Hg).
  eexists. split; [reflexivity|].
  assert (runs silent s (set_world w1 s)) as Hr1 by (split; [exact Hst | reflexivity]).
  destruct (path_exists w1 _).
  - unfold discovered. rewrite deref_set_world, !deref_upd_eq, deref_set_world.
    split; [|now repeat split].
    split; [|reflexivity].
    eapply steps_trans; [exact Hst|]. now apply steps_emitted.
  - rewrite !deref_set_world. split; [|now repeat split].
    split; [|reflexivity].
    eapply steps_trans; [exact Hst|]. now apply steps_emitted.
Qed.

(** *** The subprocess *)

(** A subprocess that returned: the two events, the clock it leaves. *)
Lemma spawn_returned cmd dir stdin (w w' : World) (p : proc_result) :
  spawn cmd dir stdin w = (Ok p, w') ->
  trace w' = trace w ++ [EvSpawn cmd dir stdin; EvExit (rc p)] /\
  clock w' = clock_after p /\ cwd w' = cwd w /\ machine w' = machine w /\
  machine w cmd (key w dir) stdin (fs w) (clock w) = Some p.
Proof.
  unfold spawn. rewrite bind_eq. unfold emit, modify. cbv iota beta.
  rewrite bind_eq. unfold get. cbv iota beta.
  destruct (negb (is_dir _ dir)); [discriminate|].
  change (machine (emit_w (EvSpawn cmd dir stdin) w)) with (machine w).
  change (key (emit_w (EvSpawn cmd dir stdin) w) dir) with (key w dir).
  change (fs (emit_w (EvSpawn cmd dir stdin) w)) with (fs w).
  change (clock (emit_w (EvSpawn cmd dir stdin) w)) with (clock w).
  destruct (machine w cmd (key w dir) stdin (fs w) (clock w)) as [r|]; [|discriminate].
  intros H. inversion H; subst. cbn. rewrite <- app_assoc. now repeat split.
Qed.

(** A subprocess that could not be started leaves no exit code. *)
Lemma spawn_raised cmd dir stdin (w w' : World) (e : exn) :
  spawn cmd dir stdin w = (Raise e, w') -> w' = emit_w (EvSpawn cmd dir stdin) w.
Proof.
  unfold spawn. rewrite bind_eq. unfold emit, modify. cbv iota beta.
  rewrite bind_eq. unfold get. cbv iota beta.
  destruct (negb (is_dir _ dir)); [intros H; now inversion H|].
  destruct (machine _ cmd _ stdin _ _) as [r|]; [discriminate|].
  intros H; now inversion H.
Qed.

(** A missing executable: [subprocess.run] raises. *)
Lemma spawn_missing cmd dir stdin (w : World) :
  machine w cmd (key w dir) stdin (fs w) (clock w) = None ->
  exists e, spawn cmd dir stdin w = (Raise e, emit_w (EvSpawn cmd dir stdin) w).
Proof.
  intros Hm. unfold spawn. rewrite bind_eq. unfold emit, modify. cbv iota beta.
  rewrite bind_eq. unfold get. cbv iota beta.
  destruct (negb (is_dir _ dir)); [eauto|].
  change (machine (emit_w (EvSpawn cmd dir stdin) w)) with (machine w).
  change (key (emit_w (EvSpawn cmd dir stdin) w) dir) with (key w dir).
  change (fs (emit_w (EvSpawn cmd dir stdin) w)) with (fs w).
  change (clock (emit_w (EvSpawn cmd dir stdin) w)) with (clock w).
  rewrite Hm. eauto.
Qed.

Lemma steps_spawn_event cmd dir stdin (w : World) :
  steps no_exit w (emit_w (EvSpawn cmd dir stdin) w).
Proof.
  split; [| now split]. exists [EvSpawn cmd dir stdin].
  split; [reflexivity|]. split; [now repeat constructor|].
  intros Hs. inversion Hs as [|? ? Hx]. contradiction.
Qed.

(** *** After the subprocess *)

(** The trace a run adds. *)
Lemma runs_trace Q (s s' : Runner.State) :
  runs Q s s' ->
  exists evs, trace (Runner.world s') = trace (Runner.world s) ++ evs /\ Forall Q evs.
Proof. intros [[(evs & Ht & HQ & _) _] _]. eauto. Qed.


Lemma runs_machine Q (s s' : Runner.State) :
  runs Q s s' -> machine (Runner.world s') = machine (Runner.world s).
Proof. now intros [[_ [_ Hm]] _]. Qed.

(** The statements after the subprocess either run to their end, with the
    status of the exit code, or end in the registry write that raises. *)
Lemma run_finish_cases (calc : Runner.loc) (c : Runner.QuanticsCalculation) (wd : Path)
      (process : proc_result) (s5 : Runner.State) :
  Runner.working_directory (Runner.deref s5 calc) = Some wd ->
  exists sA,
    runs silent s5 sA /\
    Runner.status (Runner.deref sA calc) = exit_status (rc process) /\
    Runner.end_time (Runner.deref sA calc) = Some (clock (Runner.world s5)) /\
    Runner.start_time (Runner.deref sA calc) = Runner.start_time (Runner.deref s5 calc) /\
    ((exists sF,
        Runner._save_calculations sA = (Ok tt, sF) /\
        Runner.run_finish calc c wd process s5 = (Ok (rc process =? 0), sF))
     \/
     (exists e sR,
        Runner._save_calculations sA = (Raise e, sR) /\
        Runner.run_finish calc c wd process s5 = (Raise e, sR))).
Proof.
  intros Hwd. unfold Runner.run_finish.
  rewrite (bind_ok _ _ _ _ _ (liftW_now _)).
  rewrite (bind_ok _ _ _ _ _ (update_eq _ _ _)).
  set (s6 := upd calc (Runner.set_end_time (Some (clock (Runner.world s5)))) s5).
  assert (Runner.end_time (Runner.deref s6 calc) = Some (clock (Runner.world s5)) /\
          Runner.start_time (Runner.deref s6 calc) = Runner.start_time (Runner.deref s5 calc) /\
          Runner.working_directory (Runner.deref s6 calc) = Some wd) as (He6 & Hs6 & Hw6).
  { unfold s6. now rewrite !deref_upd_eq. }
  assert (runs silent s5 s6) as Hr6 by apply runs_upd.
  assert (forall sA,
            Runner.status (Runner.deref sA calc) = exit_status (rc process) ->
            (exists sF0,
               Runner._save_calculations sA = (Ok tt, sF0) /\
               (Runner._save_calculations ;;; (c0 <- Runner.load calc ;;
                                               ret (String.eqb (Runner.status c0) "completed"))) sA
               = (Ok (rc process =? 0), sF0))
            \/
            (exists e sR,
               Runner._save_calculations sA = (Raise e, sR) /\
               (Runner._save_calculations ;;; (c0 <- Runner.load calc ;;
                                               ret (String.eqb (Runner.status c0) "completed"))) sA
               = (Raise e, sR))) as Htail.
  { intros sA Hst.
    destruct (Runner._save_calculations sA) as [[[]|e] sF] eqn:Hs.
    - left. exists sF. split; [reflexivity|].
      rewrite (bind_ok _ _ _ _ _ Hs).
      rewrite (bind_ok _ _ _ _ _ (load_eq _ _)). unfold ret.
      destruct (save_same_objects _ _ _ Hs) as (Hheap & _).
      rewrite (deref_same_heap _ _ calc Hheap), Hst. unfold exit_status.
      now destruct (rc process =? 0).
    - right. exists e, sF. split; [reflexivity|]. now apply bind_raised. }
  unfold exit_status in *.
  destruct (rc process =? 0) eqn:Hrc.
  - set (s7 := upd calc (Runner.set_status "completed") s6).
    set (s8 := set_world (emit_w (EvPrint ("Calculation '" +:+ Runner.name c +:+
                                            "' completed successfully")) (Runner.world s7)) s7).
    assert (Runner.working_directory (Runner.deref s8 calc) = Some wd) as Hw8.
    { unfold s8, s7. now rewrite deref_set_world, deref_upd_eq. }
    destruct (check_output_files_returns calc s8 wd Hw8) as (sA & Hck & HrA & HstA & HsA & HeA).
    exists sA.
    assert (Runner.status (Runner.deref s8 calc) = "completed" /\
            Runner.end_time (Runner.deref s8 calc) = Some (clock (Runner.world s5)) /\
            Runner.start_time (Runner.deref s8 calc) = Runner.start_time (Runner.deref s5 calc))
      as (H8a & H8b & H8c).
    { unfold s8, s7. rewrite deref_set_world, deref_upd_eq. now repeat split. }
    split.
    { eapply runs_trans; [| exact HrA].
      eapply runs_trans; [exact Hr6|].
      eapply runs_trans; [apply (runs_upd silent calc (Runner.set_status "completed") s6)|].
      apply runs_print. exact I. }
    split; [congruence|]. split; [congruence|]. split; [congruence|].
    rewrite bind_eq.
    rewrite (bind_ok _ _ _ _ _ (update_eq _ _ _)).
    rewrite (bind_ok _ _ _ _ _ (liftW_print _ _)).
    fold s7. fold s8. rewrite Hck.
    apply (Htail sA). congruence.
  - set (s7 := upd calc (Runner.set_status "failed") s6).
    set (s8 := set_world (emit_w (EvPrint ("Calculation '" +:+ Runner.name c +:+ "' failed"))
                                 (Runner.world s7)) s7).
    set (sA := set_world (emit_w (EvPrint ("See log file: " +:+ str (wd // "quantics.log")))
                                 (Runner.world s8)) s8).
    exists sA.
    assert (Runner.status (Runner.deref sA calc) = "failed" /\
            Runner.end_time (Runner.deref sA calc) = Some (clock (Runner.world s5)) /\
            Runner.start_time (Runner.deref sA calc) = Runner.start_time (Runner.deref s5 calc))
      as (HAa & HAb & HAc).
    { unfold sA, s8, s7. rewrite !deref_set_world, deref_upd_eq. now repeat split. }
    split.
    { eapply runs_trans; [exact Hr6|].
      eapply runs_trans; [apply (runs_upd silent calc (Runner.set_status "failed") s6)|].
      eapply runs_trans; apply runs_print; exact I. }
    split; [assumption|]. split; [assumption|]. split; [assumption|].
    rewrite bind_eq.
    rewrite (bind_ok _ _ _ _ _ (update_eq _ _ _)).
    rewrite (bind_ok _ _ _ _ _ (liftW_print _ _)).
    fold s7. fold s8. rewrite liftW_print. fold sA.
    apply (Htail sA). assumption.
Qed.

(** *** Up to the subprocess *)

Lemma runs_started (calc : Runner.loc) (s : Runner.State) : runs silent s (started calc s).
Proof. unfold started. eapply runs_trans; apply runs_upd. Qed.

Lemma started_fields (calc : Runner.loc) (s : Runner.State) :
  Runner.start_time (Runner.deref (started calc s) calc) = Some (clock (Runner.world s)) /\
  Runner.working_directory (Runner.deref (started calc s) calc)
  = Runner.working_directory (Runner.deref s calc).
Proof. unfold started. now rewrite !deref_upd_eq. Qed.

Lemma liftW_runs {A} Q (m : ST World A) :
  preserves (steps Q) m -> preserves (runs Q) (Runner.liftW m).
Proof. intros H. apply (preserves_liftW (steps Q)); [intros ? ? ?; now split | exact H]. Qed.

(** The [try] block either raises before an exit code is there, or gets
    to the end of the subprocess and goes on with [run_finish]. *)
Lemma run_body_cases (calc : Runner.loc) (c : Runner.QuanticsCalculation) (exe : string)
      (s1 : Runner.State) :
  (exists e sH,
      Runner.run_body calc c exe s1 = (Raise e, sH) /\ runs no_exit s1 sH)
  \/
  (exists wd s4 p s5,
      Runner.working_directory c = Some wd /\
      runs silent s1 s4 /\
      Runner.heap s4 = Runner.heap (started calc s1) /\
      Runner.liftW (spawn [exe; "-mnd"; "input.inp"] wd None) s4 = (Ok p, s5) /\
      Runner.run_body calc c exe s1 = Runner.run_finish calc c wd p s5).
Proof.
  unfold Runner.run_body.
  rewrite (bind_ok _ _ _ _ _ (update_eq _ _ _)).
  rewrite (bind_ok _ _ _ _ _ (liftW_now _)).
  rewrite (bind_ok _ _ _ _ _ (update_eq _ _ _)).
  change (upd calc (Runner.set_start_time
                      (Some (clock (Runner.world (upd calc (Runner.set_status "running") s1)))))
              (upd calc (Runner.set_status "running") s1))
    with (started calc s1).
  pose proof (runs_started calc s1) as Hr2.
  destruct (Runner._save_calculations (started calc s1)) as [[[]|e] s3] eqn:Hs.
  2:{ left. exists e, s3. split; [now apply bind_raised|].
      apply runs_silent_no_exit. eapply runs_trans; [exact Hr2|]. eapply save_runs, Hs. }
  rewrite (bind_ok _ _ _ _ _ Hs).
  assert (runs silent s1 s3) as Hr3.
  { eapply runs_trans; [exact Hr2|]. eapply save_runs, Hs. }
  destruct (save_same_objects _ _ _ Hs) as (Hh3 & _).
  rewrite (bind_ok _ _ _ _ _ (liftW_print _ _)).
  rewrite (bind_ok _ _ _ _ _ (liftW_print _ _)).
  rewrite (bind_ok _ _ _ _ _ (liftW_print _ _)).
  match goal with
  | |- context [bind (Runner.need_path _) _ ?s] => set (s3' := s)
  end.
  assert (runs silent s1 s3') as Hr3'.
  { eapply runs_trans; [exact Hr3|]. unfold s3'.
    eapply runs_trans; [apply runs_print; exact I|].
    eapply runs_trans; apply runs_print; exact I. }
  assert (Runner.heap s3' = Runner.heap (started calc s1)) as Hh3' by exact Hh3.
  destruct (Runner.working_directory c) as [wd|].
  2:{ left. do 2 eexists. split; [apply bind_raised; reflexivity|].
      now apply runs_silent_no_exit. }
  rewrite (bind_ok _ _ _ _ _ (need_path_some _ _)).
  destruct (Runner.liftW (write_file (wd // "quantics.log") (Text "")) s3')
    as [[[]|e] s4] eqn:Hw.
  2:{ left. exists e, s4. split; [now apply bind_raised|].
      apply runs_silent_no_exit. eapply runs_trans; [exact Hr3'|].
      eapply (liftW_runs silent), Hw. apply write_file_steps. exact I. }
  rewrite (bind_ok _ _ _ _ _ Hw).
  assert (runs silent s1 s4) as Hr4.
  { eapply runs_trans; [exact Hr3'|].
    eapply (liftW_runs silent), Hw. apply write_file_steps. exact I. }
  assert (Runner.heap s4 = Runner.heap (started calc s1)) as Hh4.
  { destruct (liftW_same_objects _ _ _ _ Hw) as (H & _). congruence. }
  destruct (Runner.liftW (spawn [exe; "-mnd"; "input.inp"] wd None) s4)
    as [[p|e] s5] eqn:Hsp.
  - right. exists wd, s4, p, s5. repeat split; try assumption; try apply Hr4.
    now rewrite (bind_ok _ _ _ _ _ Hsp).
  - left. exists e, s5. split; [now apply bind_raised|].
    eapply runs_trans; [apply runs_silent_no_exit, Hr4|].
    rewrite liftW_eq in Hsp.
    destruct (spawn [exe; "-mnd"; "input.inp"] wd None (Runner.world s4)) as [r0 w5] eqn:E.
    cbn [fst snd] in Hsp. inversion Hsp; subst r0 s5.
    apply spawn_raised in E. subst w5.
    split; [apply steps_spawn_event | reflexivity].
Qed.



(** *** The exit code and the status *)




(** *** Environment errors *)

(** With the executable missing, the [try] block raises. *)
Lemma run_body_missing_executable (calc : Runner.loc) (c : Runner.QuanticsCalculation)
      (exe : string) (s1 : Runner.State) :
  missing_executable exe (machine (Runner.world s1)) ->
  exists e sH, Runner.run_body calc c exe s1 = (Raise e, sH).
Proof.
  intros Hmiss.
  destruct (run_body_cases calc c exe s1)
    as [(e & sH & Hb & _) | (wd & s4 & p & s5 & _ & Hr4 & _ & Hsp & _)]; [eauto|].
  exfalso. destruct (liftW_inv_ok _ _ _ _ Hsp) as (w5 & Hsw & _).
  destruct (spawn_returned _ _ _ _ _ _ Hsw) as (_ & _ & _ & _ & Hmach).
  rewrite (runs_machine _ _ _ Hr4), Hmiss in Hmach. discriminate.
Qed.

(** C6 (as amended).  Take a call of [run_calculation] on a calculation
    that is not running.  When preparation fails, the call returns
    [false] and leaves the calculation as it was: its status is not set
    to [failed].  Preparation fails when the copy of the input file
    raises, and when a DD-vMCG calculation has a DB folder that is not a
    directory.  When preparation succeeds and the executable is missing,
    the calculation is marked [failed]; the call returns [false], unless
    the registry write of the [except] clause raises, in which case that
    exception leaves the call. *)
Theorem environment_errors (calc : Runner.loc) (exe : string) (s s' : Runner.State)
        (r : result bool) :
  Runner.status (Runner.deref s calc) <> "running" ->
  Runner.run_calculation calc exe s = (r, s') ->
  (fst (Runner.prepare_calculation calc s) = Ok false ->
   r = Ok false /\ Runner.deref s' calc = Runner.deref s calc) /\
  (forall inp wd e w1,
      Runner.inp_file (Runner.deref s calc) = Some inp ->
      Runner.working_directory (Runner.deref s calc) = Some wd ->
      copy2 inp (wd // "input.inp") (Runner.world s) = (Raise e, w1) ->
      r = Ok false /\ Runner.deref s' calc = Runner.deref s calc) /\
  (forall db,
      Runner.workflow_type (Runner.deref s calc) = "DD-vMCG" ->
      Runner.db_folder (Runner.deref s calc) = Some db ->
      is_dir (Runner.world s) db = false ->
      r = Ok false /\ Runner.deref s' calc = Runner.deref s calc) /\
  (fst (Runner.prepare_calculation calc s) = Ok true ->
   missing_executable exe (machine (Runner.world s)) ->
   Runner.status (Runner.deref s' calc) = "failed" /\
   match r with
   | Ok b => b = false
   | Raise _ => save_ok s' = false
   end).
Proof.
  intros Hst Hrun.
  destruct (prepare_returns calc s) as (b0 & s1 & Hp).
  assert (fst (Runner.prepare_calculation calc s) = Ok false ->
          r = Ok false /\ Runner.deref s' calc = Runner.deref s calc) as Hfalse.
  { rewrite Hp. cbn [fst]. intros Hb. inversion Hb; subst b0.
    destruct (run_not_prepared s s1 calc exe Hst Hp) as (Hrun' & Hheap).
    rewrite Hrun' in Hrun. inversion Hrun; subst r s'.
    split; [reflexivity | now apply deref_same_heap]. }
  split; [exact Hfalse|].
  split; [intros inp wd e w1 Hi Hw Hc; apply Hfalse; eapply prepare_copy_fails; eassumption|].
  split; [intros db Hwf Hdb Hnd; apply Hfalse; eapply prepare_db_missing; eassumption|].
  rewrite Hp. cbn [fst]. intros Hb Hmiss. inversion Hb; subst b0.
  unfold Runner.run_calculation in Hrun.
  rewrite (bind_ok _ _ _ _ _ (load_eq _ _)) in Hrun.
  apply String.eqb_neq in Hst. rewrite Hst in Hrun.
  rewrite (bind_ok _ _ _ _ _ Hp) in Hrun. cbn [negb] in Hrun.
  pose proof (prepare_runs calc s _ _ Hp) as Hr1.
  destruct (run_body_missing_executable calc (Runner.deref s calc) exe s1)
    as (e & sH & Hbody).
  { now rewrite (runs_machine _ _ _ Hr1). }
  rewrite (try_raised _ _ _ _ _ Hbody) in Hrun.
  destruct (run_handler_spec _ _ _ _ _ Hrun) as (HstH & _ & _ & _ & Hres).
  split; [exact HstH|].
  destruct (save_ok (marked_failed calc sH)).
  - now subst r.
  - destruct Hres as (e' & Hsave & ->).
    apply (save_raises_again _ s' s' e' Hsave); reflexivity.
Qed.

Lemma environment_errors_witness :
  let s := Demo.created_state Demo.no_programs Demo.ho_inp in
  let run := Runner.run_calculation 0%nat "quantics" s in
  Runner.status (Runner.deref (snd run) 0%nat) = "failed" /\
  match fst run with
  | Ok b => b = false
  | Raise _ => save_ok (snd run) = false
  end.
Proof.
  intros s run.
  assert (Runner.status (Runner.deref s 0%nat) <> "running") as H1
      by (vm_compute; discriminate).
  assert (Runner.run_calculation 0%nat "quantics" s = (fst run, snd run)) as H2
      by (vm_compute; reflexivity).
  assert (fst (Runner.prepare_calculation 0%nat s) = Ok true) as H3
      by (vm_compute; reflexivity).
  assert (missing_executable "quantics" (machine (Runner.world s))) as H4
      by (intros args dir stdin f t; reflexivity).
  exact (proj2 (proj2 (proj2 (environment_errors 0%nat "quantics" s (snd run) (fst run) H1 H2)))
           H3 H4).
Defined.

(** C6, the claim as stated fails.  The input file is not there: the copy
    in [prepare_calculation] raises, [run_calculation] returns [false],
    and the calculation keeps the status [created].  The same for a
    DD-vMCG calculation whose DB folder is not there. *)
Lemma preparation_failure_not_marked_failed :
  (let s := Demo.no_inp_state in
   let run := Runner.run_calculation 0%nat "quantics" s in
   (exists e w1,
       copy2 (Path_of_str "/data/none.inp") (Demo.ho_wd // "input.inp") (Runner.world s)
       = (Raise e, w1)) /\
   Runner.inp_file (Runner.deref s 0%nat) = Some (Path_of_str "/data/none.inp") /\
   Runner.working_directory (Runner.deref s 0%nat) = Some Demo.ho_wd /\
   fst run = Ok false /\
   Runner.status (Runner.deref (snd run) 0%nat) = "created") /\
  (let s := Demo.no_db_state in
   let run := Runner.run_calculation 0%nat "quantics" s in
   Runner.workflow_type (Runner.deref s 0%nat) = "DD-vMCG" /\
   Runner.db_folder (Runner.deref s 0%nat) = Some (Path_of_str "/data/db") /\
   is_dir (Runner.world s) (Path_of_str "/data/db") = false /\
   fst run = Ok false /\
   Runner.status (Runner.deref (snd run) 0%nat) = "created").
Proof.
  split.
  - split; [do 2 eexists; vm_compute; reflexivity|].
    split; [vm_compute; reflexivity|]. split; [vm_compute; reflexivity|].
    split; vm_compute; reflexivity.
  - split; [vm_compute; reflexivity|]. split; [vm_compute; reflexivity|].
    split; [vm_compute; reflexivity|]. split; vm_compute; reflexivity.
Qed.

(** ** Analysis tools *)

(** *** Keys *)

Lemma dict_keys_add {V} (k : string) (v : V) (d : list (string * V)) :
  dict_keys (dict_set k v d) = Reading.add_key (dict_keys d) k.
Proof.
  unfold Reading.add_key, dict_keys.
  induction d as [|[k' v'] d IH]; [reflexivity|].
  cbn [dict_set map fst existsb]. destruct (String.eqb k k'); [reflexivity|].
  cbn [orb map fst]. rewrite IH. now destruct (existsb (String.eqb k) (map fst d)).
Qed.

Lemma existsb_eqb_In (k : string) (keys : list string) :
  existsb (String.eqb k) keys = true <-> In k keys.
Proof.
  rewrite existsb_exists. split.
  - intros (x & Hin & Heq). apply String.eqb_eq in Heq. now subst.
  - intros Hin. exists k. split; [exact Hin | apply String.eqb_refl].
Qed.

Lemma add_key_In (keys : list string) (k t : string) :
  In t (Reading.add_key keys k) <-> In t keys \/ t = k.
Proof.
  unfold Reading.add_key. destruct (existsb (String.eqb k) keys) eqn:E.
  - apply existsb_eqb_In in E. split; [now left | intros [H| ->]; assumption].
  - rewrite in_app_iff. cbn [In]. split.
    + intros [H|[H|[]]]; [now left | now right].
    + intros [H|H]; [now left | right; now left].
Qed.

Lemma add_key_idem (keys : list string) (k : string) :
  Reading.add_key (Reading.add_key keys k) k = Reading.add_key keys k.
Proof.
  unfold Reading.add_key at 1.
  assert (existsb (String.eqb k) (Reading.add_key keys k) = true) as ->; [|reflexivity].
  apply existsb_eqb_In, add_key_In. now right.
Qed.

Lemma fold_add_key_In (l keys : list string) (t : string) :
  In t (fold_left Reading.add_key l keys) <-> In t keys \/ In t l.
Proof.
  revert keys. induction l as [|k l IH]; intros keys; cbn [fold_left In].
  - tauto.
  - rewrite IH, add_key_In. split.
    + intros [[H|H]|H]; auto.
    + intros [H|[H|H]]; auto.
Qed.

(** *** The trace of the loop *)

Lemma spawned_app (a b : list event) : spawned (a ++ b) = spawned a ++ spawned b.
Proof. unfold spawned. apply omap_app. Qed.

Lemma spawned_silent (evs : list event) : Forall silent evs -> spawned evs = [].
Proof.
  induction 1 as [|e evs He _ IH]; [reflexivity|].
  change (spawned (e :: evs)) with (spawned ([e] ++ evs)).
  rewrite spawned_app, IH. now destruct e.
Qed.

Lemma launched_refl (s : Runner.State) : launched [] s s.
Proof. exists []. now rewrite app_nil_r. Qed.

Lemma launched_trans (a b : list (list string)) (s s1 s2 : Runner.State) :
  launched a s s1 -> launched b s1 s2 -> launched (a ++ b) s s2.
Proof.
  intros (e1 & H1 & Ha) (e2 & H2 & Hb). exists (e1 ++ e2).
  split; [now rewrite H2, H1, app_assoc | now rewrite spawned_app, Ha, Hb].
Qed.

Lemma launched_silent (s s' : Runner.State) : runs silent s s' -> launched [] s s'.
Proof.
  intros H. destruct (runs_trace _ _ _ H) as (evs & Ht & HQ).
  exists evs. split; [exact Ht | now apply spawned_silent].
Qed.

Lemma launched_print (msg : string) (s : Runner.State) :
  launched [] s (set_world (emit_w (EvPrint msg) (Runner.world s)) s).
Proof. apply launched_silent, runs_print. exact I. Qed.

Lemma printed_now (msg : string) (s : Runner.State) :
  printed msg s (set_world (emit_w (EvPrint msg) (Runner.world s)) s).
Proof. exists [EvPrint msg]. split; [reflexivity | now left]. Qed.

Lemma printed_later (msg : string) (cmds : list (list string)) (s s1 s2 : Runner.State) :
  printed msg s s1 -> launched cmds s1 s2 -> printed msg s s2.
Proof.
  intros (e1 & H1 & Hin) (e2 & H2 & _). exists (e1 ++ e2).
  split; [now rewrite H2, H1, app_assoc | apply in_or_app; now left].
Qed.

Lemma printed_earlier (msg : string) (cmds : list (list string)) (s s1 s2 : Runner.State) :
  launched cmds s s1 -> printed msg s1 s2 -> printed msg s s2.
Proof.
  intros (e1 & H1 & _) (e2 & H2 & Hin). exists (e1 ++ e2).
  split; [now rewrite H2, H1, app_assoc | apply in_or_app; now right].
Qed.

(** *** An iteration *)

Lemma liftS_ok {A} (m : ST Runner.State A) (acc : list (string * string))
      (s s' : Runner.State) (a : A) :
  m s = (Ok a, s') -> Runner.liftS m (acc, s) = (Ok a, (acc, s')).
Proof. intros H. unfold Runner.liftS. cbn [fst snd]. now rewrite H. Qed.

Lemma liftS_raised {A} (m : ST Runner.State A) (acc : list (string * string))
      (s s' : Runner.State) (e : exn) :
  m s = (Raise e, s') -> Runner.liftS m (acc, s) = (Raise e, (acc, s')).
Proof. intros H. unfold Runner.liftS. cbn [fst snd]. now rewrite H. Qed.

Lemma set_tool_result_eq (tool text : string) (acc : list (string * string))
      (s : Runner.State) :
  Runner.set_tool_result tool text (acc, s) = (Ok tt, (dict_set tool text acc, s)).
Proof. reflexivity. Qed.

Lemma same_objects_set_world (w : World) (s : Runner.State) : same_objects s (set_world w s).
Proof. now repeat split. Qed.

(** The handler of the loop body writes the entry of the tool and
    returns. *)
Lemma tool_handler_eq (tool : string) (e : exn) (acc : list (string * string))
      (s : Runner.State) :
  Runner.tool_handler tool e (acc, s)
  = (Ok tt, (dict_set tool ("Exception: " +:+ message e) acc,
             set_world (emit_w (EvPrint ("Exception while running " +:+ tool +:+ ": "
                                         +:+ message e)) (Runner.world s)) s)).
Proof. reflexivity. Qed.

(** The subprocess of a tool: one command line is started, an entry is
    written unless the subprocess or the output file raised. *)
Lemma tool_process_cases (dir : Path) (tool : string) (cmd : list string)
      (acc : list (string * string)) (s : Runner.State) :
  exists r acc1 s1,
    Runner.tool_process dir tool cmd (acc, s) = (r, (acc1, s1)) /\
    launched [cmd] s s1 /\ same_objects s s1 /\
    match r with
    | Ok _ => dict_keys acc1 = Reading.add_key (dict_keys acc) tool
    | Raise _ => acc1 = acc \/ dict_keys acc1 = Reading.add_key (dict_keys acc) tool
    end.
Proof.
  unfold Runner.tool_process.
  match goal with
  | |- context [Runner.liftW ?m] =>
      assert (exists stdin, m = spawn cmd dir stdin) as (stdin & ->)
        by (destruct (String.eqb tool "rdgpop"); eauto)
  end.
  destruct (spawn cmd dir stdin (Runner.world s)) as [[p|e] w1] eqn:Hsp.
  2:{ exists (Raise e), acc, (set_world w1 s).
      split; [apply bind_raised, liftS_raised, liftW_raised, Hsp|].
      apply spawn_raised in Hsp. subst w1.
      split; [exists [EvSpawn cmd dir stdin]; now split|].
      split; [apply same_objects_set_world | now left]. }
  rewrite (bind_ok _ _ _ _ _ (liftS_ok _ acc _ _ _ (liftW_ok _ _ _ _ Hsp))).
  destruct (spawn_returned _ _ _ _ _ _ Hsp) as (Htr & _).
  assert (launched [cmd] s (set_world w1 s)) as Hl1.
  { exists [EvSpawn cmd dir stdin; EvExit (rc p)]. now split. }
  destruct (rc p =? 0).
  - rewrite (bind_ok _ _ _ _ _ (set_tool_result_eq _ _ _ _)).
    rewrite (bind_ok _ _ _ _ _ (liftS_ok _ _ _ _ _ (liftW_print _ _))).
    set (s2 := set_world (emit_w (EvPrint (tool +:+ " completed"))
                                 (Runner.world (set_world w1 s))) (set_world w1 s)).
    set (file := dir // (replace_char " " "_" tool +:+ "_output.txt")).
    destruct (Runner.liftW (write_file file (Text (out p))) s2) as [r s3] eqn:Hw.
    assert (launched [cmd] s s3) as Hl3.
    { change [cmd] with ([cmd] ++ [] ++ @nil (list string)).
      eapply launched_trans; [exact Hl1|].
      eapply launched_trans; [apply launched_print|].
      apply launched_silent. eapply (liftW_runs silent), Hw.
      apply write_file_steps. exact I. }
    assert (same_objects s s3) as Ho3.
    { eapply same_objects_trans; [| eapply liftW_same_objects, Hw].
      unfold s2. now repeat split. }
    exists r, (dict_set tool (out p) acc), s3.
    split; [unfold Runner.liftS; cbn [fst snd]; now rewrite Hw|].
    split; [exact Hl3|]. split; [exact Ho3|].
    destruct r as [[]|e]; [| right]; apply dict_keys_add.
  - rewrite (bind_ok _ _ _ _ _ (set_tool_result_eq _ _ _ _)).
    rewrite (liftS_ok _ _ _ _ _ (liftW_print _ _)).
    exists (Ok tt). do 2 eexists. split; [reflexivity|].
    split.
    { change [cmd] with ([cmd] ++ @nil (list string)).
      eapply launched_trans; [exact Hl1 | apply launched_print]. }
    split; [now repeat split | apply dict_keys_add].
Qed.

(** An iteration of the loop returns.  A recognised tool starts its
    command line and leaves its key; an unknown tool starts nothing,
    leaves no key and is reported. *)
Lemma analysis_step_spec (dir : Path) (tool : string) (acc : list (string * string))
      (s : Runner.State) :
  exists acc' s',
    Runner.analysis_step dir tool (acc, s) = (Ok tt, (acc', s')) /\
    dict_keys acc'
    = (if Reading.known_tool tool then Reading.add_key (dict_keys acc) tool
       else dict_keys acc) /\
    launched (match Runner.command_of tool with Some cmd => [cmd] | None => [] end) s s' /\
    (Runner.command_of tool = None -> printed ("Unknown analysis tool: " +:+ tool) s s') /\
    same_objects s s'.
Proof.
  unfold Runner.analysis_step, Reading.known_tool.
  set (s0 := set_world (emit_w (EvPrint ("Running analysis tool: " +:+ tool))
                               (Runner.world s)) s).
  destruct (Runner.command_of tool) as [cmd|].
  - destruct (tool_process_cases dir tool cmd acc s0) as (r & acc1 & s1 & Hp & Hl & Ho & Hk).
    assert (launched [cmd] s s1) as Hl1.
    { change [cmd] with ([] ++ [cmd]).
      eapply launched_trans; [apply launched_print | exact Hl]. }
    assert (same_objects s s1) as Ho1.
    { eapply same_objects_trans; [apply same_objects_set_world | exact Ho]. }
    destruct r as [[]|e].
    + exists acc1, s1. split.
      { apply try_ok. rewrite (bind_ok _ _ _ _ _ (liftS_ok _ _ _ _ _ (liftW_print _ _))).
        exact Hp. }
      split; [exact Hk|]. split; [exact Hl1|]. split; [discriminate | exact Ho1].
    + do 2 eexists. split.
      { erewrite try_raised; [apply tool_handler_eq|].
        rewrite (bind_ok _ _ _ _ _ (liftS_ok _ _ _ _ _ (liftW_print _ _))). exact Hp. }
      split.
      { rewrite dict_keys_add. destruct Hk as [-> | ->]; [reflexivity | apply add_key_idem]. }
      split.
      { change [cmd] with ([cmd] ++ @nil (list string)).
        eapply launched_trans; [exact Hl1 | apply launched_print]. }
      split; [discriminate|].
      eapply same_objects_trans; [exact Ho1 | apply same_objects_set_world].
  - do 2 eexists. split.
    { apply try_ok. rewrite (bind_ok _ _ _ _ _ (liftS_ok _ _ _ _ _ (liftW_print _ _))).
      apply liftS_ok, liftW_print. }
    split; [reflexivity|]. split.
    { change (@nil (list string)) with (@nil (list string) ++ []).
      eapply launched_trans; apply launched_print. }
    split; [| now repeat split].
    intros _. eapply printed_earlier; [apply launched_print | apply printed_now].
Qed.

(** *** The loop *)

(** The loop over the tools returns, whatever the tools and the
    subprocesses do. *)
Lemma analysis_loop_spec (dir : Path) (tools : list string) :
  forall (acc : list (string * string)) (s : Runner.State),
  exists acc' s',
    for_each tools (Runner.analysis_step dir) (acc, s) = (Ok tt, (acc', s')) /\
    dict_keys acc'
    = fold_left Reading.add_key (List.filter Reading.known_tool tools) (dict_keys acc) /\
    launched (omap Runner.command_of tools) s s' /\
    (forall t, In t tools -> Runner.command_of t = None ->
               printed ("Unknown analysis tool: " +:+ t) s s') /\
    same_objects s s'.
Proof.
  induction tools as [|tool tools IH]; intros acc s.
  - exists acc, s. split; [reflexivity|]. split; [reflexivity|].
    split; [apply launched_refl|]. split; [intros t [] | apply same_objects_refl].
  - destruct (analysis_step_spec dir tool acc s) as (acc1 & s1 & Hstep & Hk1 & Hl1 & Hp1 & Ho1).
    destruct (IH acc1 s1) as (acc2 & s2 & Hrest & Hk2 & Hl2 & Hp2 & Ho2).
    exists acc2, s2. split.
    { cbn [for_each]. now rewrite (bind_ok _ _ _ _ _ Hstep). }
    split.
    { rewrite Hk2, Hk1. cbn [List.filter].
      now destruct (Reading.known_tool tool). }
    split.
    { replace (omap Runner.command_of (tool :: tools))
        with ((match Runner.command_of tool with Some cmd => [cmd] | None => [] end)
                ++ omap Runner.command_of tools)
        by (cbn [omap list_omap]; now destruct (Runner.command_of tool)).
      eapply launched_trans; eassumption. }
    split; [| eapply same_objects_trans; eassumption].
    intros t [<-|Hin] Hnone.
    + eapply printed_later; [apply Hp1, Hnone | exact Hl2].
    + eapply printed_earlier; [exact Hl1 | now apply Hp2].
Qed.

Lemma get_output_name_steps (p : Path) :
  preserves (steps silent) (Runner._get_output_name_from_inp p).
Proof.
  intros w r w' H.
  destruct (get_output_name_returns p w) as (o & w1 & Hg & Hs & _).
  rewrite Hg in H. inversion H; subst. exact Hs.
Qed.

(** Finding the output directory starts no subprocess. *)
Lemma analysis_output_dir_runs (c : Runner.QuanticsCalculation) :
  preserves (runs silent) (Runner.analysis_output_dir c).
Proof.
  unfold Runner.analysis_output_dir.
  destruct (dict_get "output_name" (Runner.results c)) as [v|];
    [destruct (py_truthy v); [destruct v|]|];
    destruct (Runner.working_directory c); cbn [Runner.need_path];
    repeat first
      [ preserves_step (runs_refl silent) (runs_trans silent)
      | match goal with
        | |- preserves (runs _) (Runner.liftW _) =>
            apply (liftW_runs silent), get_output_name_steps
        end ].
Qed.

Lemma launched_unique (cmds : list (list string)) (s s' : Runner.State) (evs : list event) :
  launched cmds s s' ->
  trace (Runner.world s') = trace (Runner.world s) ++ evs -> spawned evs = cmds.
Proof.
  intros (evs' & Ht' & Hsp) Ht. rewrite Ht in Ht'. apply app_inv_head in Ht'. now subst.
Qed.

Lemma printed_unique (msg : string) (s s' : Runner.State) (evs : list event) :
  printed msg s s' ->
  trace (Runner.world s') = trace (Runner.world s) ++ evs -> In (EvPrint msg) evs.
Proof.
  intros (evs' & Ht' & Hin) Ht. rewrite Ht in Ht'. apply app_inv_head in Ht'. now subst.
Qed.

(** C5 (as amended).  Take [run_analysis] on a completed calculation
    whose output directory exists.  Every recognised tool of the list has
    its command line started, in the order of the list, and no other
    command line is started; every unknown tool is reported with
    [Unknown analysis tool: ...].  When the call returns, the keys of the
    mapping returned are the recognised tools of the list: an unknown
    tool gives no key.  The call raises only when the registry cannot be
    written at its end.  For the list [rdcheck etot], [nonexistent_tool],
    [rdcheck spop] the two [rdcheck] command lines are started and the
    keys are [rdcheck etot] and [rdcheck spop]. *)
Theorem run_analysis_tools (calc : Runner.loc) (tools : list string) (s s0 s' : Runner.State)
        (output_dir : Path) (r : result (list (string * string))) (evs : list event) :
  Runner.status (Runner.deref s calc) = "completed" ->
  Runner.analysis_output_dir (Runner.deref s calc) s = (Ok output_dir, s0) ->
  path_exists (Runner.world s0) output_dir = true ->
  Runner.run_analysis calc tools s = (r, s') ->
  trace (Runner.world s') = trace (Runner.world s) ++ evs ->
  spawned evs = omap Runner.command_of tools /\
  (forall t, In t tools -> Reading.known_tool t = false ->
             In (EvPrint ("Unknown analysis tool: " +:+ t)) evs) /\
  match r with
  | Ok results =>
      dict_keys results = Reading.tool_keys tools /\
      (forall t, In t (dict_keys results) <-> In t tools /\ Reading.known_tool t = true)
  | Raise _ => save_ok s' = false
  end /\
  (tools = ["rdcheck etot"; "nonexistent_tool"; "rdcheck spop"] ->
   spawned evs = [["rdcheck"; "etot"]; ["rdcheck"; "spop"]] /\
   match r with
   | Ok results => dict_keys results = ["rdcheck etot"; "rdcheck spop"]
   | Raise _ => True
   end).
Proof.
  intros Hst Hdir Hex Hrun Ht.
  unfold Runner.run_analysis in Hrun.
  rewrite (bind_ok _ _ _ _ _ (load_eq _ _)), Hst in Hrun.
  change (negb (String.eqb "completed" "completed")) with false in Hrun. cbv iota in Hrun.
  rewrite (bind_ok _ _ _ _ _ Hdir) in Hrun.
  rewrite (bind_ok (gets Runner.world) _ s0 s0 (Runner.world s0) eq_refl), Hex in Hrun.
  cbn [negb] in Hrun.
  destruct (analysis_loop_spec output_dir tools [] s0)
    as (results & s2 & Hloop & Hk & Hl & Hp & Ho).
  assert (Runner.analysis_loop output_dir tools s0 = (Ok results, s2)) as Hloop'
      by (unfold Runner.analysis_loop; now rewrite Hloop).
  rewrite (bind_ok _ _ _ _ _ Hloop') in Hrun.
  rewrite (bind_ok _ _ _ _ _ (update_eq _ _ _)) in Hrun.
  match type of Hrun with
  | bind _ _ ?st = _ => set (s3 := st) in *
  end.
  pose proof (analysis_output_dir_runs _ _ _ _ Hdir) as Hr0.
  assert (forall r4 s4, Runner._save_calculations s3 = (r4, s4) ->
                        launched (omap Runner.command_of tools) s s4 /\
                        (forall t, In t tools -> Runner.command_of t = None ->
                                   printed ("Unknown analysis tool: " +:+ t) s s4)) as Hend.
  { intros r4 s4 Hsave.
    assert (launched [] s2 s4) as Hl24.
    { apply launched_silent. eapply runs_trans; [apply runs_upd | eapply save_runs, Hsave]. }
    split.
    - rewrite <- (app_nil_r (omap Runner.command_of tools)).
      eapply launched_trans; [| exact Hl24].
      change (omap Runner.command_of tools) with ([] ++ omap Runner.command_of tools).
      eapply launched_trans; [apply launched_silent, Hr0 | exact Hl].
    - intros t Hin Hnone. eapply printed_later; [| exact Hl24].
      eapply printed_earlier; [apply launched_silent, Hr0 | now apply Hp]. }
  assert (forall t, In t (dict_keys results)
                    <-> In t tools /\ Reading.known_tool t = true) as Hmem.
  { intros t. rewrite Hk, fold_add_key_In, filter_In. cbn [dict_keys map In]. tauto. }
  assert (spawned evs = omap Runner.command_of tools /\
          (forall t, In t tools -> Reading.known_tool t = false ->
                     In (EvPrint ("Unknown analysis tool: " +:+ t)) evs) /\
          match r with
          | Ok results =>
              dict_keys results = Reading.tool_keys tools /\
              (forall t, In t (dict_keys results)
                         <-> In t tools /\ Reading.known_tool t = true)
          | Raise _ => save_ok s' = false
          end) as (Hsp & Hpr & Hres).
  { destruct (Runner._save_calculations s3) as [[[]|e] s4] eqn:Hsave.
    - rewrite (bind_ok _ _ _ _ _ Hsave) in Hrun. unfold ret in Hrun.
      inversion Hrun; subst r s'. clear Hrun.
      destruct (Hend _ _ eq_refl) as (Hl4 & Hp4).
      split; [eapply launched_unique; eassumption|].
      split; [| split; [exact Hk | exact Hmem]].
      intros t Hin Hno. eapply printed_unique; [apply Hp4; [exact Hin|] | exact Ht].
      unfold Reading.known_tool in Hno. now destruct (Runner.command_of t).
    - rewrite (bind_raised _ _ _ _ _ Hsave) in Hrun.
      inversion Hrun; subst r s'. clear Hrun.
      destruct (Hend _ _ eq_refl) as (Hl4 & Hp4).
      split; [eapply launched_unique; eassumption|].
      split; [| apply (save_raises_again _ s4 s4 e Hsave); reflexivity].
      intros t Hin Hno. eapply printed_unique; [apply Hp4; [exact Hin|] | exact Ht].
      unfold Reading.known_tool in Hno. now destruct (Runner.command_of t). }
  split; [exact Hsp|]. split; [exact Hpr|]. split; [exact Hres|].
  intros ->. split; [rewrite Hsp; vm_compute; reflexivity|].
  destruct r as [results'|e]; [| exact I].
  destruct Hres as (Hk' & _). rewrite Hk'. vm_compute. reflexivity.
Qed.

Lemma run_analysis_tools_witness :
  let s := Demo.finished_state Demo.quantics_installed Demo.ho_inp in
  let run := Runner.run_analysis 0%nat Demo.three_tools s in
  let evs := skipn (length (trace (Runner.world s))) (trace (Runner.world (snd run))) in
  fst run = Ok [("rdcheck etot", "table"); ("rdcheck spop", "table")] /\
  spawned evs = [["rdcheck"; "etot"]; ["rdcheck"; "spop"]] /\
  In (EvPrint "Unknown analysis tool: nonexistent_tool") evs.
Proof.
  intros s run evs.
  assert (Runner.status (Runner.deref s 0%nat) = "completed") as H1
      by (vm_compute; reflexivity).
  assert (Runner.analysis_output_dir (Runner.deref s 0%nat) s = (Ok (Demo.ho_wd // "ho"), s))
    as H2 by (vm_compute; reflexivity).
  assert (path_exists (Runner.world s) (Demo.ho_wd // "ho") = true) as H3
      by (vm_compute; reflexivity).
  assert (Runner.run_analysis 0%nat Demo.three_tools s
          = (Ok [("rdcheck etot", "table"); ("rdcheck spop", "table")], snd run)) as H4
      by (vm_compute; reflexivity).
  assert (trace (Runner.world (snd run)) = trace (Runner.world s) ++ evs) as H5
      by (vm_compute; reflexivity).
  pose proof (run_analysis_tools 0%nat Demo.three_tools s s (snd run) (Demo.ho_wd // "ho")
                _ evs H1 H2 H3 H4 H5) as (_ & Hpr & _ & Hinst).
  split; [vm_compute; reflexivity|].
  split; [exact (proj1 (Hinst eq_refl))|].
  apply (Hpr "nonexistent_tool"); [right; now left | vm_compute; reflexivity].
Defined.

(** C5, the claim as stated fails.  [quantics] ended with exit code 0
    and left no output directory: the calculation is completed, and
    [run_analysis] on the three tools returns the empty mapping without
    starting any of them. *)
Lemma analysis_without_output_directory :
  let s := Demo.finished_state Demo.quantics_silent Demo.ho_inp in
  let run := Runner.run_analysis 0%nat Demo.three_tools s in
  Runner.status (Runner.deref s 0%nat) = "completed" /\
  fst run = Ok [] /\
  trace (Runner.world (snd run))
  = trace (Runner.world s)
    ++ [EvPrint ("Output directory does not exist: " +:+ str (Demo.ho_wd // "ho"))].
Proof.
  split; [vm_compute; reflexivity|].
  split; vm_compute; reflexivity.
Qed.

(** * Further properties of the local runner *)

(** ** The status after a run *)

(** Whatever happens in [run_calculation], the calculation ends in one
    of three ways: the call returned [false] early and the calculation is
    as it was; the call returned [true] and the status is [completed]; the
    status is [failed] and the call did not return [true].  A calculation
    that was not running is never left with the status [running], and
    [true] is returned only for a calculation that is [completed]. *)
Theorem run_status_transitions (calc : Runner.loc) (exe : string) (s s' : Runner.State)
        (r : result bool) :
  Runner.run_calculation calc exe s = (r, s') ->
  ((r = Ok false /\ Runner.deref s' calc = Runner.deref s calc) \/
   (r = Ok true /\ Runner.status (Runner.deref s' calc) = "completed") \/
   (r <> Ok true /\ Runner.status (Runner.deref s' calc) = "failed")) /\
  (Runner.status (Runner.deref s calc) <> "running" ->
   Runner.status (Runner.deref s' calc) <> "running") /\
  (r = Ok true -> Runner.status (Runner.deref s' calc) = "completed").
Proof.
  intros Hrun.
  assert ((r = Ok false /\ Runner.deref s' calc = Runner.deref s calc) \/
          (r = Ok true /\ Runner.status (Runner.deref s' calc) = "completed") \/
          (r <> Ok true /\ Runner.status (Runner.deref s' calc) = "failed")) as Hcases.
  { unfold Runner.run_calculation in Hrun.
    rewrite (bind_ok _ _ _ _ _ (load_eq _ _)) in Hrun.
    destruct (String.eqb (Runner.status (Runner.deref s calc)) "running").
    { rewrite (bind_ok _ _ _ _ _ (liftW_print _ _)) in Hrun. unfold ret in Hrun.
      inversion Hrun; subst r s'. left. split; [reflexivity | apply deref_set_world]. }
    destruct (prepare_returns calc s) as (b0 & s1 & Hp).
    rewrite (bind_ok _ _ _ _ _ Hp) in Hrun.
    destruct (prepare_same_objects calc s _ _ Hp) as (Hh1 & _).
    destruct b0; cbn [negb] in Hrun.
    2:{ unfold ret in Hrun. inversion Hrun; subst r s'. left.
        split; [reflexivity | now apply deref_same_heap]. }
    right.
    assert (forall e sH, Runner.run_handler calc e sH = (r, s') ->
                         r <> Ok true /\ Runner.status (Runner.deref s' calc) = "failed")
      as Hhandler.
    { intros e sH Hh. destruct (run_handler_spec _ _ _ _ _ Hh) as (HstH & _ & _ & _ & Hres).
      split; [| exact HstH].
      destruct (save_ok (marked_failed calc sH)).
      - subst r. discriminate.
      - destruct Hres as (e' & _ & ->). discriminate. }
    destruct (run_body_cases calc (Runner.deref s calc) exe s1)
      as [(e & sH & Hb & _) | (wd & s4 & p & s5 & Hwd & _ & Hh4 & Hsp & Hb)].
    { rewrite (try_raised _ _ _ _ _ Hb) in Hrun. right. eapply Hhandler, Hrun. }
    destruct (liftW_inv_ok _ _ _ _ Hsp) as (w5 & _ & ->).
    assert (Runner.working_directory (Runner.deref (set_world w5 s4) calc) = Some wd) as Hwd5.
    { rewrite deref_set_world, (deref_same_heap _ _ calc Hh4),
        (proj2 (started_fields calc s1)), (deref_same_heap _ _ calc Hh1). exact Hwd. }
    destruct (run_finish_cases calc (Runner.deref s calc) wd p _ Hwd5)
      as (sA & _ & HstA & _ & _ & Hcase).
    destruct Hcase as [(sF & Hsave & Hfin) | (e & sR & Hsave & Hfin)].
    - rewrite <- Hb in Hfin. rewrite (try_ok _ _ _ _ _ Hfin) in Hrun.
      inversion Hrun; subst r s'.
      destruct (save_same_objects _ _ _ Hsave) as (HhF & _).
      rewrite (deref_same_heap _ _ calc HhF), HstA. unfold exit_status.
      destruct (rc p =? 0); [left; now split | right; split; [discriminate | reflexivity]].
    - rewrite <- Hb in Hfin. rewrite (try_raised _ _ _ _ _ Hfin) in Hrun.
      right. eapply Hhandler, Hrun. }
  split; [exact Hcases|]. split.
  - intros Hnot. destruct Hcases as [(_ & ->) | [(_ & ->) | (_ & ->)]];
      [exact Hnot | discriminate | discriminate].
  - intros ->. destruct Hcases as [(H & _) | [(_ & H) | (H & _)]];
      [discriminate | exact H | now destruct H].
Qed.

(** ** What a run leaves alone *)

Lemma touches_only_refl (calc : Runner.loc) (s : Runner.State) : touches_only calc s s.
Proof. now repeat split. Qed.

Lemma touches_only_trans (calc : Runner.loc) (a b c : Runner.State) :
  touches_only calc a b -> touches_only calc b c -> touches_only calc a c.
Proof.
  intros (H1 & H2 & H3 & H4) (H5 & H6 & H7 & H8).
  split; [congruence|]. split; [congruence|]. split; [| congruence].
  intros l Hl. now rewrite H7, H3.
Qed.

Lemma same_objects_touches (calc : Runner.loc) (s s' : Runner.State) :
  same_objects s s' -> touches_only calc s s'.
Proof.
  intros (Hh & Hs & Hn). split; [exact Hs|]. split; [exact Hn|].
  split; [intros l _; now rewrite Hh | now rewrite (deref_same_heap _ _ calc Hh)].
Qed.

Lemma update_touches (calc : Runner.loc) f :
  (forall c, identity (f c) = identity c) ->
  preserves (touches_only calc) (Runner.update calc f).
Proof.
  intros Hf s r s' H. rewrite update_eq in H. inversion H; subst.
  split; [reflexivity|]. split; [reflexivity|]. split.
  - intros l Hl. unfold upd. cbn [Runner.heap]. now rewrite lookup_insert_ne.
  - rewrite deref_upd_eq. apply Hf.
Qed.

Ltac touches_auto calc :=
  repeat first
    [ preserves_step (touches_only_refl calc) (touches_only_trans calc)
    | match goal with
      | |- preserves _ (Runner.load _) => apply (preserves_gets _ (touches_only_refl calc))
      | |- preserves _ (Runner.need_path ?o) => destruct o; cbn [Runner.need_path]
      | |- preserves _ (Runner.update _ _) => apply update_touches; intros []; reflexivity
      | |- preserves _ (Runner.liftW _) =>
          eapply preserves_weaken; [apply same_objects_touches | apply liftW_same_objects]
      | |- preserves _ Runner._save_calculations =>
          eapply preserves_weaken; [apply same_objects_touches | apply save_same_objects]
      | |- preserves _ (Runner.prepare_calculation _) =>
          eapply preserves_weaken; [apply same_objects_touches | apply prepare_same_objects]
      end ].

(** [run_calculation] assigns to the calculation it is given and to
    nothing else: the registry of the runner and every other calculation
    object are as before, and so are the name, the three input paths, the
    workflow type and the working directory of the calculation itself. *)
Theorem run_touches_only_its_calculation (calc : Runner.loc) (exe : string)
        (s s' : Runner.State) (r : result bool) :
  Runner.run_calculation calc exe s = (r, s') ->
  Runner.self s' = Runner.self s /\
  (forall l, l <> calc -> Runner.deref s' l = Runner.deref s l) /\
  Runner.name (Runner.deref s' calc) = Runner.name (Runner.deref s calc) /\
  Runner.inp_file (Runner.deref s' calc) = Runner.inp_file (Runner.deref s calc) /\
  Runner.op_file (Runner.deref s' calc) = Runner.op_file (Runner.deref s calc) /\
  Runner.db_folder (Runner.deref s' calc) = Runner.db_folder (Runner.deref s calc) /\
  Runner.workflow_type (Runner.deref s' calc) = Runner.workflow_type (Runner.deref s calc) /\
  Runner.working_directory (Runner.deref s' calc)
  = Runner.working_directory (Runner.deref s calc).
Proof.
  intros Hrun.
  assert (preserves (touches_only calc) (Runner.run_calculation calc exe)) as Hp.
  { unfold Runner.run_calculation, Runner.run_body, Runner.run_handler, Runner.run_finish,
      Runner._check_output_files.
    touches_auto calc. }
  destruct (Hp _ _ _ Hrun) as (Hself & _ & Hothers & Hid).
  split; [exact Hself|]. split.
  - intros l Hl. unfold Runner.deref. now rewrite (Hothers l Hl).
  - unfold identity in Hid. inversion Hid. now repeat split.
Qed.

(** ** Preparation *)

(** [prepare_calculation] never raises: every exception of a copy ends
    in the value [false], with the failure message printed last.  It
    assigns to no calculation object and not to the registry, and it
    starts no process. *)
Theorem prepare_never_raises (calc : Runner.loc) (s : Runner.State) :
  exists b s',
    Runner.prepare_calculation calc s = (Ok b, s') /\
    same_objects s s' /\
    runs silent s s' /\
    (b = false ->
     exists e, last (trace (Runner.world s'))
               = Some (EvPrint ("Failed to prepare calculation: " +:+ message e))).
Proof.
  destruct (prepare_returns calc s) as (b & s' & H).
  exists b, s'. split; [exact H|].
  split; [eapply prepare_same_objects, H|].
  split; [eapply prepare_runs, H|].
  intros ->. unfold Runner.prepare_calculation, try_except in H.
  match type of H with
  | match ?body s with _ => _ end = _ => destruct (body s) as [[a|e] s0] eqn:Hb
  end.
  - exfalso. inversion H; subst a s0. clear H.
    repeat match type of Hb with
           | bind _ _ _ = (Ok _, _) =>
               let a := fresh "a" in let s1 := fresh "s" in let H1 := fresh "H" in
               apply bind_inv_ok in Hb as (a & s1 & H1 & Hb)
           end.
    discriminate.
  - exists e. rewrite prepare_handler_false in H. inversion H; subst s'.
    cbn [Runner.world set_world emit_w trace]. apply last_snoc.
Qed.

(** ** Persisting *)

(** A registry write that returned has written the registry. *)
Lemma save_written (s s' : Runner.State) :
  Runner._save_calculations s = (Ok tt, s') ->
  read_content (Runner.world s') (Runner.config_file (Runner.self s))
  = Some (Json (PDict (registry_data s))) /\
  same_objects s s'.
Proof.
  intros H. split; [| eapply save_same_objects, H].
  rewrite save_eq in H. apply liftW_inv_ok in H as (w1 & Hd & ->).
  cbn [Runner.world set_world]. unfold json_dump_file in Hd.
  destruct (jsonable (PDict (registry_data s))).
  - eapply write_file_ok, Hd.
  - rewrite bind_eq in Hd. destruct (write_file _ Partial _) as [[[]|e] w2]; discriminate.
Qed.

Lemma registry_data_same (s s' : Runner.State) :
  Runner.self s' = Runner.self s -> Runner.heap s' = Runner.heap s ->
  registry_data s' = registry_data s.
Proof. unfold registry_data, Runner.deref. now intros -> ->. Qed.

(** ** Analysis: when nothing is run, what is recorded *)

Lemma analysis_output_dir_same_objects (c : Runner.QuanticsCalculation) :
  preserves same_objects (Runner.analysis_output_dir c).
Proof.
  unfold Runner.analysis_output_dir.
  destruct (dict_get "output_name" (Runner.results c)) as [v|];
    [destruct (py_truthy v); [destruct v|]|];
    destruct (Runner.working_directory c); cbn [Runner.need_path];
    repeat first
      [ preserves_step same_objects_refl same_objects_trans
      | apply liftW_same_objects ].
Qed.

(** [run_analysis] on a calculation that is not completed, or whose
    output directory does not exist, returns the empty mapping: it starts
    no tool, assigns to no calculation (an earlier [analysis] entry
    stays) and does not write the registry. *)
Theorem analysis_refused (calc : Runner.loc) (tools : list string) (s s' : Runner.State)
        (r : result (list (string * string))) :
  Runner.run_analysis calc tools s = (r, s') ->
  (Runner.status (Runner.deref s calc) <> "completed" \/
   exists output_dir s0,
     Runner.analysis_output_dir (Runner.deref s calc) s = (Ok output_dir, s0) /\
     path_exists (Runner.world s0) output_dir = false) ->
  r = Ok [] /\ same_objects s s' /\ runs silent s s' /\
  Forall (fun e => exists msg, e = EvPrint msg)
         (skipn (length (trace (Runner.world s))) (trace (Runner.world s'))).
Proof.
  intros Hrun Hwhy.
  assert (r = Ok [] /\ same_objects s s' /\ runs (fun e => exists msg, e = EvPrint msg) s s')
    as (Hr & Ho & Hruns).
  { unfold Runner.run_analysis in Hrun.
    rewrite (bind_ok _ _ _ _ _ (load_eq _ _)) in Hrun.
    destruct (String.eqb (Runner.status (Runner.deref s calc)) "completed") eqn:Hst;
      cbn [negb] in Hrun.
    2:{ rewrite (bind_ok _ _ _ _ _ (liftW_print _ _)) in Hrun. unfold ret in Hrun.
        inversion Hrun; subst r s'. split; [reflexivity|].
        split; [apply same_objects_set_world | apply runs_print; eauto]. }
    destruct Hwhy as [Hne | (dir & s0 & Hdir & Hex)].
    { apply String.eqb_eq in Hst. contradiction. }
    rewrite (bind_ok _ _ _ _ _ Hdir) in Hrun.
    rewrite (bind_ok (gets Runner.world) _ s0 s0 (Runner.world s0) eq_refl), Hex in Hrun.
    cbn [negb] in Hrun.
    rewrite (bind_ok _ _ _ _ _ (liftW_print _ _)) in Hrun. unfold ret in Hrun.
    inversion Hrun; subst r s'. split; [reflexivity|]. split.
    - eapply same_objects_trans; [eapply analysis_output_dir_same_objects, Hdir|].
      apply same_objects_set_world.
    - eapply runs_trans; [| apply runs_print; eauto].
      assert (preserves (runs (fun e => exists msg, e = EvPrint msg))
                        (Runner.analysis_output_dir (Runner.deref s calc))) as Hp.
      { unfold Runner.analysis_output_dir.
        destruct (dict_get "output_name" (Runner.results (Runner.deref s calc))) as [v|];
          [destruct (py_truthy v); [destruct v|]|];
          destruct (Runner.working_directory (Runner.deref s calc)); cbn [Runner.need_path];
          repeat first
            [ preserves_step (runs_refl (fun e => exists msg, e = EvPrint msg))
                             (runs_trans (fun e => exists msg, e = EvPrint msg))
            | match goal with
              | |- preserves (runs _) (Runner.liftW _) => apply liftW_runs
              | |- preserves (steps _) (Runner._get_output_name_from_inp _) =>
                  unfold Runner._get_output_name_from_inp
              | |- preserves (steps ?Q) _ =>
                  first [ preserves_step (steps_refl Q) (steps_trans Q)
                        | apply read_text_steps
                        | apply print_steps; eauto ]
              end ]. }
      eapply Hp, Hdir. }
  split; [exact Hr|]. split; [exact Ho|]. split.
  - eapply runs_weaken; [| exact Hruns]. intros e (msg & ->). exact I.
  - destruct (runs_trace _ _ _ Hruns) as (evs & Ht & HQ).
    rewrite Ht, drop_app_length. exact HQ.
Qed.

Lemma analysis_refused_witness :
  let s := Demo.created_state Demo.quantics_installed Demo.ho_inp in
  fst (Runner.run_analysis 0%nat Demo.three_tools s) = Ok [].
Proof.
  intros s.
  assert (Runner.status (Runner.deref s 0%nat) <> "completed") as H1
      by (vm_compute; discriminate).
  exact (proj1 (analysis_refused 0%nat Demo.three_tools s _ _
                  (surjective_pairing _) (or_introl H1))).
Defined.

Lemma run_status_transitions_witness :
  let s := Demo.created_state Demo.quantics_installed Demo.ho_inp in
  let s' := Demo.finished_state Demo.quantics_installed Demo.ho_inp in
  Runner.status (Runner.deref s' 0%nat) = "completed".
Proof.
  intros s s'.
  assert (Runner.run_calculation 0%nat "quantics" s = (Ok true, s')) as H1
      by (vm_compute; reflexivity).
  exact (proj2 (proj2 (run_status_transitions 0%nat "quantics" s s' (Ok true) H1)) eq_refl).
Defined.

Lemma run_touches_only_its_calculation_witness :
  let s := Demo.created_state Demo.quantics_installed Demo.ho_inp in
  let s' := Demo.finished_state Demo.quantics_installed Demo.ho_inp in
  Runner.self s' = Runner.self s /\
  Runner.working_directory (Runner.deref s' 0%nat) = Some Demo.ho_wd.
Proof.
  intros s s'.
  assert (Runner.run_calculation 0%nat "quantics" s = (Ok true, s')) as H1
      by (vm_compute; reflexivity).
  pose proof (run_touches_only_its_calculation 0%nat "quantics" s s' (Ok true) H1)
    as (Hself & _ & _ & _ & _ & _ & _ & Hwd).
  split; [exact Hself|]. rewrite Hwd. vm_compute. reflexivity.
Defined.

(** ** What the analysis records *)

(** When [run_analysis] returns a mapping after its loop (the
    calculation is completed, its output directory exists), that mapping
    is stored under [analysis] in the results of the calculation, in
    place of an earlier one, and the registry file holds the registry with
    it.  Nothing else of the calculation changes: it is still completed;
    no other calculation changes. *)
Theorem run_analysis_records (calc : Runner.loc) (tools : list string)
        (s s0 s' : Runner.State) (output_dir : Path) (mapping : list (string * string)) :
  Runner.status (Runner.deref s calc) = "completed" ->
  Runner.analysis_output_dir (Runner.deref s calc) s = (Ok output_dir, s0) ->
  path_exists (Runner.world s0) output_dir = true ->
  Runner.run_analysis calc tools s = (Ok mapping, s') ->
  let stored := PDict (map (fun kv => (fst kv, PStr (snd kv))) mapping) in
  Runner.deref s' calc = Runner.set_result "analysis" stored (Runner.deref s calc) /\
  dict_get "analysis" (Runner.results (Runner.deref s' calc)) = Some stored /\
  Runner.status (Runner.deref s' calc) = "completed" /\
  (forall l, l <> calc -> Runner.deref s' l = Runner.deref s l) /\
  Runner.self s' = Runner.self s /\
  read_content (Runner.world s') (Runner.config_file (Runner.self s'))
  = Some (Json (PDict (registry_data s'))).
Proof.
  intros Hst Hdir Hex Hrun stored.
  unfold Runner.run_analysis in Hrun.
  rewrite (bind_ok _ _ _ _ _ (load_eq _ _)), Hst in Hrun.
  change (negb (String.eqb "completed" "completed")) with false in Hrun. cbv iota in Hrun.
  rewrite (bind_ok _ _ _ _ _ Hdir) in Hrun.
  rewrite (bind_ok (gets Runner.world) _ s0 s0 (Runner.world s0) eq_refl), Hex in Hrun.
  cbn [negb] in Hrun.
  destruct (analysis_loop_spec output_dir tools [] s0)
    as (results & s2 & Hloop & _ & _ & _ & Ho2).
  assert (Runner.analysis_loop output_dir tools s0 = (Ok results, s2)) as Hloop'
      by (unfold Runner.analysis_loop; now rewrite Hloop).
  rewrite (bind_ok _ _ _ _ _ Hloop') in Hrun.
  rewrite (bind_ok _ _ _ _ _ (update_eq _ _ _)) in Hrun.
  match type of Hrun with
  | bind _ _ ?st = _ => set (s3 := st) in *
  end.
  destruct (Runner._save_calculations s3) as [[[]|e] s4] eqn:Hsave.
  2:{ rewrite (bind_raised _ _ _ _ _ Hsave) in Hrun. discriminate. }
  rewrite (bind_ok _ _ _ _ _ Hsave) in Hrun. unfold ret in Hrun.
  inversion Hrun; subst mapping s'. clear Hrun.
  destruct (save_written _ _ Hsave) as (Hfile & Hh4 & Hs4 & _).
  pose proof (analysis_output_dir_same_objects _ _ _ _ Hdir) as Ho0.
  pose proof (same_objects_trans _ _ _ Ho0 Ho2) as (Hh02 & Hs02 & _).
  assert (Runner.deref s4 calc
          = Runner.set_result "analysis" stored (Runner.deref s calc)) as Hcalc.
  { rewrite (deref_same_heap _ _ calc Hh4). unfold s3. rewrite deref_upd_eq.
    now rewrite (deref_same_heap _ _ calc Hh02). }
  split; [exact Hcalc|]. split.
  { rewrite Hcalc. cbn [Runner.set_result Runner.results]. apply dict_get_set_eq. }
  split; [rewrite Hcalc; exact Hst|]. split.
  { intros l Hl. rewrite (deref_same_heap _ _ l Hh4). unfold s3.
    rewrite deref_upd_ne by congruence. now apply deref_same_heap. }
  split; [rewrite Hs4; exact Hs02|].
  rewrite Hs4. change (Runner.self s3) with (Runner.self s2).
  change (Runner.self s2) with (Runner.self s3). rewrite Hfile.
  now rewrite (registry_data_same s3 s4 Hs4 Hh4).
Qed.

Lemma run_analysis_records_witness :
  let s := Demo.finished_state Demo.quantics_installed Demo.ho_inp in
  let s' := snd (Runner.run_analysis 0%nat Demo.three_tools s) in
  dict_get "analysis" (Runner.results (Runner.deref s' 0%nat))
  = Some (PDict [("rdcheck etot", PStr "table"); ("rdcheck spop", PStr "table")]).
Proof.
  intros s s'.
  assert (Runner.status (Runner.deref s 0%nat) = "completed") as H1
      by (vm_compute; reflexivity).
  assert (Runner.analysis_output_dir (Runner.deref s 0%nat) s = (Ok (Demo.ho_wd // "ho"), s))
    as H2 by (vm_compute; reflexivity).
  assert (path_exists (Runner.world s) (Demo.ho_wd // "ho") = true) as H3
      by (vm_compute; reflexivity).
  assert (Runner.run_analysis 0%nat Demo.three_tools s
          = (Ok [("rdcheck etot", "table"); ("rdcheck spop", "table")], s')) as H4
      by (vm_compute; reflexivity).
  exact (proj1 (proj2 (run_analysis_records 0%nat Demo.three_tools s s s'
                         (Demo.ho_wd // "ho") _ H1 H2 H3 H4))).
Defined.

(** ** The tools on offer *)

(** Every tool that the two workflow tables offer, for any workflow
    type, is a tool that [run_analysis] recognises: no tool picked from
    the tables is skipped as unknown. *)
Theorem offered_tools_are_recognised (workflow_type tool : string) :
  (In tool (Workflow._get_analysis_tools workflow_type) ->
   Reading.known_tool tool = true) /\
  (In tool (Workflow.local_tools workflow_type) -> Reading.known_tool tool = true).
Proof.
  assert (forall l, In tool l ->
                    Forall (fun t => Reading.known_tool t = true) l ->
                    Reading.known_tool tool = true) as Hall.
  { intros l Hin Hl. rewrite Stdlib.Lists.List.Forall_forall in Hl. now apply Hl. }
  split; intros Hin; apply (Hall _ Hin).
  - unfold Workflow._get_analysis_tools, Workflow.analysis_map. cbn [dict_get].
    destruct (String.eqb workflow_type "MCTDH");
      [repeat constructor; vm_compute; reflexivity|].
    destruct (String.eqb workflow_type "vMCG");
      [repeat constructor; vm_compute; reflexivity|].
    destruct (String.eqb workflow_type "DD-vMCG");
      [repeat constructor; vm_compute; reflexivity | constructor].
  - unfold Workflow.local_tools, Workflow.analysis_items, Workflow.workflow_analysis_map.
    cbn [dict_get].
    destruct (String.eqb workflow_type "MCTDH");
      [vm_compute; repeat constructor|].
    destruct (String.eqb workflow_type "vMCG");
      [vm_compute; repeat constructor|].
    destruct (String.eqb workflow_type "DD-vMCG");
      [vm_compute; repeat constructor | constructor].
Qed.

Lemma offered_tools_are_recognised_witness :
  Reading.known_tool "rdgpop" = true /\ Reading.known_tool "ddtraj" = true.
Proof.
  split.
  - apply (proj1 (offered_tools_are_recognised "MCTDH" "rdgpop")).
    vm_compute. tauto.
  - apply (proj2 (offered_tools_are_recognised "DD-vMCG" "ddtraj")).
    vm_compute. tauto.
Defined.

(** ** Creating a calculation *)

(** *** Resolved paths *)

Lemma collapse_plain (ps acc : list string) :
  Forall (fun x => String.eqb x ".." = false) ps ->
  collapse acc ps = rev acc ++ ps.
Proof.
  revert acc. induction ps as [|x ps IH]; intros acc H; cbn [collapse].
  - now rewrite app_nil_r.
  - inversion H as [|? ? Hx Hps]; subst. rewrite Hx, (IH _ Hps).
    cbn [rev]. now rewrite <- app_assoc.
Qed.

Lemma collapse_is_plain (ps acc : list string) :
  Forall (fun x => String.eqb x ".." = false) acc ->
  Forall (fun x => String.eqb x ".." = false) (collapse acc ps).
Proof.
  revert acc. induction ps as [|x ps IH]; intros acc H; cbn [collapse].
  - now apply Forall_rev.
  - destruct (String.eqb x "..") eqn:E; apply IH.
    + destruct acc; [constructor | now inversion H].
    + now constructor.
Qed.

Lemma collapse_idem (ps : list string) : collapse [] (collapse [] ps) = collapse [] ps.
Proof. apply (collapse_plain _ []), collapse_is_plain. constructor. Qed.

(** Resolving a resolved path changes nothing. *)
Lemma resolve_idem (cw p : Path) :
  anchor_of cw <> Rel -> resolve cw (resolve cw p) = resolve cw p.
Proof.
  intros Habs. unfold resolve.
  destruct (anchor_of p) eqn:Ea; cbn [anchor_of parts].
  - destruct (anchor_of cw) eqn:Ec; [contradiction | |]; now rewrite collapse_idem.
  - now rewrite collapse_idem.
  - now rewrite collapse_idem.
Qed.

(** *** Directories and files *)

Lemma mkdir_is_dir (p : Path) (w w' : World) :
  cwd_absolute w -> mkdir p w = (Ok tt, w') -> is_dir w' p = true /\ cwd w' = cwd w.
Proof.
  intros Habs. unfold mkdir. rewrite bind_eq. unfold emit, modify. cbv iota beta.
  rewrite bind_eq. unfold get. cbv iota beta.
  unfold mkdir_resolved, is_dir, lookup_node, key.
  change (fs (emit_w (EvMkdir p) w)) with (fs w).
  change (cwd (emit_w (EvMkdir p) w)) with (cwd w).
  change (disk_full (emit_w (EvMkdir p) w)) with (disk_full w).
  destruct (fs w !! str (resolve (cwd w) p)) as [[c|]|] eqn:E.
  - discriminate.
  - intros H. inversion H; subst. cbn [fs cwd emit_w]. now rewrite E.
  - destruct (negb _); [discriminate|].
    destruct (disk_full w); [discriminate|].
    intros H. inversion H; subst. cbn [fs cwd with_fs emit_w].
    now rewrite lookup_insert_eq.
Qed.

(** Writing a file leaves every directory a directory. *)
Lemma write_file_keeps_dir (p q : Path) (c : content) (w w' : World) :
  cwd_absolute w ->
  write_file p c w = (Ok tt, w') -> is_dir w q = true -> is_dir w' q = true.
Proof.
  intros Habs. unfold write_file, emit, modify. rewrite bind_eq. intros H Hd.
  pose proof H as H'. apply put_file_ok in H'. subst w'.
  unfold put_file in H.
  destruct (negb (is_dir _ (parent _))); [discriminate|].
  destruct (is_dir (emit_w (EvWrite p) w) (resolve (cwd (emit_w (EvWrite p) w)) p)) eqn:Hp;
    [discriminate|].
  unfold is_dir, lookup_node, key in *. cbn [fs cwd with_fs emit_w] in *.
  rewrite (resolve_idem _ _ Habs) in Hp.
  destruct (decide (str (resolve (cwd w) p) = str (resolve (cwd w) q))) as [Heq|Hne].
  - rewrite <- Heq in Hd. rewrite Hp in Hd. discriminate.
  - now rewrite lookup_insert_ne.
Qed.

Lemma save_keeps_dir (q : Path) (s s' : Runner.State) :
  cwd_absolute (Runner.world s) ->
  Runner._save_calculations s = (Ok tt, s') ->
  is_dir (Runner.world s) q = true -> is_dir (Runner.world s') q = true.
Proof.
  intros Habs H Hd. rewrite save_eq in H. apply liftW_inv_ok in H as (w1 & Hw & ->).
  cbn [Runner.world set_world]. unfold json_dump_file in Hw.
  destruct (jsonable _).
  - eapply write_file_keeps_dir; eassumption.
  - rewrite bind_eq in Hw. destruct (write_file _ Partial _) as [[[]|e] w2]; discriminate.
Qed.

(** *** The registry as a dictionary *)

Lemma dict_set_values_fresh {V} (k : string) (v : V) (d : list (string * V)) :
  dict_mem k d = false -> map snd (dict_set k v d) = map snd d ++ [v].
Proof. intros H. rewrite (dict_set_fresh k v d H), map_app. reflexivity. Qed.

(** [create_calculation] that returns has made the calculation it
    returns: a new object with the given name, the two input paths
    resolved, the workflow type, the DB folder only for DD-vMCG, the status
    [created], no times and no results, and a working directory named
    after the name and the time of creation, which exists.  The name was
    free; the registry now maps it to the object, after the calculations it
    held, with every other name as before; no other object has changed;
    the registry file holds the registry. *)
Theorem create_calculation_registers (name : string) (inp_file op_file : Path)
        (workflow_type : string) (db_folder : option Path) (s s' : Runner.State)
        (calc : Runner.loc) :
  cwd_absolute (Runner.world s) ->
  Runner.create_calculation name inp_file op_file workflow_type db_folder s = (Ok calc, s') ->
  dict_mem name (Runner.calculations (Runner.self s)) = false /\
  calc = Runner.next_loc s /\
  Runner.deref s' calc = created_record name inp_file op_file workflow_type db_folder s /\
  fst (Runner.get_calculation name s') = Ok (Some calc) /\
  (forall other, other <> name ->
     fst (Runner.get_calculation other s') = fst (Runner.get_calculation other s)) /\
  fst (Runner.list_calculations s')
  = Ok (map snd (Runner.calculations (Runner.self s)) ++ [calc]) /\
  (forall l, l <> calc -> Runner.heap s' !! l = Runner.heap s !! l) /\
  (exists wd, Runner.working_directory (Runner.deref s' calc) = Some wd /\
              is_dir (Runner.world s') wd = true) /\
  read_content (Runner.world s') (Runner.config_file (Runner.self s'))
  = Some (Json (PDict (registry_data s'))).
Proof.
  intros Habs H. unfold Runner.create_calculation in H.
  rewrite bind_eq in H. unfold get in H. cbv iota beta in H.
  destruct (dict_mem name (Runner.calculations (Runner.self s))) eqn:Hfree; [discriminate|].
  split; [reflexivity|].
  rewrite bind_eq in H. unfold Runner.alloc in H. cbv iota beta in H.
  set (calc0 := Runner.next_loc s) in *.
  set (s1 := Runner.mkState (Runner.self s) (<[calc0 := Runner.new_calc name]> (Runner.heap s))
                            (S calc0) (Runner.world s)) in *.
  rewrite (bind_ok _ _ _ _ _ (update_eq _ _ _)) in H.
  rewrite (bind_ok _ _ _ _ _ (update_eq _ _ _)) in H.
  rewrite (bind_ok _ _ _ _ _ (update_eq _ _ _)) in H.
  set (s2 := upd calc0 (Runner.set_workflow_type workflow_type)
               (upd calc0 (Runner.set_op_file (Some (resolve (cwd (Runner.world s)) op_file)))
                  (upd calc0 (Runner.set_inp_file
                                (Some (resolve (cwd (Runner.world s)) inp_file))) s1))) in *.
  set (dbv := match db_folder with
              | Some d => if String.eqb workflow_type "DD-vMCG"
                          then Some (resolve (cwd (Runner.world s)) d) else None
              | None => None
              end).
  assert (exists s3,
             (match db_folder with
              | Some d =>
                  if String.eqb workflow_type "DD-vMCG"
                  then Runner.update calc0
                         (Runner.set_db_folder (Some (resolve (cwd (Runner.world s)) d)))
                  else ret tt
              | None => ret tt
              end) s2 = (Ok tt, s3) /\
             Runner.world s3 = Runner.world s /\ Runner.self s3 = Runner.self s /\
             Runner.deref s3 calc0
             = Runner.mkCalc name (Some (resolve (cwd (Runner.world s)) inp_file))
                 (Some (resolve (cwd (Runner.world s)) op_file)) dbv workflow_type
                 None "created" None None [] /\
             (forall l, l <> calc0 -> Runner.heap s3 !! l = Runner.heap s !! l))
    as (s3 & Hdb & Hw3 & Hself3 & Hc3 & Hothers3).
  { assert (Runner.deref s2 calc0
            = Runner.mkCalc name (Some (resolve (cwd (Runner.world s)) inp_file))
                (Some (resolve (cwd (Runner.world s)) op_file)) None workflow_type
                None "created" None None []) as Hc2.
    { unfold s2. rewrite !deref_upd_eq. unfold Runner.deref, s1. cbn [Runner.heap].
      now rewrite lookup_insert_eq. }
    assert (forall l, l <> calc0 -> Runner.heap s2 !! l = Runner.heap s !! l) as Ho2.
    { intros l Hl. unfold s2, upd, s1. cbn [Runner.heap].
      now rewrite !lookup_insert_ne by congruence. }
    unfold dbv. destruct db_folder as [d|];
      [destruct (String.eqb workflow_type "DD-vMCG")|].
    - eexists. split; [apply update_eq|]. split; [reflexivity|]. split; [reflexivity|].
      split; [rewrite deref_upd_eq, Hc2; reflexivity|].
      intros l Hl. unfold upd. cbn [Runner.heap]. rewrite lookup_insert_ne by congruence.
      now apply Ho2.
    - exists s2. now repeat split.
    - exists s2. now repeat split. }
  rewrite (bind_ok _ _ _ _ _ Hdb) in H.
  rewrite (bind_ok _ _ _ _ _ (liftW_now _)) in H. rewrite Hw3 in H.
  set (wd := Runner.runs_directory (Runner.self s)
             // (name +:+ "_" +:+ strftime_stamp (clock (Runner.world s)))) in *.
  rewrite (bind_ok _ _ _ _ _ (update_eq _ _ _)) in H.
  set (s4 := upd calc0 (Runner.set_working_directory (Some wd)) s3) in *.
  destruct (Runner.liftW (mkdir wd) s4) as [[[]|e] s5] eqn:Hmk.
  2:{ rewrite (bind_raised _ _ _ _ _ Hmk) in H. discriminate. }
  rewrite (bind_ok _ _ _ _ _ Hmk) in H.
  apply liftW_inv_ok in Hmk as (w5 & Hmk & ->).
  change (Runner.world s4) with (Runner.world s3) in Hmk. rewrite Hw3 in Hmk.
  destruct (mkdir_is_dir wd _ _ Habs Hmk) as (Hdir5 & Hcwd5).
  rewrite bind_eq in H. unfold Runner.register, modify in H. cbv iota beta in H.
  match type of H with
  | bind _ _ ?st = _ => set (s6 := st) in *
  end.
  destruct (Runner._save_calculations s6) as [[[]|e] s7] eqn:Hsave.
  2:{ rewrite (bind_raised _ _ _ _ _ Hsave) in H. discriminate. }
  rewrite (bind_ok _ _ _ _ _ Hsave) in H. unfold ret in H.
  inversion H; subst calc s'. clear H.
  destruct (save_written _ _ Hsave) as (Hfile & Hh7 & Hs7 & _).
  assert (Runner.deref s6 calc0
          = created_record name inp_file op_file workflow_type db_folder s) as Hc6.
  { unfold s6, Runner.deref. cbn [Runner.heap set_world].
    change (default (Runner.new_calc "") (Runner.heap s4 !! calc0))
      with (Runner.deref s4 calc0).
    unfold s4. rewrite deref_upd_eq, Hc3. reflexivity. }
  assert (Runner.calculations (Runner.self s6)
          = dict_set name calc0 (Runner.calculations (Runner.self s))) as Hreg.
  { unfold s6. cbn [Runner.self Runner.calculations set_world].
    change (Runner.self s4) with (Runner.self s3). now rewrite Hself3. }
  split; [reflexivity|].
  split; [rewrite (deref_same_heap _ _ calc0 Hh7); exact Hc6|].
  split.
  { unfold Runner.get_calculation, gets. cbn [fst]. rewrite Hs7, Hreg.
    now rewrite dict_get_set_eq. }
  split.
  { intros other Hne. unfold Runner.get_calculation, gets. cbn [fst]. rewrite Hs7, Hreg.
    now rewrite dict_get_set_ne. }
  split.
  { unfold Runner.list_calculations, gets. cbn [fst]. rewrite Hs7, Hreg.
    now rewrite dict_set_values_fresh. }
  split.
  { intros l Hl. rewrite Hh7. unfold s6. cbn [Runner.heap set_world].
    unfold s4, upd. cbn [Runner.heap]. rewrite lookup_insert_ne by congruence.
    now apply Hothers3. }
  split.
  { exists wd. split.
    - rewrite (deref_same_heap _ _ calc0 Hh7), Hc6. reflexivity.
    - eapply save_keeps_dir; [| exact Hsave |].
      + unfold cwd_absolute, s6. cbn [Runner.world set_world]. rewrite Hcwd5. exact Habs.
      + exact Hdir5. }
  rewrite Hs7, Hfile. now rewrite (registry_data_same s6 s7 Hs7 Hh7).
Qed.

Lemma create_calculation_registers_witness :
  let s := Demo.fresh_state Demo.quantics_installed Demo.ho_inp in
  let s' := Demo.created_state Demo.quantics_installed Demo.ho_inp in
  fst (Runner.get_calculation "ho" s') = Ok (Some 0%nat) /\
  is_dir (Runner.world s') Demo.ho_wd = true.
Proof.
  intros s s'.
  assert (cwd_absolute (Runner.world s)) as H1 by (vm_compute; discriminate).
  assert (Runner.create_calculation "ho" (Path_of_str "/data/ho.inp")
            (Path_of_str "/data/ho.op") "MCTDH" None s = (Ok 0%nat, s')) as H2
      by (vm_compute; reflexivity).
  pose proof (create_calculation_registers "ho" (Path_of_str "/data/ho.inp")
                (Path_of_str "/data/ho.op") "MCTDH" None s s' 0%nat H1 H2)
    as (_ & _ & _ & Hget & _).
  split; [exact Hget | vm_compute; reflexivity].
Defined.

(** ** Loading the registry *)

(** A record read back from the entry written for it. *)
Lemma record_read_back (c : Runner.QuanticsCalculation) :
  Reading.calc_ok c = true ->
  Runner.rbind (Runner.as_dict (PDict (Runner.to_dict c))) Runner.from_dict = Ok c.
Proof.
  intros H. cbn [Runner.as_dict Runner.rbind].
  unfold Reading.calc_ok in H.
  apply andb_prop in H as [H Ht1]. apply andb_prop in H as [H Ht0].
  apply andb_prop in H as [H Hwd]. apply andb_prop in H as [H Hdb].
  apply andb_prop in H as [Hinp Hop].
  destruct c as [nm inp op db wf wd st t0 t1 res].
  cbn [Runner.inp_file Runner.op_file Runner.db_folder Runner.working_directory
       Runner.start_time Runner.end_time] in *.
  unfold Runner.from_dict, Runner.to_dict, Runner.item.
  cbn [Runner.name Runner.inp_file Runner.op_file Runner.db_folder
       Runner.workflow_type Runner.working_directory Runner.status
       Runner.start_time Runner.end_time Runner.results].
  repeat match goal with
         | |- context [dict_get ?k ?d] =>
             let v := eval cbv [dict_get String.eqb Ascii.eqb Bool.eqb] in (dict_get k d) in
             change (dict_get k d) with v
         end.
  cbn [Runner.rbind Runner.as_str Runner.as_dict].
  rewrite (opt_path_opt_val inp Hinp), (opt_path_opt_val op Hop),
    (opt_path_opt_val db Hdb), (opt_path_opt_val wd Hwd),
    (opt_datetime_opt_val t0 Ht0), (opt_datetime_opt_val t1 Ht1).
  reflexivity.
Qed.

Lemma registry_data_entries (s : Runner.State) :
  Reading.nodup_keys (Runner.calculations (Runner.self s)) = true ->
  registry_data s = map (entry_of s) (Runner.calculations (Runner.self s)).
Proof.
  intros Hnd. unfold registry_data.
  rewrite (fold_dict_set_fresh
             (fun nc => PDict (Runner.to_dict (Runner.deref s (snd nc))))
             (Runner.calculations (Runner.self s)) [] Hnd) by reflexivity.
  reflexivity.
Qed.

Lemma dict_mem_map_fst {V W} (k : string) (f : string * V -> W) (d : list (string * V)) :
  dict_mem k (map (fun kv => (fst kv, f kv)) d) = dict_mem k d.
Proof.
  unfold dict_mem. induction d as [|[k' v'] d IH]; [reflexivity|].
  cbn [map dict_get fst]. destruct (String.eqb k k'); [reflexivity | apply IH].
Qed.

(** The comprehension on the entries written for a registry: one new
    object per entry, with the attributes of the object written; the
    objects that were there stay. *)
Lemma load_records_entries (s : Runner.State) (cs : list (string * Runner.loc)) :
  Reading.nodup_keys cs = true ->
  forallb (fun nc => Reading.calc_ok (Runner.deref s (snd nc))) cs = true ->
  forall (acc : list (string * Runner.loc)) (t : Runner.State),
    (forall nc, In nc cs -> dict_mem (fst nc) acc = false) ->
    exists reg t',
      Runner.load_records (map (entry_of s) cs) acc t = (Ok (acc ++ reg), t') /\
      same_records s cs t' reg /\
      Forall (fun nl => (Runner.next_loc t <= snd nl < Runner.next_loc t')%nat) reg /\
      Runner.world t' = Runner.world t /\ Runner.self t' = Runner.self t /\
      (Runner.next_loc t <= Runner.next_loc t')%nat /\
      (forall l, (l < Runner.next_loc t)%nat -> Runner.heap t' !! l = Runner.heap t !! l).
Proof.
  induction cs as [|[n l] cs IH]; intros Hnd Hok acc t Hfresh.
  - exists [], t. rewrite app_nil_r. repeat split; try constructor; auto.
  - cbn [Reading.nodup_keys fst] in Hnd. apply andb_prop in Hnd as [Hn Hnd].
    apply negb_true_iff in Hn.
    cbn [forallb snd] in Hok. apply andb_prop in Hok as [Hc Hok].
    cbn [map Runner.load_records]. unfold entry_of at 1. cbn [fst snd].
    rewrite (record_read_back _ Hc).
    rewrite bind_eq. unfold Runner.alloc. cbv iota beta.
    set (t1 := Runner.mkState (Runner.self t)
                 (<[Runner.next_loc t := Runner.deref s l]> (Runner.heap t))
                 (S (Runner.next_loc t)) (Runner.world t)).
    rewrite (dict_set_fresh n (Runner.next_loc t) acc) by (apply (Hfresh (n, l)); now left).
    destruct (IH Hnd Hok (acc ++ [(n, Runner.next_loc t)]) t1)
      as (reg & t' & Hload & Hsame & Hrange & Hw & Hself & Hnext & Hkeep).
    { intros [n' l'] Hin. cbn [fst]. rewrite dict_mem_app.
      pose proof (Hfresh (n', l') (or_intror Hin)) as Hf. cbn [fst] in Hf.
      rewrite Hf. cbn [orb].
      rewrite dict_mem_cons. replace (dict_mem n' (@nil (string * Runner.loc))) with false
        by reflexivity.
      rewrite orb_false_r. destruct (String.eqb n' n) eqn:E; [|reflexivity].
      apply String.eqb_eq in E. subst n'. exfalso. clear -Hn Hin.
      induction cs as [|[k2 v2] cs IHd]; [contradiction|].
      rewrite dict_mem_cons in Hn. apply orb_false_elim in Hn as [Hk1 Hk2].
      destruct Hin as [Heq | Hin].
      - inversion Heq; subst. now rewrite String.eqb_refl in Hk1.
      - now apply IHd. }
    exists ((n, Runner.next_loc t) :: reg), t'.
    split; [rewrite Hload; now rewrite <- app_assoc|].
    cbn [Runner.next_loc] in *. fold t1 in Hnext.
    change (Runner.next_loc t1) with (S (Runner.next_loc t)) in *.
    split.
    { constructor; [|exact Hsame]. cbn [fst snd]. split; [reflexivity|].
      assert (Runner.heap t' !! Runner.next_loc t = Some (Runner.deref s l)) as Hnew.
      { etrans; [apply Hkeep; lia|]. unfold t1. cbn [Runner.heap]. apply lookup_insert_eq. }
      unfold Runner.deref at 1. now rewrite Hnew. }
    split.
    { constructor; [cbn [snd]; lia|].
      eapply Forall_impl; [exact Hrange|]. intros [? ?]. cbn [snd]. lia. }
    split; [exact Hw|]. split; [exact Hself|]. split; [lia|].
    intros l0 Hl0. etrans; [apply Hkeep; lia|]. unfold t1. cbn [Runner.heap].
    apply lookup_insert_ne. lia.
Qed.

(** Loading a file that holds the entries of a registry. *)
Lemma load_of_entries (s t : Runner.State) :
  Reading.registry_ok s = true ->
  read_content (Runner.world t) (Runner.config_file (Runner.self t))
  = Some (Json (PDict (map (entry_of s) (Runner.calculations (Runner.self s))))) ->
  exists reg t',
    Runner._load_calculations t = (Ok reg, t') /\
    same_records s (Runner.calculations (Runner.self s)) t' reg /\
    map fst reg = map fst (Runner.calculations (Runner.self s)) /\
    Runner.world t' = Runner.world t /\
    Runner.self t' = Runner.self t /\
    (forall l, (l < Runner.next_loc t)%nat -> Runner.heap t' !! l = Runner.heap t !! l).
Proof.
  intros Hok Hread.
  unfold Reading.registry_ok in Hok. apply andb_prop in Hok as [Hnd Hcalcs].
  destruct (load_records_entries s _ Hnd Hcalcs [] t)
    as (reg & t' & Hload & Hsame & _ & Hw & Hself & _ & Hkeep); [reflexivity|].
  exists reg, t'. split.
  { unfold Runner._load_calculations. rewrite bind_eq. unfold get. cbv iota beta.
    assert (path_exists (Runner.world t) (Runner.config_file (Runner.self t)) = true) as ->.
    { unfold path_exists. unfold read_content in Hread.
      destruct (lookup_node _ _); [reflexivity | discriminate]. }
    cbn [negb]. apply try_ok.
    assert (Runner.liftW (json_load_file (Runner.config_file (Runner.self t))) t
            = (Ok (PDict (map (entry_of s) (Runner.calculations (Runner.self s)))), t))
      as Hjson.
    { rewrite liftW_eq. unfold json_load_file. rewrite Hread. cbn [fst snd]. now destruct t. }
    rewrite (bind_ok _ _ _ _ _ Hjson). exact Hload. }
  split; [exact Hsame|]. split.
  { clear -Hsame. induction Hsame as [|a b l l' [Hn _] _ IH]; [reflexivity|].
    cbn [map]. now rewrite Hn, IH. }
  split; [exact Hw|]. split; [exact Hself | exact Hkeep].
Qed.

(** The file a registry write leaves, seen from a state with these files. *)
Lemma saved_file_read (s s1 t : Runner.State) :
  Reading.registry_ok s = true ->
  Runner._save_calculations s = (Ok tt, s1) ->
  Runner.config_file (Runner.self t) = Runner.config_file (Runner.self s) ->
  fs (Runner.world t) = fs (Runner.world s1) ->
  cwd (Runner.world t) = cwd (Runner.world s1) ->
  read_content (Runner.world t) (Runner.config_file (Runner.self t))
  = Some (Json (PDict (map (entry_of s) (Runner.calculations (Runner.self s))))).
Proof.
  intros Hok Hsave Hcfg Hfs Hcwd.
  unfold Reading.registry_ok in Hok. apply andb_prop in Hok as [Hnd _].
  destruct (save_written _ _ Hsave) as (Hfile & _).
  rewrite (registry_data_entries s Hnd) in Hfile.
  rewrite <- Hfile, Hcfg. unfold read_content, lookup_node, key. now rewrite Hfs, Hcwd.
Qed.

(** What was saved is what is loaded: after [_save_calculations] has
    returned, [_load_calculations] on the file it wrote (by the same runner
    or by one that starts on the same file with another heap) returns
    without a warning a registry with the same names in the same order,
    each bound to a new object that has the attributes of the one saved;
    the objects already there are not touched. *)
Theorem saved_registry_loads (s s1 t : Runner.State) :
  Reading.registry_ok s = true ->
  Runner._save_calculations s = (Ok tt, s1) ->
  Runner.config_file (Runner.self t) = Runner.config_file (Runner.self s) ->
  fs (Runner.world t) = fs (Runner.world s1) ->
  cwd (Runner.world t) = cwd (Runner.world s1) ->
  exists reg t',
    Runner._load_calculations t = (Ok reg, t') /\
    same_records s (Runner.calculations (Runner.self s)) t' reg /\
    map fst reg = map fst (Runner.calculations (Runner.self s)) /\
    Runner.world t' = Runner.world t /\
    Runner.self t' = Runner.self t /\
    (forall l, (l < Runner.next_loc t)%nat -> Runner.heap t' !! l = Runner.heap t !! l).
Proof.
  intros Hok Hsave Hcfg Hfs Hcwd.
  pose proof (saved_file_read s s1 t Hok Hsave Hcfg Hfs Hcwd) as Hread.
  destruct (load_of_entries s t Hok Hread) as (reg & t' & Hload & Hrest).
  exists reg, t'. split; [exact Hload | exact Hrest].
Qed.

Lemma saved_registry_loads_witness :
  let s := Demo.finished_state Demo.quantics_installed Demo.ho_inp in
  let s1 := snd (Runner._save_calculations s) in
  exists reg t',
    Runner._load_calculations s1 = (Ok reg, t') /\
    map fst reg = ["ho"].
Proof.
  intros s s1.
  assert (Reading.registry_ok s = true) as H1 by (vm_compute; reflexivity).
  assert (Runner._save_calculations s = (Ok tt, s1)) as H2 by (vm_compute; reflexivity).
  assert (Runner.config_file (Runner.self s1) = Runner.config_file (Runner.self s)) as H3
      by (vm_compute; reflexivity).
  destruct (saved_registry_loads s s1 s1 H1 H2 H3 eq_refl eq_refl)
    as (reg & t' & Hload & _ & Hnames & _).
  exists reg, t'. split; [exact Hload|]. rewrite Hnames. vm_compute. reflexivity.
Defined.

(** *** Loading never raises *)










(** ** The constructor of the runner *)

Lemma set_self_eq (r : Runner.LocalQuanticsRunner) (s : Runner.State) :
  Runner.set_self r s
  = (Ok tt, Runner.mkState r (Runner.heap s) (Runner.next_loc s) (Runner.world s)).
Proof. reflexivity. Qed.

(** [mkdir] on a directory that exists does nothing. *)
Lemma mkdir_existing (p : Path) (w : World) :
  is_dir w p = true -> mkdir p w = (Ok tt, emit_w (EvMkdir p) w).
Proof.
  intros H. unfold mkdir. rewrite bind_eq. unfold emit, modify. cbv iota beta.
  rewrite bind_eq. unfold get. cbv iota beta.
  unfold mkdir_resolved. unfold is_dir, lookup_node, key in H.
  change (fs (emit_w (EvMkdir p) w)) with (fs w).
  change (cwd (emit_w (EvMkdir p) w)) with (cwd w).
  destruct (fs w !! str (resolve (cwd w) p)) as [[c|]|]; try discriminate. reflexivity.
Qed.





(** ** A restart *)

(** The registry survives a restart: after [_save_calculations] has
    returned, a runner constructed on the same base directory, in a world
    with these files, holds the same names in the same order, each bound
    to a calculation with the attributes of the one saved. *)
Theorem registry_survives_restart (home : Path) (s s1 t : Runner.State) :
  Reading.registry_ok s = true ->
  standard_layout (Runner.self s) ->
  Runner._save_calculations s = (Ok tt, s1) ->
  is_dir (Runner.world s1) (Runner.base_directory (Runner.self s)) = true ->
  is_dir (Runner.world s1) (Runner.runs_directory (Runner.self s)) = true ->
  Runner.world t = Runner.world s1 ->
  exists t',
    Runner.__init__ home (Some (Runner.base_directory (Runner.self s))) t = (Ok tt, t') /\
    same_records s (Runner.calculations (Runner.self s))
                 t' (Runner.calculations (Runner.self t')) /\
    map fst (Runner.calculations (Runner.self t'))
    = map fst (Runner.calculations (Runner.self s)) /\
    Runner.base_directory (Runner.self t') = Runner.base_directory (Runner.self s) /\
    Runner.runs_directory (Runner.self t') = Runner.runs_directory (Runner.self s) /\
    Runner.config_file (Runner.self t') = Runner.config_file (Runner.self s) /\
    fs (Runner.world t') = fs (Runner.world s1).
Proof.
  intros Hok (Hruns & Hcfg) Hsave Hbase Hrunsdir Hworld.
  set (base := Runner.base_directory (Runner.self s)) in *.
  rewrite Hruns in Hrunsdir.
  unfold Runner.__init__.
  rewrite (bind_ok _ _ _ _ _ (set_self_eq _ _)).
  match goal with
  | |- context [bind _ _ ?st] => set (t1 := st)
  end.
  assert (Runner.world t1 = Runner.world s1) as Hw1 by exact Hworld.
  erewrite bind_ok; [| apply liftW_ok, mkdir_existing; now rewrite Hw1].
  erewrite bind_ok;
    [| apply liftW_ok, mkdir_existing; cbn [Runner.world set_world];
       rewrite Hw1; exact Hrunsdir].
  match goal with
  | |- context [bind _ _ ?st] => set (t3 := st)
  end.
  assert (read_content (Runner.world t3) (Runner.config_file (Runner.self t3))
          = Some (Json (PDict (map (entry_of s) (Runner.calculations (Runner.self s))))))
    as Hread.
  { apply (saved_file_read s s1 t3 Hok Hsave).
    - unfold t3. cbn [Runner.self set_world Runner.config_file]. now rewrite Hcfg.
    - unfold t3. cbn [Runner.world set_world fs emit_w]. now rewrite Hw1.
    - unfold t3. cbn [Runner.world set_world cwd emit_w]. now rewrite Hw1. }
  destruct (load_of_entries s t3 Hok Hread)
    as (reg & t4 & Hload & Hsame & Hnames & Hw4 & _).
  rewrite (bind_ok _ _ _ _ _ Hload), set_self_eq.
  eexists. split; [reflexivity|].
  cbn [Runner.self Runner.world Runner.calculations Runner.base_directory
       Runner.runs_directory Runner.config_file].
  split.
  { unfold same_records in *. eapply Forall2_impl; [exact Hsame|].
    intros a b [Hn Hd]. split; [exact Hn|]. exact Hd. }
  split; [exact Hnames|]. split; [reflexivity|]. split; [now rewrite Hruns|].
  split; [now rewrite Hcfg|].
  rewrite Hw4. unfold t3. cbn [Runner.world set_world fs emit_w]. now rewrite Hw1.
Qed.

Lemma registry_survives_restart_witness :
  let s := Demo.finished_state Demo.quantics_installed Demo.ho_inp in
  let s1 := snd (Runner._save_calculations s) in
  exists t',
    Runner.__init__ (Path_of_str "/home/u") (Some (Path_of_str "/home/u/.quantics_local")) s1
    = (Ok tt, t') /\
    map fst (Runner.calculations (Runner.self t')) = ["ho"].
Proof.
  intros s s1.
  assert (Reading.registry_ok s = true) as H1 by (vm_compute; reflexivity).
  assert (standard_layout (Runner.self s)) as H2 by (split; vm_compute; reflexivity).
  assert (Runner._save_calculations s = (Ok tt, s1)) as H3 by (vm_compute; reflexivity).
  assert (is_dir (Runner.world s1) (Runner.base_directory (Runner.self s)) = true) as H4
      by (vm_compute; reflexivity).
  assert (is_dir (Runner.world s1) (Runner.runs_directory (Runner.self s)) = true) as H5
      by (vm_compute; reflexivity).
  destruct (registry_survives_restart (Path_of_str "/home/u") s s1 s1 H1 H2 H3 H4 H5 eq_refl)
    as (t' & Hinit & _ & Hnames & _).
  exists t'. split; [exact Hinit|]. rewrite Hnames. vm_compute. reflexivity.
Defined.

(** * Further properties of the output parser *)

Lemma split_by_nonempty (f : ascii -> bool) (s : string) : split_by f s <> [].
Proof.
  destruct s as [|c s]; cbn [split_by]; [discriminate|].
  destruct (f c); [discriminate|]. now destruct (split_by f s).
Qed.

(** Splitting at a separator splits the pieces. *)
Lemma split_by_app_sep (f : ascii -> bool) (a b : string) (c : ascii) :
  f c = true ->
  split_by f (a +:+ String c b) = split_by f a ++ split_by f b.
Proof.
  intros Hc. induction a as [|x a IH].
  - rewrite app_empty. cbn [split_by]. now rewrite Hc.
  - rewrite app_cons. cbn [split_by]. rewrite IH.
    destruct (f x); [reflexivity|].
    pose proof (split_by_nonempty f a) as Hne.
    destruct (split_by f a) as [|h t]; [contradiction | reflexivity].
Qed.

Section ParserComposition.
Context {F : Type} (float_of_str : string -> option F).

(** The output of two runs, one after the other, parses to the results
    of the second run, completed by those of the first: each of the three
    results is the one the later text gives, and the one the earlier text
    gives only when the later text gives none. *)
Theorem parse_outputs_compose (earlier later : string) :
  let both := Parser._parse_quantics_output float_of_str (earlier +:+ String nl later) in
  let r1 := Parser._parse_quantics_output float_of_str earlier in
  let r2 := Parser._parse_quantics_output float_of_str later in
  Parser.total_energy both
  = match Parser.total_energy r2 with Some e => Some e | None => Parser.total_energy r1 end /\
  Parser.final_time both
  = match Parser.final_time r2 with Some t => Some t | None => Parser.final_time r1 end /\
  Parser.converged both
  = match Parser.converged r2 with Some c => Some c | None => Parser.converged r1 end.
Proof.
  intros both r1 r2. subst both r1 r2. unfold Parser._parse_quantics_output, split_on.
  rewrite (split_by_app_sep _ earlier later nl) by apply Ascii.eqb_refl.
  rewrite fold_left_app.
  rewrite !(fold_last_wins float_of_str _ _ (parse_line_energy float_of_str)),
          !(fold_last_wins float_of_str _ _ (parse_line_time float_of_str)),
          !(fold_last_wins float_of_str _ _ (parse_line_converged float_of_str)).
  unfold Parser.empty_results.
  cbn [Parser.total_energy Parser.final_time Parser.converged].
  split; [|split];
    match goal with
    | |- match ?o with _ => _ end = _ => destruct o; reflexivity
    end.
Qed.

End ParserComposition.

(** * Further properties of the configuration store *)

(** ** What can be serialised *)

Lemma serialize_item_ok (i : pyval) :
  match i with PPath _ => true | _ => jsonable i end = true ->
  jsonable (Config.serialize_item i) = true.
Proof. now destruct i. Qed.

Lemma dict_set_jsonable (k : string) (v : pyval) (d : list (string * pyval)) :
  jsonable v = true ->
  forallb (fun kv => jsonable (snd kv)) d = true ->
  forallb (fun kv => jsonable (snd kv)) (dict_set k v d) = true.
Proof.
  intros Hv. induction d as [|[k' v'] d IH]; intros Hd; cbn [dict_set forallb snd].
  - now rewrite Hv.
  - cbn [forallb snd] in Hd. apply andb_prop in Hd as [Hv' Hd].
    destruct (String.eqb k k'); cbn [forallb snd].
    + now rewrite Hv, Hd.
    + now rewrite Hv', (IH Hd).
Qed.

Lemma fold_serialize_jsonable (d : list (string * pyval)) :
  Forall (fun kv => jsonable (Config.serialize_value (snd kv)) = true) d ->
  forall acc,
    forallb (fun kv => jsonable (snd kv)) acc = true ->
    forallb (fun kv => jsonable (snd kv))
            (fold_left (fun json_config kv =>
                          dict_set (fst kv) (Config.serialize_value (snd kv)) json_config)
                       d acc) = true.
Proof.
  induction 1 as [|kv d Hkv _ IH]; intros acc Hacc; [exact Hacc|].
  cbn [fold_left]. apply IH. now apply dict_set_jsonable.
Qed.

Lemma serialize_value_jsonable (v : pyval) :
  Reading.serializable v = true -> jsonable (Config.serialize_value v) = true.
Proof.
  induction v as [| b | z | s | p | l IHl | d IHd] using pyval_rect'; intros H;
    try reflexivity.
  - cbn [Config.serialize_value jsonable]. cbn [Reading.serializable] in H.
    clear IHl. induction l as [|i l IH]; [reflexivity|].
    cbn [forallb] in H. apply andb_prop in H as [Hi Hl].
    cbn [map forallb]. now rewrite (serialize_item_ok i Hi), (IH Hl).
  - cbn [Config.serialize_value jsonable]. cbn [Reading.serializable] in H.
    apply fold_serialize_jsonable; [|reflexivity].
    revert H. induction IHd as [|kv d Hkv _ IH]; intros H; [constructor|].
    cbn [forallb] in H. apply andb_prop in H as [Hv Hd].
    constructor; [now apply Hkv | now apply IH].
Qed.

(** A configuration made of path objects, of lists that hold path
    objects and JSON values, of nested dictionaries of such values and of
    other JSON values is turned into a JSON value by [_serialize_config]:
    [json.dump] does not refuse it.  A path object inside a list inside a
    list is not reached by the conversion. *)
Theorem serialized_config_is_json (config : list (string * pyval)) :
  (forallb (fun kv => Reading.serializable (snd kv)) config = true ->
   jsonable (PDict (Config._serialize_config config)) = true) /\
  (forall k p,
      jsonable (PDict (Config._serialize_config [(k, PList [PList [PPath p]])])) = false).
Proof.
  split.
  - intros H. cbn [jsonable]. unfold Config._serialize_config.
    apply fold_serialize_jsonable; [|reflexivity].
    induction config as [|kv config IH]; [constructor|].
    cbn [forallb] in H. apply andb_prop in H as [Hv Hd].
    constructor; [now apply serialize_value_jsonable | now apply IH].
  - intros k p. reflexivity.
Qed.

Lemma serialized_config_is_json_witness :
  jsonable (PDict (Config._serialize_config Config.get_default_config)) = true /\
  jsonable (PDict (Config._serialize_config Demo.test_config)) = true.
Proof.
  split.
  - apply (proj1 (serialized_config_is_json Config.get_default_config)). reflexivity.
  - apply (proj1 (serialized_config_is_json Demo.test_config)). reflexivity.
Defined.

(** ** Saving and loading never raise *)

Lemma print_handler_eq {A} (msg : string) (a : A) (w : World) :
  (print msg ;;; ret a) w = (Ok a, emit_w (EvPrint msg) w).
Proof. reflexivity. Qed.

(** [save_config] never raises: it returns [true] or [false].  When it
    returns [true] the serialised configuration is a JSON value and the
    file, the one given or one named after the time, holds it.  When it
    returns [false] the last thing printed is the error message.  When the
    serialised configuration is not a JSON value it returns [false], and
    if the file could be opened the file is left truncated: an earlier
    configuration in it is lost. *)
Theorem save_config_never_raises (config : list (string * pyval)) (file_path : option Path)
        (w : World) :
  let file := Config.config_target file_path w in
  exists b w',
    Config.save_config config file_path w = (Ok b, w') /\
    (b = true ->
     jsonable (PDict (Config._serialize_config config)) = true /\
     read_content w' file = Some (Json (PDict (Config._serialize_config config)))) /\
    (b = false ->
     exists msg, last (trace w') = Some (EvPrint ("Error saving configuration: " +:+ msg))) /\
    (jsonable (PDict (Config._serialize_config config)) = false ->
     b = false /\
     forall w1, makedirs (parent file) w = (Ok tt, w1) -> put_ok w1 file = true ->
                read_content w' file = Some Partial).
Proof.
  intros file. unfold Config.save_config.
  assert ((match file_path with
           | Some p => ret p
           | None =>
               t <- now ;;
               ret (Path_of_str ("quantics_config_" +:+ strftime_stamp t +:+ ".json"))
           end) w = (Ok file, w)) as Hfile by (unfold file; now destruct file_path).
  rewrite (bind_ok _ _ _ _ _ Hfile). unfold try_except.
  rewrite bind_eq.
  destruct (makedirs (parent file) w) as [[[]|e] wa] eqn:Hmk.
  2:{ rewrite print_handler_eq. do 2 eexists. split; [reflexivity|].
      split; [discriminate|]. split.
      - intros _. exists (message e). cbn [trace emit_w]. apply last_snoc.
      - intros _. split; [reflexivity|]. discriminate. }
  rewrite bind_eq. unfold json_dump_file.
  destruct (jsonable (PDict (Config._serialize_config config))) eqn:Hj.
  - destruct (write_file file (Json (PDict (Config._serialize_config config))) wa)
      as [[[]|e] wb] eqn:Hw.
    + cbn [ret]. do 2 eexists. split; [reflexivity|].
      split; [intros _; split; [reflexivity | eapply write_file_ok, Hw]|].
      split; discriminate.
    + rewrite print_handler_eq. do 2 eexists. split; [reflexivity|].
      split; [discriminate|]. split; [|discriminate].
      intros _. exists (message e). cbn [trace emit_w]. apply last_snoc.
  - rewrite bind_eq.
    destruct (write_file file Partial wa) as [[[]|e] wb] eqn:Hw.
    + unfold raise. rewrite print_handler_eq. do 2 eexists. split; [reflexivity|].
      split; [discriminate|]. split.
      * intros _. eexists. cbn [trace emit_w]. apply last_snoc.
      * intros _. split; [reflexivity|]. intros w1 Hw1 _.
        change (read_content (emit_w _ wb) file) with (read_content wb file).
        eapply write_file_ok, Hw.
    + rewrite print_handler_eq. do 2 eexists. split; [reflexivity|].
      split; [discriminate|]. split.
      * intros _. exists (message e). cbn [trace emit_w]. apply last_snoc.
      * intros _. split; [reflexivity|]. intros w1 Hw1 Hput. exfalso.
        inversion Hw1; subst w1. clear Hw1.
        unfold write_file in Hw. rewrite bind_eq in Hw. unfold emit, modify in Hw.
        cbv iota beta in Hw.
        destruct (put_file_spec file Partial (emit_w (EvWrite file) wa)) as [Hok _].
        rewrite (Hok Hput) in Hw. discriminate.
Qed.


(** * Analysis tools with parameters *)

Lemma spawned_with_app (a b : list event) :
  spawned_with (a ++ b) = spawned_with a ++ spawned_with b.
Proof. unfold spawned_with. apply omap_app. Qed.

Lemma spawned_with_silent (evs : list event) : Forall silent evs -> spawned_with evs = [].
Proof.
  induction 1 as [|e evs He _ IH]; [reflexivity|].
  change (spawned_with (e :: evs)) with (spawned_with ([e] ++ evs)).
  rewrite spawned_with_app, IH. now destruct e.
Qed.

Lemma launched_with_refl (s : Runner.State) : launched_with [] s s.
Proof. exists []. now rewrite app_nil_r. Qed.

Lemma launched_with_trans a b (s s1 s2 : Runner.State) :
  launched_with a s s1 -> launched_with b s1 s2 -> launched_with (a ++ b) s s2.
Proof.
  intros (e1 & H1 & Ha) (e2 & H2 & Hb). exists (e1 ++ e2).
  split; [now rewrite H2, H1, app_assoc | now rewrite spawned_with_app, Ha, Hb].
Qed.

Lemma launched_with_silent (s s' : Runner.State) : runs silent s s' -> launched_with [] s s'.
Proof.
  intros H. destruct (runs_trace _ _ _ H) as (evs & Ht & HQ).
  exists evs. split; [exact Ht | now apply spawned_with_silent].
Qed.

Lemma launched_with_unique runs0 (s s' : Runner.State) (evs : list event) :
  launched_with runs0 s s' ->
  trace (Runner.world s') = trace (Runner.world s) ++ evs -> spawned_with evs = runs0.
Proof.
  intros (evs' & Ht' & Hsp) Ht. rewrite Ht in Ht'. apply app_inv_head in Ht'. now subst.
Qed.

Lemma quiet_refl (s : Runner.State) : quiet s s.
Proof. split; [apply runs_refl | apply same_objects_refl]. Qed.

Lemma quiet_trans (a b c : Runner.State) : quiet a b -> quiet b c -> quiet a c.
Proof.
  intros [H1 H2] [H3 H4].
  split; [eapply runs_trans; eassumption | eapply same_objects_trans; eassumption].
Qed.

Lemma quiet_print (msg : string) (s : Runner.State) :
  quiet s (set_world (emit_w (EvPrint msg) (Runner.world s)) s).
Proof. split; [apply runs_print; exact I | apply same_objects_set_world]. Qed.

Lemma liftS_print (msg : string) (acc : list (string * string)) (s : Runner.State) :
  Runner.liftS (Runner.liftW (print msg)) (acc, s)
  = (Ok tt, (acc, set_world (emit_w (EvPrint msg) (Runner.world s)) s)).
Proof. reflexivity. Qed.

(** Showing a text prints, or does nothing. *)
Lemma show_text_quiet (show : bool) (title text : string) (acc : list (string * string))
      (s : Runner.State) :
  exists s', Runner.show_text show title text (acc, s) = (Ok tt, (acc, s')) /\ quiet s s'.
Proof.
  unfold Runner.show_text. destruct (show && truthy text).
  - rewrite (bind_ok _ _ _ _ _ (liftS_print _ _ _)).
    rewrite (bind_ok _ _ _ _ _ (liftS_print _ _ _)).
    rewrite liftS_print. eexists. split; [reflexivity|].
    eapply quiet_trans; [apply quiet_print|].
    eapply quiet_trans; apply quiet_print.
  - exists s. split; [reflexivity | apply quiet_refl].
Qed.

Lemma lift_result_ok {S A} (r : result A) (a : A) (s : S) :
  r = Ok a -> Runner.lift_result r s = (Ok a, s).
Proof. now intros ->. Qed.

(** The subprocess of a tool: one command line is started, with the
    input of the tool; the entries written so far stay. *)
Lemma tool_run_params_cases (dir : Path) (params : list (string * pyval)) (show : bool)
      (tool : string) (cmd : list string) (nz dof : string)
      (acc : list (string * string)) (s : Runner.State) :
  Runner.param_text params "rdgpop_nz" "2" = Ok nz ->
  Runner.param_text params "rdgpop_dof" "1" = Ok dof ->
  let stdin := if String.eqb tool "rdgpop"
               then Some (nz +:+ String nl (dof +:+ String nl "")) else None in
  exists r s1,
    Runner.tool_run_params dir params show tool cmd (acc, s) = (r, (acc, s1)) /\
    launched_with [(cmd, stdin)] s s1 /\ same_objects s s1.
Proof.
  intros Hnz Hdof stdin.
  assert (forall (s0 : Runner.State),
             quiet s s0 ->
             exists r s1,
               (result <- Runner.liftS (Runner.liftW (spawn cmd dir stdin)) ;;
                Runner.show_text show "Command line output:" (out result) ;;;
                ret result) (acc, s0) = (r, (acc, s1)) /\
               launched_with [(cmd, stdin)] s s1 /\ same_objects s s1) as Hrun.
  { intros s0 [Hr0 Ho0].
    destruct (spawn cmd dir stdin (Runner.world s0)) as [[p|e] w1] eqn:Hsp.
    - rewrite (bind_ok _ _ _ _ _ (liftS_ok _ acc _ _ _ (liftW_ok _ _ _ _ Hsp))).
      destruct (show_text_quiet show "Command line output:" (out p) acc (set_world w1 s0))
        as (s2 & Hshow & Hr2 & Ho2).
      rewrite (bind_ok _ _ _ _ _ Hshow). exists (Ok p), s2. split; [reflexivity|].
      destruct (spawn_returned _ _ _ _ _ _ Hsp) as (Htr & _).
      split.
      + change [(cmd, stdin)] with ([] ++ [(cmd, stdin)] ++ @nil (list string * option string)).
        eapply launched_with_trans; [apply launched_with_silent, Hr0|].
        eapply launched_with_trans; [| apply launched_with_silent, Hr2].
        exists [EvSpawn cmd dir stdin; EvExit (rc p)]. now split.
      + eapply same_objects_trans; [exact Ho0|].
        eapply same_objects_trans; [apply same_objects_set_world | exact Ho2].
    - exists (Raise e), (set_world w1 s0).
      split; [apply bind_raised, liftS_raised, liftW_raised, Hsp|].
      apply spawn_raised in Hsp. subst w1. split.
      + change [(cmd, stdin)] with ([] ++ [(cmd, stdin)]).
        eapply launched_with_trans; [apply launched_with_silent, Hr0|].
        exists [EvSpawn cmd dir stdin]. now split.
      + eapply same_objects_trans; [exact Ho0 | apply same_objects_set_world]. }
  unfold Runner.tool_run_params. subst stdin.
  destruct (String.eqb tool "rdgpop").
  - rewrite (bind_ok _ _ _ _ _ (lift_result_ok _ _ _ Hnz)).
    rewrite (bind_ok _ _ _ _ _ (lift_result_ok _ _ _ Hdof)).
    match goal with
    | |- context [bind ?m _ (acc, s)] =>
        assert (exists s0, m (acc, s) = (Ok tt, (acc, s0)) /\ quiet s s0) as (s0 & Hm & Hq)
    end.
    { destruct show.
      - rewrite (bind_ok _ _ _ _ _ (liftS_print _ _ _)).
        rewrite (bind_ok _ _ _ _ _ (liftS_print _ _ _)).
        rewrite liftS_print. eexists. split; [reflexivity|].
        eapply quiet_trans; [apply quiet_print|].
        eapply quiet_trans; apply quiet_print.
      - exists s. split; [reflexivity | apply quiet_refl]. }
    rewrite (bind_ok _ _ _ _ _ Hm). now apply Hrun.
  - match goal with
    | |- context [bind ?m _ (acc, s)] =>
        assert (exists s0, m (acc, s) = (Ok tt, (acc, s0)) /\ quiet s s0) as (s0 & Hm & Hq)
    end.
    { destruct show.
      - rewrite (bind_ok _ _ _ _ _ (liftS_print _ _ _)).
        rewrite liftS_print. eexists. split; [reflexivity|].
        eapply quiet_trans; apply quiet_print.
      - exists s. split; [reflexivity | apply quiet_refl]. }
    rewrite (bind_ok _ _ _ _ _ Hm). now apply Hrun.
Qed.

(** An iteration for a recognised tool: one command line is started; an
    entry is written unless the subprocess or the output file raised. *)
Lemma tool_process_params_cases (dir : Path) (params : list (string * pyval)) (show : bool)
      (tool : string) (cmd : list string) (nz dof : string)
      (acc : list (string * string)) (s : Runner.State) :
  Runner.param_text params "rdgpop_nz" "2" = Ok nz ->
  Runner.param_text params "rdgpop_dof" "1" = Ok dof ->
  let stdin := if String.eqb tool "rdgpop"
               then Some (nz +:+ String nl (dof +:+ String nl "")) else None in
  exists r acc1 s1,
    Runner.tool_process_params dir params show tool cmd (acc, s) = (r, (acc1, s1)) /\
    launched_with [(cmd, stdin)] s s1 /\ same_objects s s1 /\
    match r with
    | Ok _ => dict_keys acc1 = Reading.add_key (dict_keys acc) tool
    | Raise _ => acc1 = acc \/ dict_keys acc1 = Reading.add_key (dict_keys acc) tool
    end.
Proof.
  intros Hnz Hdof stdin. unfold Runner.tool_process_params.
  destruct (tool_run_params_cases dir params show tool cmd nz dof acc s Hnz Hdof)
    as (r & s1 & Hrun & Hl1 & Ho1).
  fold stdin in Hl1.
  destruct r as [p|e].
  2:{ exists (Raise e), acc, s1. split; [now apply bind_raised|].
      split; [exact Hl1|]. split; [exact Ho1 | now left]. }
  rewrite (bind_ok _ _ _ _ _ Hrun).
  destruct (rc p =? 0).
  - rewrite (bind_ok _ _ _ _ _ (set_tool_result_eq _ _ _ _)).
    rewrite (bind_ok _ _ _ _ _ (liftS_print _ _ _)).
    set (s2 := set_world (emit_w (EvPrint (tool +:+ " completed")) (Runner.world s1)) s1).
    set (file := dir // (replace_char " " "_" tool +:+ "_output.txt")).
    destruct (Runner.liftW (write_file file (Text (out p))) s2) as [r s3] eqn:Hw.
    exists r, (dict_set tool (out p) acc), s3.
    split; [unfold Runner.liftS; cbn [fst snd]; now rewrite Hw|].
    split.
    { change [(cmd, stdin)] with ([(cmd, stdin)] ++ [] ++ @nil (list string * option string)).
      eapply launched_with_trans; [exact Hl1|].
      eapply launched_with_trans; [apply launched_with_silent, runs_print; exact I|].
      apply launched_with_silent. eapply (liftW_runs silent), Hw.
      apply write_file_steps. exact I. }
    split.
    { eapply same_objects_trans; [exact Ho1|].
      eapply same_objects_trans; [apply same_objects_set_world|].
      eapply liftW_same_objects, Hw. }
    destruct r as [[]|e]; [| right]; apply dict_keys_add.
  - rewrite (bind_ok _ _ _ _ _ (set_tool_result_eq _ _ _ _)).
    rewrite (bind_ok _ _ _ _ _ (liftS_print _ _ _)).
    match goal with
    | |- context [Runner.show_text show ?title ?text (?a, ?st)] =>
        destruct (show_text_quiet show title text a st) as (s3 & Hshow & Hr3 & Ho3)
    end.
    exists (Ok tt), (dict_set tool ("Error: " +:+ err p) acc), s3.
    split; [exact Hshow|]. split.
    { change [(cmd, stdin)] with ([(cmd, stdin)] ++ [] ++ @nil (list string * option string)).
      eapply launched_with_trans; [exact Hl1|].
      eapply launched_with_trans; [apply launched_with_silent, runs_print; exact I|].
      apply launched_with_silent, Hr3. }
    split; [| apply dict_keys_add].
    eapply same_objects_trans; [exact Ho1|].
    eapply same_objects_trans; [apply same_objects_set_world | exact Ho3].
Qed.

Lemma analysis_step_params_spec (dir : Path) (params : list (string * pyval)) (show : bool)
      (tool : string) (nz dof : string) (acc : list (string * string)) (s : Runner.State) :
  Runner.param_text params "rdgpop_nz" "2" = Ok nz ->
  Runner.param_text params "rdgpop_dof" "1" = Ok dof ->
  exists acc' s',
    Runner.analysis_step_params dir params show tool (acc, s) = (Ok tt, (acc', s')) /\
    dict_keys acc'
    = (if Reading.known_tool tool then Reading.add_key (dict_keys acc) tool
       else dict_keys acc) /\
    launched_with (match Reading.tool_run nz dof tool with Some x => [x] | None => [] end)
                  s s' /\
    same_objects s s'.
Proof.
  intros Hnz Hdof.
  unfold Runner.analysis_step_params, Reading.known_tool, Reading.tool_run.
  set (s0 := set_world (emit_w (EvPrint ("Running analysis tool: " +:+ tool))
                               (Runner.world s)) s).
  assert (launched_with [] s s0) as Hl0 by (apply launched_with_silent, runs_print; exact I).
  destruct (Runner.command_of tool) as [cmd|].
  - destruct (tool_process_params_cases dir params show tool cmd nz dof acc s0 Hnz Hdof)
      as (r & acc1 & s1 & Hp & Hl & Ho & Hk).
    set (stdin := if String.eqb tool "rdgpop"
                  then Some (nz +:+ String nl (dof +:+ String nl "")) else None) in *.
    assert (launched_with [(cmd, stdin)] s s1) as Hl1.
    { change [(cmd, stdin)] with ([] ++ [(cmd, stdin)]).
      eapply launched_with_trans; [exact Hl0 | exact Hl]. }
    assert (same_objects s s1) as Ho1.
    { eapply same_objects_trans; [apply same_objects_set_world | exact Ho]. }
    destruct r as [[]|e].
    + exists acc1, s1. split.
      { apply try_ok. rewrite (bind_ok _ _ _ _ _ (liftS_print _ _ _)). exact Hp. }
      split; [exact Hk|]. split; [exact Hl1 | exact Ho1].
    + do 2 eexists. split.
      { erewrite try_raised; [apply tool_handler_eq|].
        rewrite (bind_ok _ _ _ _ _ (liftS_print _ _ _)). exact Hp. }
      split.
      { rewrite dict_keys_add. destruct Hk as [-> | ->]; [reflexivity | apply add_key_idem]. }
      split.
      { change [(cmd, stdin)] with ([(cmd, stdin)] ++ @nil (list string * option string)).
        eapply launched_with_trans; [exact Hl1|].
        apply launched_with_silent, runs_print. exact I. }
      eapply same_objects_trans; [exact Ho1 | apply same_objects_set_world].
  - do 2 eexists. split.
    { apply try_ok. rewrite (bind_ok _ _ _ _ _ (liftS_print _ _ _)). apply liftS_print. }
    split; [reflexivity|]. split.
    { change (@nil (list string * option string))
        with (@nil (list string * option string) ++ []).
      eapply launched_with_trans; [exact Hl0|].
      apply launched_with_silent, runs_print. exact I. }
    now repeat split.
Qed.

Lemma analysis_loop_params_spec (dir : Path) (params : list (string * pyval)) (show : bool)
      (nz dof : string) (tools : list string) :
  Runner.param_text params "rdgpop_nz" "2" = Ok nz ->
  Runner.param_text params "rdgpop_dof" "1" = Ok dof ->
  forall (acc : list (string * string)) (s : Runner.State),
  exists acc' s',
    for_each tools (Runner.analysis_step_params dir params show) (acc, s)
    = (Ok tt, (acc', s')) /\
    dict_keys acc'
    = fold_left Reading.add_key (List.filter Reading.known_tool tools) (dict_keys acc) /\
    launched_with (omap (Reading.tool_run nz dof) tools) s s' /\
    same_objects s s'.
Proof.
  intros Hnz Hdof. induction tools as [|tool tools IH]; intros acc s.
  - exists acc, s. split; [reflexivity|]. split; [reflexivity|].
    split; [apply launched_with_refl | apply same_objects_refl].
  - destruct (analysis_step_params_spec dir params show tool nz dof acc s Hnz Hdof)
      as (acc1 & s1 & Hstep & Hk1 & Hl1 & Ho1).
    destruct (IH acc1 s1) as (acc2 & s2 & Hrest & Hk2 & Hl2 & Ho2).
    exists acc2, s2. split.
    { cbn [for_each]. now rewrite (bind_ok _ _ _ _ _ Hstep). }
    split.
    { rewrite Hk2, Hk1. cbn [List.filter]. now destruct (Reading.known_tool tool). }
    split; [| eapply same_objects_trans; eassumption].
    replace (omap (Reading.tool_run nz dof) (tool :: tools))
      with ((match Reading.tool_run nz dof tool with Some x => [x] | None => [] end)
              ++ omap (Reading.tool_run nz dof) tools)
      by (cbn [omap list_omap]; now destruct (Reading.tool_run nz dof tool)).
    eapply launched_with_trans; eassumption.
Qed.

(** The parameters of [run_analysis_with_params] choose what [rdgpop]
    reads and what is printed, nothing else.  On a completed calculation
    whose output directory exists, whatever the parameters: every
    recognised tool of the list has its command line started, in the order
    of the list, [rdgpop] with the two numbers of the parameters
    ([rdgpop_nz], 2 when absent; [rdgpop_dof], 1 when absent) on its
    standard input and every other tool with none; an unknown tool starts
    nothing.  When the call returns, the keys of the mapping are the
    recognised tools and the mapping is stored under
    [analysis_with_params]; it raises only when the registry cannot be
    written. *)
Theorem analysis_params_choose_input (calc : Runner.loc) (tools : list string)
        (params : list (string * pyval)) (nz dof : string)
        (s s0 s' : Runner.State) (output_dir : Path)
        (r : result (list (string * string))) (evs : list event) :
  Runner.status (Runner.deref s calc) = "completed" ->
  Runner.analysis_output_dir (Runner.deref s calc) s = (Ok output_dir, s0) ->
  path_exists (Runner.world s0) output_dir = true ->
  Runner.param_text params "rdgpop_nz" "2" = Ok nz ->
  Runner.param_text params "rdgpop_dof" "1" = Ok dof ->
  Runner.run_analysis_with_params calc tools params s = (r, s') ->
  trace (Runner.world s') = trace (Runner.world s) ++ evs ->
  spawned_with evs = omap (Reading.tool_run nz dof) tools /\
  (dict_get "rdgpop_nz" params = None -> nz = "2") /\
  (dict_get "rdgpop_dof" params = None -> dof = "1") /\
  match r with
  | Ok mapping =>
      dict_keys mapping = Reading.tool_keys tools /\
      dict_get "analysis_with_params" (Runner.results (Runner.deref s' calc))
      = Some (PDict (map (fun kv => (fst kv, PStr (snd kv))) mapping))
  | Raise _ => save_ok s' = false
  end.
Proof.
  intros Hst Hdir Hex Hnz Hdof Hrun Ht.
  unfold Runner.run_analysis_with_params in Hrun.
  rewrite (bind_ok _ _ _ _ _ (load_eq _ _)), Hst in Hrun.
  change (negb (String.eqb "completed" "completed")) with false in Hrun. cbv iota in Hrun.
  rewrite (bind_ok _ _ _ _ _ Hdir) in Hrun.
  rewrite (bind_ok (gets Runner.world) _ s0 s0 (Runner.world s0) eq_refl), Hex in Hrun.
  cbn [negb] in Hrun. cbv zeta in Hrun.
  set (show := match dict_get "show_cmdline" params with
               | Some v => py_truthy v
               | None => true
               end) in *.
  destruct (analysis_loop_params_spec output_dir params show nz dof tools Hnz Hdof [] s0)
    as (results & s2 & Hloop & Hk & Hl & Ho).
  assert (Runner.analysis_loop_params output_dir params show tools s0 = (Ok results, s2))
    as Hloop' by (unfold Runner.analysis_loop_params; now rewrite Hloop).
  rewrite (bind_ok _ _ _ _ _ Hloop') in Hrun.
  rewrite (bind_ok _ _ _ _ _ (update_eq _ _ _)) in Hrun.
  match type of Hrun with
  | bind _ _ ?st = _ => set (s3 := st) in *
  end.
  pose proof (analysis_output_dir_runs _ _ _ _ Hdir) as Hr0.
  destruct (Runner._save_calculations s3) as [r4 s4] eqn:Hsave.
  assert (launched_with (omap (Reading.tool_run nz dof) tools) s s4) as Hl4.
  { rewrite <- (app_nil_r (omap (Reading.tool_run nz dof) tools)).
    eapply launched_with_trans.
    - change (omap (Reading.tool_run nz dof) tools)
        with ([] ++ omap (Reading.tool_run nz dof) tools).
      eapply launched_with_trans; [apply launched_with_silent, Hr0 | exact Hl].
    - apply launched_with_silent.
      eapply runs_trans; [apply runs_upd | eapply save_runs, Hsave]. }
  assert (s' = s4) as ->.
  { rewrite bind_eq, Hsave in Hrun. destruct r4 as [[]|e]; now inversion Hrun. }
  split; [eapply launched_with_unique; eassumption|].
  split.
  { intros Hnone. unfold Runner.param_text in Hnz. rewrite Hnone in Hnz. congruence. }
  split.
  { intros Hnone. unfold Runner.param_text in Hdof. rewrite Hnone in Hdof. congruence. }
  rewrite bind_eq, Hsave in Hrun. destruct r4 as [[]|e].
  - unfold ret in Hrun. inversion Hrun; subst r. split; [exact Hk|].
    destruct (save_same_objects _ _ _ Hsave) as (Hh4 & _).
    rewrite (deref_same_heap _ _ calc Hh4). unfold s3. rewrite deref_upd_eq.
    cbn [Runner.set_result Runner.results]. apply dict_get_set_eq.
  - inversion Hrun; subst r.
    apply (save_raises_again _ s4 s4 e Hsave); reflexivity.
Qed.

Lemma analysis_params_choose_input_witness :
  let s := Demo.finished_state Demo.quantics_installed Demo.ho_inp in
  let params := [("show_cmdline", PBool false); ("rdgpop_nz", PInt 3)] in
  let run := Runner.run_analysis_with_params 0%nat ["rdcheck etot"; "rdgpop"] params s in
  spawned_with (skipn (length (trace (Runner.world s))) (trace (Runner.world (snd run))))
  = [(["rdcheck"; "etot"], None);
     (["rdgpop"; "-w"], Some ("3" +:+ String nl ("1" +:+ String nl "")))].
Proof.
  intros s params run.
  assert (Runner.status (Runner.deref s 0%nat) = "completed") as H1
      by (vm_compute; reflexivity).
  assert (Runner.analysis_output_dir (Runner.deref s 0%nat) s = (Ok (Demo.ho_wd // "ho"), s))
    as H2 by (vm_compute; reflexivity).
  assert (path_exists (Runner.world s) (Demo.ho_wd // "ho") = true) as H3
      by (vm_compute; reflexivity).
  assert (Runner.param_text params "rdgpop_nz" "2" = Ok "3") as H4 by reflexivity.
  assert (Runner.param_text params "rdgpop_dof" "1" = Ok "1") as H5 by reflexivity.
  assert (Runner.run_analysis_with_params 0%nat ["rdcheck etot"; "rdgpop"] params s
          = (fst run, snd run)) as H6 by (vm_compute; reflexivity).
  assert (trace (Runner.world (snd run))
          = trace (Runner.world s)
            ++ skipn (length (trace (Runner.world s))) (trace (Runner.world (snd run))))
    as H7 by (vm_compute; reflexivity).
  rewrite (proj1 (analysis_params_choose_input 0%nat ["rdcheck etot"; "rdgpop"] params
                    "3" "1" s s (snd run) (Demo.ho_wd // "ho") (fst run) _
                    H1 H2 H3 H4 H5 H6 H7)).
  vm_compute. reflexivity.
Defined.

(** * The registry can always be written *)

(** ** The results stay JSON values *)

Lemma keeps_json_refl (s : Runner.State) : keeps_json s s.
Proof. now intros H. Qed.

Lemma keeps_json_trans (a b c : Runner.State) :
  keeps_json a b -> keeps_json b c -> keeps_json a c.
Proof. unfold keeps_json. auto. Qed.

Lemma same_objects_keeps_json (s s' : Runner.State) : same_objects s s' -> keeps_json s s'.
Proof. intros (Hh & _) H l c Hl. rewrite Hh in Hl. eapply H, Hl. Qed.

Lemma results_json_deref (s : Runner.State) (l : Runner.loc) :
  results_json s ->
  forallb (fun kv => jsonable (snd kv)) (Runner.results (Runner.deref s l)) = true.
Proof.
  intros H. unfold Runner.deref. destruct (Runner.heap s !! l) as [c|] eqn:E.
  - eapply H, E.
  - reflexivity.
Qed.

Lemma update_keeps_json (calc : Runner.loc) f :
  (forall c, forallb (fun kv => jsonable (snd kv)) (Runner.results c) = true ->
             forallb (fun kv => jsonable (snd kv)) (Runner.results (f c)) = true) ->
  preserves keeps_json (Runner.update calc f).
Proof.
  intros Hf s r s' H. rewrite update_eq in H. inversion H; subst.
  intros Hj l c Hl. unfold upd in Hl. cbn [Runner.heap] in Hl.
  destruct (decide (calc = l)) as [<-|Hne].
  - rewrite lookup_insert_eq in Hl. inversion Hl; subst c.
    apply Hf, results_json_deref, Hj.
  - rewrite lookup_insert_ne in Hl by assumption. eapply Hj, Hl.
Qed.

Lemma set_result_json (k : string) (v : pyval) (c : Runner.QuanticsCalculation) :
  jsonable v = true ->
  forallb (fun kv => jsonable (snd kv)) (Runner.results c) = true ->
  forallb (fun kv => jsonable (snd kv)) (Runner.results (Runner.set_result k v c)) = true.
Proof. intros Hv Hc. cbn [Runner.set_result Runner.results]. now apply dict_set_jsonable. Qed.

Lemma strings_jsonable (l : list string) : jsonable (PList (map PStr l)) = true.
Proof. cbn [jsonable]. induction l as [|x l IH]; [reflexivity | exact IH]. Qed.

Lemma mapping_jsonable (m : list (string * string)) :
  jsonable (PDict (map (fun kv => (fst kv, PStr (snd kv))) m)) = true.
Proof. cbn [jsonable]. induction m as [|x m IH]; [reflexivity | exact IH]. Qed.

Ltac keeps_json_auto :=
  repeat first
    [ preserves_step keeps_json_refl keeps_json_trans
    | match goal with
      | |- preserves _ (Runner.load _) => apply (preserves_gets _ keeps_json_refl)
      | |- preserves _ (Runner.need_path ?o) => destruct o; cbn [Runner.need_path]
      | |- preserves _ (Runner.update _ (Runner.set_result _ _)) =>
          apply update_keeps_json; intros c0 Hc0; apply set_result_json;
          [first [reflexivity | apply strings_jsonable | apply mapping_jsonable] | exact Hc0]
      | |- preserves _ (Runner.update _ _) =>
          apply update_keeps_json; intros [] Hc0; exact Hc0
      | |- preserves _ (Runner.liftW _) =>
          eapply preserves_weaken; [apply same_objects_keeps_json | apply liftW_same_objects]
      | |- preserves _ Runner._save_calculations =>
          eapply preserves_weaken; [apply same_objects_keeps_json | apply save_same_objects]
      | |- preserves _ (Runner.prepare_calculation _) =>
          eapply preserves_weaken; [apply same_objects_keeps_json | apply prepare_same_objects]
      | |- preserves _ (Runner.analysis_output_dir _) =>
          eapply preserves_weaken;
          [apply same_objects_keeps_json | apply analysis_output_dir_same_objects]
      end ].

Lemma alloc_keeps_json (c : Runner.QuanticsCalculation) :
  forallb (fun kv => jsonable (snd kv)) (Runner.results c) = true ->
  preserves keeps_json (Runner.alloc c).
Proof.
  intros Hc s r s' H. unfold Runner.alloc in H. inversion H; subst.
  intros Hj l c0 Hl. cbn [Runner.heap] in Hl.
  destruct (decide (Runner.next_loc s = l)) as [<-|Hne].
  - rewrite lookup_insert_eq in Hl. now inversion Hl; subst.
  - rewrite lookup_insert_ne in Hl by assumption. eapply Hj, Hl.
Qed.

Lemma analysis_loop_keeps_json (dir : Path) (tools : list string) :
  preserves keeps_json (Runner.analysis_loop dir tools).
Proof.
  intros s r s' H. apply same_objects_keeps_json.
  destruct (analysis_loop_spec dir tools [] s) as (acc & s2 & Hloop & _ & _ & _ & Ho).
  unfold Runner.analysis_loop in H. rewrite Hloop in H. now inversion H; subst.
Qed.

(** The runner stores only JSON values in the results of a calculation:
    if the results of every calculation object are JSON values, they
    still are after [create_calculation], [prepare_calculation],
    [run_calculation] and [run_analysis], whether these return or raise. *)
Theorem results_stay_json (s : Runner.State) :
  results_json s ->
  (forall name inp op wf db,
      results_json (snd (Runner.create_calculation name inp op wf db s))) /\
  (forall calc, results_json (snd (Runner.prepare_calculation calc s))) /\
  (forall calc exe, results_json (snd (Runner.run_calculation calc exe s))) /\
  (forall calc tools, results_json (snd (Runner.run_analysis calc tools s))).
Proof.
  intros Hj.
  assert (forall A (m : ST Runner.State A), preserves keeps_json m -> results_json (snd (m s)))
    as Huse.
  { intros A m Hm. exact (Hm s _ _ (surjective_pairing _) Hj). }
  split; [|split; [|split]].
  - intros name inp op wf db. apply Huse.
    unfold Runner.create_calculation, Runner.register.
    keeps_json_auto.
    + apply alloc_keeps_json. reflexivity.
    + apply (preserves_modify keeps_json). intros s0 Hj0 l c Hl. eapply Hj0, Hl.
  - intros calc. apply Huse.
    eapply preserves_weaken; [apply same_objects_keeps_json | apply prepare_same_objects].
  - intros calc exe. apply Huse.
    unfold Runner.run_calculation, Runner.run_body, Runner.run_handler, Runner.run_finish,
      Runner._check_output_files.
    keeps_json_auto.
  - intros calc tools. apply Huse.
    unfold Runner.run_analysis.
    keeps_json_auto. apply analysis_loop_keeps_json.
Qed.

Lemma results_stay_json_witness :
  results_json (Demo.finished_state Demo.quantics_installed Demo.ho_inp).
Proof.
  assert (results_json (Demo.fresh_state Demo.quantics_installed Demo.ho_inp)) as H0.
  { intros l c Hl. unfold Demo.fresh_state in Hl. cbn [Runner.heap] in Hl.
    rewrite lookup_empty in Hl. discriminate. }
  pose proof (proj1 (results_stay_json _ H0) "ho" (Path_of_str "/data/ho.inp")
                (Path_of_str "/data/ho.op") "MCTDH" None) as H1.
  exact (proj1 (proj2 (proj2 (results_stay_json _ H1))) 0%nat "quantics").
Defined.

(** ** When the registry write returns *)

Lemma registry_data_json (s : Runner.State) :
  Reading.nodup_keys (Runner.calculations (Runner.self s)) = true ->
  jsonable (PDict (registry_data s)) = Reading.registry_json s.
Proof.
  intros Hnd. rewrite (registry_data_entries s Hnd). cbn [jsonable].
  unfold Reading.registry_json. clear Hnd.
  induction (Runner.calculations (Runner.self s)) as [|nc cs IH]; [reflexivity|].
  cbn [map forallb]. unfold entry_of at 1. cbn [snd].
  now rewrite jsonable_to_dict, IH.
Qed.

(** [_save_calculations] returns exactly when the results of every
    registered calculation are JSON values and the registry file can be
    created or replaced (its directory exists, it is not a directory
    itself, the disk is not full); it then holds the registry.  Whether it
    returns or raises, it assigns to no object.  When it raises because of
    a value that is not a JSON value, the file has been opened for writing
    and is left truncated: the registry written before is lost. *)
Theorem registry_write_returns_iff (s : Runner.State) :
  Reading.nodup_keys (Runner.calculations (Runner.self s)) = true ->
  let run := Runner._save_calculations s in
  let file := Runner.config_file (Runner.self s) in
  (fst run = Ok tt <-> Reading.registry_json s && put_ok (Runner.world s) file = true) /\
  same_objects s (snd run) /\
  (fst run = Ok tt ->
   read_content (Runner.world (snd run)) file = Some (Json (PDict (registry_data s)))) /\
  (Reading.registry_json s = false -> put_ok (Runner.world s) file = true ->
   read_content (Runner.world (snd run)) file = Some Partial).
Proof.
  intros Hnd run file. subst run.
  destruct (Runner._save_calculations s) as [r s'] eqn:Hsave. cbn [fst snd].
  pose proof (save_ok_iff s r s' Hsave) as Hiff.
  unfold save_ok in Hiff. rewrite (registry_data_json s Hnd) in Hiff. fold file in Hiff.
  split.
  { destruct r as [[]|e]; [exact Hiff|].
    split; [discriminate|]. intros H. apply Hiff in H. discriminate. }
  split; [eapply save_same_objects, Hsave|].
  split.
  { intros ->. exact (proj1 (save_written _ _ Hsave)). }
  intros Hj Hput. rewrite save_eq in Hsave. fold file in Hsave.
  rewrite liftW_eq in Hsave. unfold json_dump_file in Hsave.
  rewrite (registry_data_json s Hnd), Hj in Hsave.
  rewrite bind_eq in Hsave. unfold write_file in Hsave. rewrite bind_eq in Hsave.
  unfold emit, modify in Hsave. cbv iota beta in Hsave.
  destruct (put_file_spec file Partial (emit_w (EvWrite file) (Runner.world s))) as [Hok _].
  rewrite (Hok Hput) in Hsave. cbn [fst snd raise] in Hsave.
  inversion Hsave; subst r s'. cbn [Runner.world set_world].
  exact (read_content_put file Partial (emit_w (EvWrite file) (Runner.world s))).
Qed.

Lemma registry_write_returns_iff_witness :
  fst (Runner._save_calculations (Demo.finished_state Demo.quantics_installed Demo.ho_inp))
  = Ok tt.
Proof.
  apply (proj1 (registry_write_returns_iff
                  (Demo.finished_state Demo.quantics_installed Demo.ho_inp)
                  ltac:(vm_compute; reflexivity))).
  vm_compute. reflexivity.
Defined.

(** * The status table *)

Lemma rows_printed (s : Runner.State) (ls : list Runner.loc) :
  forall t, Runner.heap t = Runner.heap s ->
  exists t',
    for_each ls (fun l => c <- Runner.load l ;; Runner.liftW (print (Runner.status_row c))) t
    = (Ok tt, t') /\
    same_objects t t' /\
    fs (Runner.world t') = fs (Runner.world t) /\
    trace (Runner.world t')
    = trace (Runner.world t)
      ++ map (fun l => EvPrint (Runner.status_row (Runner.deref s l))) ls.
Proof.
  induction ls as [|l ls IH]; intros t Hh.
  - exists t. cbn [for_each map]. rewrite app_nil_r. repeat split; reflexivity.
  - cbn [for_each map].
    assert ((c <- Runner.load l ;; Runner.liftW (print (Runner.status_row c))) t
            = (Ok tt, set_world (emit_w (EvPrint (Runner.status_row (Runner.deref t l)))
                                        (Runner.world t)) t)) as Hb by reflexivity.
    rewrite (bind_ok _ _ _ _ _ Hb).
    destruct (IH (set_world (emit_w (EvPrint (Runner.status_row (Runner.deref t l)))
                                    (Runner.world t)) t) Hh)
      as (t' & Hrun & Ho & Hfs & Htr).
    exists t'. split; [exact Hrun|].
    split; [eapply same_objects_trans; [apply same_objects_set_world | exact Ho]|].
    split; [exact Hfs|].
    rewrite Htr. cbn [Runner.world set_world trace emit_w].
    rewrite <- app_assoc. cbn [app].
    now rewrite (deref_same_heap s t l Hh).
Qed.

(** [print_status] reads only: it returns, assigns to no object, not to
    the registry and to no file.  For an empty registry it prints one line
    that says so; otherwise it prints the title, the header and the rule,
    and then one line per calculation, in the order of registration. *)
Theorem print_status_reads_only (s : Runner.State) :
  exists s',
    Runner.print_status s = (Ok tt, s') /\
    same_objects s s' /\
    fs (Runner.world s') = fs (Runner.world s) /\
    trace (Runner.world s')
    = trace (Runner.world s)
      ++ match Runner.calculations (Runner.self s) with
         | [] => [EvPrint "No calculation records found"]
         | calcs =>
             EvPrint (String nl "=== QUANTICS Calculation Status ===")
             :: EvPrint Runner.status_header
             :: EvPrint (repeat_char "-" 70)
             :: map (fun nc => EvPrint (Runner.status_row (Runner.deref s (snd nc)))) calcs
         end.
Proof.
  unfold Runner.print_status. rewrite bind_eq. unfold get. cbv iota beta.
  destruct (Runner.calculations (Runner.self s)) as [|nc calcs] eqn:Hc.
  - rewrite liftW_print. eexists. split; [reflexivity|].
    split; [apply same_objects_set_world|]. split; reflexivity.
  - rewrite (bind_ok _ _ _ _ _ (liftW_print _ _)).
    rewrite (bind_ok _ _ _ _ _ (liftW_print _ _)).
    rewrite (bind_ok _ _ _ _ _ (liftW_print _ _)).
    match goal with
    | |- context [for_each _ _ ?st] =>
        destruct (rows_printed s (map snd (nc :: calcs)) st eq_refl)
          as (t' & Hrun & Ho & Hfs & Htr)
    end.
    exists t'. split; [exact Hrun|].
    split.
    { eapply same_objects_trans; [| exact Ho]. now repeat split. }
    split; [exact Hfs|].
    rewrite Htr. cbn [Runner.world set_world trace emit_w].
    rewrite <- !app_assoc. cbn [app]. now rewrite map_map.
Qed.

(** ** The width of a row *)

Lemma length_app (a b : string) :
  String.length (a +:+ b) = (String.length a + String.length b)%nat.
Proof. induction a as [|c a IH]; [reflexivity|]. simpl. now f_equal. Qed.

Lemma length_repeat_char (c : ascii) (n : nat) : String.length (repeat_char c n) = n.
Proof. unfold repeat_char. induction n as [|n IH]; [reflexivity|]. simpl. now f_equal. Qed.

Lemma length_ljust (width : nat) (s : string) :
  String.length (ljust width s) = Nat.max width (String.length s).
Proof. unfold ljust. rewrite length_app, length_repeat_char. lia. Qed.

Lemma length_digits (w : nat) (n : Z) (rest : string) :
  String.length (digits w n rest) = (w + String.length rest)%nat.
Proof.
  revert n rest. induction w as [|w IH]; intros n rest; [reflexivity|].
  cbn [digits]. rewrite IH. cbn [String.length]. lia.
Qed.

Lemma length_strftime_seconds (d : datetime) :
  String.length (strftime_seconds d) = 19%nat.
Proof.
  unfold strftime_seconds.
  repeat (rewrite length_digits; cbn [String.length]). reflexivity.
Qed.

(** A row of the status table is as wide as the header, 63 characters,
    exactly when the name has at most 20 characters and the status and
    the workflow type at most 10 each; every character beyond makes the
    row that much wider, so that its later columns no longer stand under
    the header. *)
Theorem status_row_width (c : Runner.QuanticsCalculation) :
  String.length Runner.status_header = 63%nat /\
  String.length (Runner.status_row c)
  = (63 + (String.length (Runner.name c) - 20)
        + (String.length (Runner.status c) - 10)
        + (String.length (Runner.workflow_type c) - 10))%nat /\
  (String.length (Runner.status_row c) = String.length Runner.status_header <->
   (String.length (Runner.name c) <= 20 /\ String.length (Runner.status c) <= 10 /\
    String.length (Runner.workflow_type c) <= 10)%nat).
Proof.
  assert (String.length Runner.status_header = 63%nat) as Hh by reflexivity.
  assert (String.length (Runner.status_row c)
          = (63 + (String.length (Runner.name c) - 20)
             + (String.length (Runner.status c) - 10)
             + (String.length (Runner.workflow_type c) - 10))%nat) as Hrow.
  { unfold Runner.status_row. rewrite !length_app, !length_ljust.
    assert (String.length
              (match Runner.start_time c with
               | Some t => strftime_seconds t
               | None => "Not started"
               end) <= 20)%nat as Hst.
    { destruct (Runner.start_time c); [rewrite length_strftime_seconds; lia | cbn; lia]. }
    change (String.length " ") with 1%nat. lia. }
  split; [exact Hh|]. split; [exact Hrow|]. rewrite Hrow, Hh. lia.
Qed.

(** * A creation that fails *)

Lemma mkdir_raised_fs (p : Path) (w w' : World) (e : exn) :
  mkdir p w = (Raise e, w') -> fs w' = fs w.
Proof.
  unfold mkdir. rewrite bind_eq. unfold emit, modify. cbv iota beta.
  rewrite bind_eq. unfold get. cbv iota beta. unfold mkdir_resolved.
  change (fs (emit_w (EvMkdir p) w)) with (fs w).
  change (cwd (emit_w (EvMkdir p) w)) with (cwd w).
  change (disk_full (emit_w (EvMkdir p) w)) with (disk_full w).
  destruct (fs w !! str (resolve (cwd w) p)) as [[c|]|].
  - intros H. now inversion H.
  - discriminate.
  - destruct (negb (is_dir (emit_w (EvMkdir p) w) (parent (resolve (cwd w) p)))).
    + intros H. now inversion H.
    + destruct (disk_full w); [|discriminate]. intros H. now inversion H.
Qed.

Lemma dict_mem_set_eq {V} (k : string) (v : V) (d : list (string * V)) :
  dict_mem k (dict_set k v d) = true.
Proof. unfold dict_mem. now rewrite dict_get_set_eq. Qed.

(** [create_calculation] fails in three ways.  With a name that is
    taken it raises [ValueError] and changes nothing.  When the working
    directory cannot be made, the name stays free and no file or
    directory has been created.  When the registry cannot be written, the
    calculation has been registered already: the name is taken by a
    calculation in the state "created", and creating a calculation of
    this name again raises [ValueError], with whatever files. *)
Theorem create_calculation_failure (name : string) (inp_file op_file : Path)
        (workflow_type : string) (db_folder : option Path) (s s' : Runner.State) (e : exn) :
  Runner.create_calculation name inp_file op_file workflow_type db_folder s = (Raise e, s') ->
  let taken := mkExn ValueError ("Calculation name '" +:+ name +:+ "' already exists") in
  (dict_mem name (Runner.calculations (Runner.self s)) = true /\ e = taken /\ s' = s) \/
  (dict_mem name (Runner.calculations (Runner.self s)) = false /\
   Runner.self s' = Runner.self s /\
   fs (Runner.world s') = fs (Runner.world s)) \/
  (dict_mem name (Runner.calculations (Runner.self s)) = false /\
   fst (Runner.get_calculation name s') = Ok (Some (Runner.next_loc s)) /\
   Runner.status (Runner.deref s' (Runner.next_loc s)) = "created" /\
   forall i o w d, fst (Runner.create_calculation name i o w d s') = Raise taken).
Proof.
  intros H taken. unfold Runner.create_calculation in H.
  rewrite bind_eq in H. unfold get in H. cbv iota beta in H.
  destruct (dict_mem name (Runner.calculations (Runner.self s))) eqn:Hfree.
  { left. unfold raise in H. inversion H. now repeat split. }
  right.
  rewrite bind_eq in H. unfold Runner.alloc in H. cbv iota beta in H.
  set (calc0 := Runner.next_loc s) in *.
  set (s1 := Runner.mkState (Runner.self s) (<[calc0 := Runner.new_calc name]> (Runner.heap s))
                            (S calc0) (Runner.world s)) in *.
  rewrite (bind_ok _ _ _ _ _ (update_eq _ _ _)) in H.
  rewrite (bind_ok _ _ _ _ _ (update_eq _ _ _)) in H.
  rewrite (bind_ok _ _ _ _ _ (update_eq _ _ _)) in H.
  set (s2 := upd calc0 (Runner.set_workflow_type workflow_type)
               (upd calc0 (Runner.set_op_file (Some (resolve (cwd (Runner.world s)) op_file)))
                  (upd calc0 (Runner.set_inp_file
                                (Some (resolve (cwd (Runner.world s)) inp_file))) s1))) in *.
  assert (exists s3,
             (match db_folder with
              | Some d =>
                  if String.eqb workflow_type "DD-vMCG"
                  then Runner.update calc0
                         (Runner.set_db_folder (Some (resolve (cwd (Runner.world s)) d)))
                  else ret tt
              | None => ret tt
              end) s2 = (Ok tt, s3) /\
             Runner.world s3 = Runner.world s /\ Runner.self s3 = Runner.self s /\
             Runner.status (Runner.deref s3 calc0) = "created")
    as (s3 & Hdb & Hw3 & Hself3 & Hst3).
  { assert (Runner.status (Runner.deref s2 calc0) = "created") as Hc2.
    { unfold s2. rewrite !deref_upd_eq. unfold Runner.deref, s1. cbn [Runner.heap].
      now rewrite lookup_insert_eq. }
    destruct db_folder as [d|];
      [destruct (String.eqb workflow_type "DD-vMCG")|].
    - eexists. split; [apply update_eq|]. split; [reflexivity|]. split; [reflexivity|].
      rewrite deref_upd_eq. exact Hc2.
    - exists s2. now repeat split.
    - exists s2. now repeat split. }
  rewrite (bind_ok _ _ _ _ _ Hdb) in H.
  rewrite (bind_ok _ _ _ _ _ (liftW_now _)) in H. rewrite Hw3 in H.
  set (wd := Runner.runs_directory (Runner.self s)
             // (name +:+ "_" +:+ strftime_stamp (clock (Runner.world s)))) in *.
  rewrite (bind_ok _ _ _ _ _ (update_eq _ _ _)) in H.
  set (s4 := upd calc0 (Runner.set_working_directory (Some wd)) s3) in *.
  destruct (Runner.liftW (mkdir wd) s4) as [[[]|e5] s5] eqn:Hmk.
  2:{ rewrite (bind_raised _ _ _ _ _ Hmk) in H. inversion H; subst e5 s5. clear H.
      left. split; [reflexivity|].
      rewrite liftW_eq in Hmk.
      destruct (mkdir wd (Runner.world s4)) as [r5 w5] eqn:Hm. cbn [fst snd] in Hmk.
      inversion Hmk; subst r5 s'. cbn [Runner.self Runner.world set_world].
      split; [exact Hself3|].
      rewrite (mkdir_raised_fs _ _ _ _ Hm).
      change (Runner.world s4) with (Runner.world s3). now rewrite Hw3. }
  rewrite (bind_ok _ _ _ _ _ Hmk) in H.
  apply liftW_inv_ok in Hmk as (w5 & Hmk & ->).
  rewrite bind_eq in H. unfold Runner.register, modify in H. cbv iota beta in H.
  match type of H with
  | bind _ _ ?st = _ => set (s6 := st) in *
  end.
  destruct (Runner._save_calculations s6) as [[[]|e7] s7] eqn:Hsave.
  { rewrite (bind_ok _ _ _ _ _ Hsave) in H. discriminate. }
  rewrite (bind_raised _ _ _ _ _ Hsave) in H. inversion H; subst e7 s7. clear H.
  right. split; [reflexivity|].
  destruct (save_same_objects _ _ _ Hsave) as (Hh7 & Hs7 & _).
  assert (Runner.calculations (Runner.self s6)
          = dict_set name calc0 (Runner.calculations (Runner.self s))) as Hreg.
  { unfold s6. cbn [Runner.self Runner.calculations set_world].
    change (Runner.self s4) with (Runner.self s3). now rewrite Hself3. }
  split.
  { unfold Runner.get_calculation, gets. cbn [fst]. rewrite Hs7, Hreg.
    now rewrite dict_get_set_eq. }
  split.
  { rewrite (deref_same_heap _ _ calc0 Hh7).
    unfold s6, Runner.deref. cbn [Runner.heap set_world].
    change (default (Runner.new_calc "") (Runner.heap s4 !! calc0))
      with (Runner.deref s4 calc0).
    unfold s4. rewrite deref_upd_eq. exact Hst3. }
  intros i o w d. unfold Runner.create_calculation.
  rewrite bind_eq. unfold get. cbv iota beta.
  rewrite Hs7, Hreg, dict_mem_set_eq. reflexivity.
Qed.

Lemma create_calculation_failure_witness :
  let s := Demo.blocked_registry_state in
  let r := Runner.create_calculation "ho" (Path_of_str "/data/ho.inp")
             (Path_of_str "/data/ho.op") "MCTDH" None s in
  fst (Runner.create_calculation "ho" (Path_of_str "/data/ho.inp")
         (Path_of_str "/data/ho.op") "MCTDH" None (snd r))
  = Raise (mkExn ValueError "Calculation name 'ho' already exists").
Proof.
  intros s r.
  assert (exists e, r = (Raise e, snd r)) as (e & Hr)
      by (eexists; vm_compute; reflexivity).
  destruct (create_calculation_failure "ho" (Path_of_str "/data/ho.inp")
              (Path_of_str "/data/ho.op") "MCTDH" None s (snd r) e Hr)
    as [(Hm & _)|[(_ & Hself & _)|(_ & _ & _ & Hagain)]].
  - vm_compute in Hm. discriminate.
  - apply (f_equal Runner.calculations) in Hself. vm_compute in Hself. discriminate.
  - apply Hagain.
Defined.

